(** * PantryPal: ingredient search, fallback, favorites and accounts

    A shallow embedding of [src/app.py].  Python strings are modelled as
    [string] (code points below 256), JSON payloads as a small value type,
    dictionaries as [gmap], the Spoonacular service as an arbitrary
    history-dependent responder, and the effects of the request handlers
    (network calls, session writes, database writes) by explicit state
    passing. *)

From Stdlib Require Import ZArith List Ascii String Bool Lia Sorted Permutation.
From Stdlib Require Import DecimalString.
From stdpp Require Import base option list gmap strings.

Local Open Scope string_scope.
Local Open Scope list_scope.
Set Warnings "-register-all".

(** ** Python string primitives used by the handlers *)

Module PyStr.

(** [str.isspace] on one code point below 256: TAB..CR, FS..US, space,
    NEL and NBSP. *)
Definition is_space (c : ascii) : bool :=
  let n := nat_of_ascii c in
  (((9 <=? n) && (n <=? 13)) || ((28 <=? n) && (n <=? 32))
   || (n =? 133) || (n =? 160))%nat.

(** [str.lower] on one code point below 256: A..Z and the Latin-1
    capitals (all of 192..222 but the multiplication sign 215). *)
Definition lower_char (c : ascii) : ascii :=
  let n := nat_of_ascii c in
  if (((65 <=? n) && (n <=? 90))
      || ((192 <=? n) && (n <=? 222) && negb (n =? 215)))%nat
  then ascii_of_nat (n + 32) else c.

Fixpoint lower (s : string) : string :=
  match s with
  | EmptyString => EmptyString
  | String c s' => String (lower_char c) (lower s')
  end.

Fixpoint lstrip (s : string) : string :=
  match s with
  | EmptyString => EmptyString
  | String c s' => if is_space c then lstrip s' else s
  end.

Fixpoint rstrip (s : string) : string :=
  match s with
  | EmptyString => EmptyString
  | String c s' =>
      match rstrip s' with
      | EmptyString => if is_space c then EmptyString else String c EmptyString
      | r => String c r
      end
  end.

(** [s.strip()] *)
Definition strip (s : string) : string := rstrip (lstrip s).

(** [s.split(sep)] for a one-character separator; never returns [[]]. *)
Fixpoint split (sep : ascii) (s : string) : list string :=
  match s with
  | EmptyString => [EmptyString]
  | String c s' =>
      if Ascii.eqb c sep then EmptyString :: split sep s'
      else match split sep s' with
           | t :: ts => String c t :: ts
           | [] => [String c EmptyString]
           end
  end.

(** [sep.join(l)] *)
Fixpoint join (sep : string) (l : list string) : string :=
  match l with
  | [] => EmptyString
  | [x] => x
  | x :: xs => x +:+ sep +:+ join sep xs
  end.

(** [s.startswith(c)] for a one-character prefix *)
Definition startswith (c : ascii) (s : string) : bool :=
  match s with
  | String d _ => Ascii.eqb d c
  | EmptyString => false
  end.

(** truthiness of a string: [bool(s)] *)
Definition truthy (s : string) : bool :=
  match s with EmptyString => false | _ => true end.

Fixpoint has_char (c : ascii) (s : string) : bool :=
  match s with
  | EmptyString => false
  | String d s' => Ascii.eqb d c || has_char c s'
  end.

Fixpoint is_prefix (p s : string) : bool :=
  match p, s with
  | EmptyString, _ => true
  | String a p', String b s' => Ascii.eqb a b && is_prefix p' s'
  | String _ _, EmptyString => false
  end.

(** [p in s] for two strings *)
Fixpoint is_substring (p s : string) : bool :=
  is_prefix p s ||
  match s with
  | EmptyString => false
  | String _ s' => is_substring p s'
  end.

(** A string that does not begin with white space. *)
Definition no_lead (s : string) : Prop :=
  match s with
  | String c _ => is_space c = false
  | EmptyString => True
  end.

End PyStr.

(** ** Ingredient normalisation *)

Module Ingredients.
Import PyStr.

(** The exclusion marker of the search form. *)
Definition marker : ascii := "#"%char.
Definition comma : ascii := ","%char.

(** [ingredients], lines 430-431: the tokens kept for the search and the
    text handed to [get_recipes]. *)
Definition handler_ingredients_list (ingredients_text : string) : list string :=
  map strip
    (List.filter (fun ing => truthy (strip ing) && negb (startswith marker (strip ing)))
       (split comma ingredients_text)).

Definition handler_ingredients_text (ingredients_text : string) : string :=
  join ", " (handler_ingredients_list ingredients_text).

(** [get_recipes] line 148 and [get_fallback_recipes] line 268. *)
Definition ingredients_list (ingredients : string) : list string :=
  map (fun ing => lower (strip ing))
    (List.filter (fun ing => truthy (strip ing)) (split comma ingredients)).

End Ingredients.

(** ** JSON payloads *)

Module Json.

(** The JSON values the code reads: [null], integers, strings, arrays
    and objects (objects nested inside a value keep their key order). *)
Inductive value : Type :=
| VNone
| VInt (z : Z)
| VStr (s : string)
| VList (l : list value)
| VObj (kvs : list (string * value)).

(** A decoded JSON object, a Python [dict] with string keys. *)
Abbreviation dict := (gmap string value).

(** [bool(v)] *)
Definition truthy (v : value) : bool :=
  match v with
  | VNone => false
  | VInt z => negb (z =? 0)%Z
  | VStr s => PyStr.truthy s
  | VList l => match l with [] => false | _ => true end
  | VObj kvs => match kvs with [] => false | _ => true end
  end.

(** [d.get(k)] and [d.get(k, dflt)] *)
Definition get (d : dict) (k : string) : value := default VNone (d !! k).
Definition get_default (d : dict) (k : string) (dflt : value) : value :=
  default dflt (d !! k).

(** Hashable values, the keys of [all_recipes] and
    [ingredient_match_count]. *)
Inductive key : Type :=
| KNone
| KInt (z : Z)
| KStr (s : string).

(** [hash(v)]: [None] stands for [TypeError: unhashable type]. *)
Definition as_key (v : value) : option key :=
  match v with
  | VNone => Some KNone
  | VInt z => Some (KInt z)
  | VStr s => Some (KStr s)
  | VList _ | VObj _ => None
  end.

Definition key_code (k : key) : unit + (Z + string) :=
  match k with
  | KNone => inl tt
  | KInt z => inr (inl z)
  | KStr s => inr (inr s)
  end.

Definition key_decode (c : unit + (Z + string)) : key :=
  match c with
  | inl _ => KNone
  | inr (inl z) => KInt z
  | inr (inr s) => KStr s
  end.

#[export] Instance key_eq_dec : EqDecision key.
Proof. solve_decision. Defined.

#[export] Instance key_countable : Countable key.
Proof.
  apply (inj_countable' key_code key_decode).
  intros []; reflexivity.
Defined.

(** [needle in hay] for a string [needle]; [None] stands for
    [TypeError: argument is not iterable]. *)
Definition py_in (needle : string) (hay : value) : option bool :=
  match hay with
  | VList l =>
      Some (existsb (fun v => match v with
                              | VStr s => String.eqb needle s
                              | _ => false
                              end) l)
  | VStr s => Some (PyStr.is_substring needle s)
  | VObj kvs => Some (existsb (fun kv => String.eqb needle (fst kv)) kvs)
  | VNone | VInt _ => None
  end.

End Json.

(** ** The recipe service *)

Module Api.
Import Json.

(** What a call can raise: [requests.HTTPError] from [raise_for_status],
    or anything else (timeout, connection error, undecodable body). *)
Inductive failure : Type :=
| HTTPFailure (status : Z)
| OtherFailure (msg : string).

(** Query parameters of [complexSearch] (lines 216-232);
    [addRecipeInformation] is always true. *)
Record complex_params : Type := {
  cs_number : Z;
  cs_includeIngredients : string;
  cs_maxReadyTime : option Z;
  cs_cuisine : option string;
  cs_type : option string;
  cs_few_ingredients : bool  (* minIngredients = 1, maxIngredients = 5 *)
}.

(** The three calls of the search code; [findByIngredients] always has
    ranking 1 and [ignorePantry]. *)
Inductive request : Type :=
| FindByIngredients (ingredients : string) (number : Z)
| ComplexSearch (params : complex_params)
| Information (recipe_id : value).

(** The service: each answer may depend on every request sent so far.
    A body is taken in the shape the endpoint documents: an array of
    objects, an object with an optional [results] array, an object. *)
Record server : Type := {
  find_by_ingredients : list request -> string -> Z -> failure + list dict;
  complex_search : list request -> complex_params -> failure + option (list dict);
  information : list request -> value -> failure + dict
}.

Inductive func : Type := GetRecipes | GetFallbackRecipes.

(** The observable effects of a run: requests sent, in order, and the
    search functions entered, in order. *)
Record world : Type := {
  sent : list request;
  entered : list func
}.

Definition start : world := {| sent := []; entered := [] |}.

Definition enter (f : func) (w : world) : world :=
  {| sent := sent w; entered := entered w ++ [f] |}.

Definition record (q : request) (w : world) : world :=
  {| sent := sent w ++ [q]; entered := entered w |}.

Section Calls.
Variable srv : server.

Definition call_find (ingredient : string) (number : Z) (w : world)
  : (failure + list dict) * world :=
  (find_by_ingredients srv (sent w) ingredient number,
   record (FindByIngredients ingredient number) w).

Definition call_complex (params : complex_params) (w : world)
  : (failure + option (list dict)) * world :=
  (complex_search srv (sent w) params, record (ComplexSearch params) w).

Definition call_information (recipe_id : value) (w : world)
  : (failure + dict) * world :=
  (information srv (sent w) recipe_id, record (Information recipe_id) w).
End Calls.

End Api.

(** ** Python list primitives *)

Module PyList.

(** [l[:num]] *)
Definition py_take {A : Type} (num : Z) (l : list A) : list A :=
  if (0 <=? num)%Z then take (Z.to_nat num) l
  else take (length l - Z.to_nat (- num)) l.

(** One step of a stable sort with [reverse=True]: [x] stood before every
    element of [l] in the input, so it stays in front of those whose key
    is not larger. *)
Fixpoint insert_desc {A : Type} (key : A -> nat) (x : A) (l : list A) : list A :=
  match l with
  | [] => [x]
  | y :: l' =>
      if (key y <=? key x)%nat then x :: l else y :: insert_desc key x l'
  end.

(** [l.sort(key=key, reverse=True)]: the stable arrangement of [l] by
    non-increasing key. *)
Fixpoint sort_desc {A : Type} (key : A -> nat) (l : list A) : list A :=
  match l with
  | [] => []
  | x :: l' => insert_desc key x (sort_desc key l')
  end.

End PyList.

(** ** Recipe search: [get_recipes] and [get_fallback_recipes] *)

Module Search.
Import PyStr Json Api PyList Ingredients.

(** What the search functions raise. *)
Inductive exn : Type :=
| RuntimeError (msg : string)
| HTTPError (status : Z).

Definition missing_key_message : string :=
  "API key not set. Add SPOONACULAR_API_KEY to .env file".

Definition fetch_error_prefix : string := "Error fetching recipes: ".

(** The two dictionaries of the OR search: [all_recipes] in insertion
    order, and [ingredient_match_count]. *)
Record agg : Type := {
  all_recipes : list (key * dict);
  ingredient_match_count : gmap key nat
}.

Definition empty_agg : agg :=
  {| all_recipes := []; ingredient_match_count := ∅ |}.

(** [k in all_recipes] *)
Definition has_key (k : key) (all : list (key * dict)) : bool :=
  existsb (fun kv => bool_decide (fst kv = k)) all.

(** Lines 174-179, the body of [for recipe in recipes]; the flag says
    that an exception left the loop ([TypeError] on an unhashable id,
    [KeyError] on a missing counter), with the updates made so far kept. *)
Definition add_recipe (st : agg) (recipe : dict) : agg * bool :=
  let recipe_id := get recipe "id" in
  if truthy recipe_id then
    match as_key recipe_id with
    | None => (st, true)
    | Some k =>
        let st1 :=
          if has_key k (all_recipes st) then st
          else {| all_recipes := all_recipes st ++ [(k, recipe)];
                  ingredient_match_count := <[k := 0%nat]> (ingredient_match_count st) |} in
        match ingredient_match_count st1 !! k with
        | Some n =>
            ({| all_recipes := all_recipes st1;
                ingredient_match_count := <[k := S n]> (ingredient_match_count st1) |},
             false)
        | None => (st1, true)
        end
    end
  else (st, false).

Fixpoint add_recipes (st : agg) (recipes : list dict) : agg :=
  match recipes with
  | [] => st
  | recipe :: rest =>
      let '(st', raised) := add_recipe st recipe in
      if raised then st' else add_recipes st' rest
  end.

(** The trace of [add_recipes] on one response: the keys it counts, in
    the order it counts them.  The invariant of the two dictionaries is
    stated over this trace. *)
Fixpoint counted (recipes : list dict) : list key :=
  match recipes with
  | [] => []
  | recipe :: rest =>
      if truthy (get recipe "id") then
        match as_key (get recipe "id") with
        | Some k => k :: counted rest
        | None => []
        end
      else counted rest
  end.

(** The trace of the per-ingredient loop: the keys counted over all
    answers, in order. *)
Definition all_counted (answered : list (string * list dict)) : list key :=
  concat (map (fun a => counted (snd a)) answered).

(** [r.get("id", 0)] as a dictionary key. *)
Definition id_key (r : dict) : option key :=
  as_key (get_default r "id" (VInt 0)).

(** [ingredient_match_count.get(r.get("id", 0), 0)]; an unhashable id
    cannot occur on a recipe stored in [all_recipes]. *)
Definition match_count_opt (cnt : gmap key nat) (r : dict) : option nat :=
  k ← id_key r; Some (default 0%nat (cnt !! k)).

Definition match_count_of (cnt : gmap key nat) (r : dict) : nat :=
  default 0%nat (match_count_opt cnt r).

(** What the filters of lines 203-208 do with one recipe. *)
Inductive verdict : Type := Keep | Drop | Raise.

Definition time_check (max_time : option Z) (info : dict) : verdict :=
  match max_time with
  | None => Keep
  | Some m =>
      match get_default info "readyInMinutes" (VInt 0) with
      | VInt n => if (n >? m)%Z then Drop else Keep
      | _ => Raise
      end
  end.

Definition member_check (wanted : option string) (field : string) (info : dict)
  : verdict :=
  match wanted with
  | None => Keep
  | Some c =>
      if PyStr.truthy c then
        match py_in c (get_default info field (VList [])) with
        | Some true => Keep
        | Some false => Drop
        | None => Raise
        end
      else Keep
  end.

Definition or_filters (max_time : option Z) (cuisine dish_type : option string)
    (info : dict) : verdict :=
  match time_check max_time info with
  | Keep =>
      match member_check cuisine "cuisines" info with
      | Keep => member_check dish_type "dishTypes" info
      | v => v
      end
  | v => v
  end.

(** A loop over recipes whose body either appends a recipe or skips it. *)
Fixpoint for_each (body : dict -> world -> option dict * world)
    (recipes : list dict) (w : world) : list dict * world :=
  match recipes with
  | [] => ([], w)
  | recipe :: rest =>
      let '(o, w1) := body recipe w in
      let '(out, w2) := for_each body rest w1 in
      (match o with Some r => r :: out | None => out end, w2)
  end.

Definition opt_truthy (o : option string) : option string :=
  match o with
  | Some s => if PyStr.truthy s then Some s else None
  | None => None
  end.

Section WithService.
(** [api_key], read from the environment at start-up. *)
Variable api_key : option string.
Variable srv : server.

(** [not api_key] *)
Definition key_missing : bool :=
  match api_key with
  | Some k => negb (PyStr.truthy k)
  | None => true
  end.

(** Lines 158-181: one [findByIngredients] call per ingredient; a
    failing call is skipped. *)
Fixpoint collect (ingredients_list : list string) (st : agg) (w : world)
  : agg * world :=
  match ingredients_list with
  | [] => (st, w)
  | ingredient :: rest =>
      let '(resp, w1) := call_find srv ingredient 50 w in
      match resp with
      | inl _ => collect rest st w1
      | inr recipes => collect rest (add_recipes st recipes) w1
      end
  end.

(** Lines 185-187 and 298-300. *)
Definition ranked (st : agg) (num : Z) : list dict :=
  py_take num
    (sort_desc (match_count_of (ingredient_match_count st))
       (map snd (all_recipes st))).

(** Lines 192-211, the body of the enrichment loop of the OR search. *)
Definition enrich_or (max_time : option Z) (cuisine dish_type : option string)
    (recipe : dict) (w : world) : option dict * world :=
  match recipe !! "id" with
  | None => (Some recipe, w)
  | Some recipe_id =>
      let '(resp, w1) := call_information srv recipe_id w in
      match resp with
      | inl _ => (Some recipe, w1)
      | inr info =>
          let r1 := <["readyInMinutes" := get info "readyInMinutes"]> recipe in
          let r2 := <["cuisines" := get_default info "cuisines" (VList [])]> r1 in
          let r3 := <["image" :=
                      get_default info "image" (get_default r2 "image" (VStr ""))]> r2 in
          match or_filters max_time cuisine dish_type info with
          | Drop => (None, w1)
          | Keep | Raise => (Some r3, w1)
          end
      end
  end.

(** Lines 243-254, the body of the enrichment loop of the AND search. *)
Definition enrich_and (recipe : dict) (w : world) : option dict * world :=
  match recipe !! "id" with
  | None => (Some recipe, w)
  | Some recipe_id =>
      let '(resp, w1) := call_information srv recipe_id w in
      match resp with
      | inl _ => (Some recipe, w1)
      | inr info =>
          let r1 := <["readyInMinutes" := get info "readyInMinutes"]> recipe in
          let r2 := <["cuisines" := get_default info "cuisines" (VList [])]> r1 in
          (Some r2, w1)
      end
  end.

(** Lines 305-317, the body of the enrichment loop of the fallback. *)
Definition enrich_fallback (cnt : gmap key nat) (recipe : dict) (w : world)
  : option dict * world :=
  match recipe !! "id" with
  | None => (None, w)
  | Some recipe_id =>
      let '(resp, w1) := call_information srv recipe_id w in
      match resp with
      | inl _ => (None, w1)
      | inr info =>
          let r1 := <["readyInMinutes" := get info "readyInMinutes"]> recipe in
          let r2 := <["cuisines" := get_default info "cuisines" (VList [])]> r1 in
          let r3 := <["image" :=
                      get_default info "image" (get_default r2 "image" (VStr ""))]> r2 in
          match match_count_opt cnt r3 with
          | Some n => (Some (<["match_count" := VInt (Z.of_nat n)]> r3), w1)
          | None => (None, w1)
          end
      end
  end.

Definition get_recipes (ingredients : string) (max_time : option Z)
    (cuisine : option string) (num : Z) (search_type : string)
    (dish_type : option string) (low_ingredient : bool) (w0 : world)
  : (exn + list dict) * world :=
  let w := enter GetRecipes w0 in
  if key_missing then (inl (RuntimeError missing_key_message), w)
  else if String.eqb search_type "OR" then
    let '(st, w1) := collect (ingredients_list ingredients) empty_agg w in
    let '(out, w2) :=
      for_each (enrich_or max_time cuisine dish_type) (ranked st num) w1 in
    (inr out, w2)
  else
    let params :=
      {| cs_number := num;
         cs_includeIngredients := ingredients;
         cs_maxReadyTime := max_time;
         cs_cuisine := opt_truthy cuisine;
         cs_type := opt_truthy dish_type;
         cs_few_ingredients := low_ingredient |} in
    let '(resp, w1) := call_complex srv params w in
    match resp with
    | inl (HTTPFailure status) => (inl (HTTPError status), w1)
    | inl (OtherFailure msg) =>
        (inl (RuntimeError (fetch_error_prefix +:+ msg)), w1)
    | inr results =>
        let '(out, w2) := for_each enrich_and (default [] results) w1 in
        (inr out, w2)
    end.

(** Lines 262-318; nothing in it raises. *)
Definition get_fallback_recipes (ingredients : string) (num : Z) (w0 : world)
  : (exn + list dict) * world :=
  let w := enter GetFallbackRecipes w0 in
  if key_missing then (inr [], w)
  else
    let '(st, w1) := collect (ingredients_list ingredients) empty_agg w in
    let '(out, w2) :=
      for_each (enrich_fallback (ingredient_match_count st)) (ranked st num) w1 in
    (inr out, w2).

(** The [findByIngredients] calls of [collect] that succeeded, in the
    order of the calls: the ingredient asked for and the body received. *)
Fixpoint answers (ingredients_list : list string) (w : world)
  : list (string * list dict) :=
  match ingredients_list with
  | [] => []
  | ingredient :: rest =>
      let '(resp, w1) := call_find srv ingredient 50 w in
      match resp with
      | inl _ => answers rest w1
      | inr recipes => (ingredient, recipes) :: answers rest w1
      end
  end.

End WithService.

End Search.

(** ** The ingredient-search page: [ingredients] and its session *)

Module Page.
Import PyStr Json Api Ingredients Search.

(** The fields of a submitted search form (lines 426-439). *)
Record form : Type := {
  f_ingredients : string;
  f_max_time : option Z;      (* the select field: empty, or a numeral *)
  f_cuisine : string;
  f_search_type : string;
  f_dish_type : string;
  f_low_ingredient : bool
}.

(** The keys of the Flask session the page uses. *)
Record session : Type := {
  s_all_recipes : option (list dict);
  s_is_fallback : option bool;
  s_search_params : option form
}.

Definition empty_session : session :=
  {| s_all_recipes := None; s_is_fallback := None; s_search_params := None |}.

(** The messages shown above the results. *)
Inductive page_error : Type :=
| NoExactMatches
| NoRecipesFound
| QuotaExceeded
| InvalidKey
| TooManyRequests
| ApiError (status : Z)
| SomethingWentWrong (msg : string)
| ShowingShared.

Record page : Type := {
  recipes : option (list dict);
  error : option page_error
}.

(** One entry of [recipes_to_store] (lines 334-345). *)
Definition stored (recipe : dict) : dict :=
  <["id" := get recipe "id"]>
  (<["title" := get recipe "title"]>
  (<["image" := get_default recipe "image" (VStr "")]>
  (<["readyInMinutes" := get recipe "readyInMinutes"]>
  (<["cuisines" := get_default recipe "cuisines" (VList [])]>
  (<["usedIngredientCount" := get recipe "usedIngredientCount"]>
  (<["missedIngredientCount" := get recipe "missedIngredientCount"]>
  (<["usedIngredients" := get_default recipe "usedIngredients" (VList [])]>
  (<["missedIngredients" := get_default recipe "missedIngredients" (VList [])]>
  (<["match_count" := get recipe "match_count"]> ∅))))))))).

Definition store_recipes_in_session (recipes_list : list dict) (ses : session)
  : session :=
  {| s_all_recipes := Some (map stored recipes_list);
     s_is_fallback := s_is_fallback ses;
     s_search_params := s_search_params ses |}.

Definition pop_all_recipes (ses : session) : session :=
  {| s_all_recipes := None;
     s_is_fallback := s_is_fallback ses;
     s_search_params := s_search_params ses |}.

Definition set_is_fallback (b : option bool) (ses : session) : session :=
  {| s_all_recipes := s_all_recipes ses;
     s_is_fallback := b;
     s_search_params := s_search_params ses |}.

Definition set_search_params (f : form) (ses : session) : session :=
  {| s_all_recipes := s_all_recipes ses;
     s_is_fallback := s_is_fallback ses;
     s_search_params := Some f |}.

(** Lines 473-484. *)
Definition error_of_exn (e : exn) : page_error :=
  match e with
  | HTTPError status =>
      if (status =? 402)%Z then QuotaExceeded
      else if (status =? 401)%Z then InvalidKey
      else if (status =? 429)%Z then TooManyRequests
      else ApiError status
  | RuntimeError msg => SomethingWentWrong msg
  end.

Section WithService.
Variable api_key : option string.
Variable srv : server.

(** Lines 423-484: a valid POST. *)
Definition search (f : form) (ses0 : session) (w0 : world)
  : page * session * world :=
  let ses1 := pop_all_recipes ses0 in
  let ingredients_text := handler_ingredients_text (f_ingredients f) in
  let cuisine := if PyStr.truthy (f_cuisine f) then Some (f_cuisine f) else None in
  let ses2 := set_search_params f ses1 in
  let '(res, w1) :=
    get_recipes api_key srv ingredients_text (f_max_time f) cuisine 30
      (f_search_type f) (Some (f_dish_type f)) (f_low_ingredient f) w0 in
  match res with
  | inl e => ({| recipes := None; error := Some (error_of_exn e) |}, ses2, w1)
  | inr [] =>
      let '(fallback, w2) :=
        get_fallback_recipes api_key srv ingredients_text 30 w1 in
      match fallback with
      | inl e => ({| recipes := None; error := Some (error_of_exn e) |}, ses2, w2)
      | inr [] =>
          ({| recipes := None; error := Some NoRecipesFound |},
           pop_all_recipes ses2, w2)
      | inr fallback_recipes =>
          ({| recipes := Some fallback_recipes; error := Some NoExactMatches |},
           set_is_fallback (Some true)
             (store_recipes_in_session fallback_recipes ses2), w2)
      end
  | inr all =>
      ({| recipes := Some all; error := None |},
       set_is_fallback None (store_recipes_in_session all ses2), w1)
  end.

(** Lines 488-504: without fresh results, show the stored ones. *)
Definition restore (pg : page) (ses : session) : page * session :=
  match recipes pg, s_all_recipes ses with
  | None, Some stored_recipes =>
      match stored_recipes with
      | [] => (pg, pop_all_recipes ses)
      | _ =>
          ({| recipes := Some stored_recipes;
              error := if default false (s_is_fallback ses)
                       then Some ShowingShared else error pg |}, ses)
      end
  | _, _ => (pg, ses)
  end.

(** [ingredients]; [submitted] is
    [request.method == "POST" and form.validate_on_submit()]. *)
Definition ingredients (submitted : bool) (f : form) (ses : session) (w : world)
  : page * session * world :=
  let '(pg, ses1, w1) :=
    if submitted then search f ses w
    else ({| recipes := None; error := None |}, ses, w) in
  let '(pg', ses2) := restore pg ses1 in
  (pg', ses2, w1).

End WithService.

End Page.

(** ** Favorites: [add_favorite] and [remove_favorite] *)

Module Favorites.
Import Json Api.

(** A row of the [favorites] table. *)
Record Favorite : Type := {
  id : Z;
  user_id : Z;
  recipe_id : Z;
  recipe_title : value;
  recipe_image : value
}.

(** The JSON answers of the two endpoints, with their status code. *)
Inductive response : Type :=
| AddedToFavorites
| AlreadyInFavorites
| RemovedFromFavorites
| NotInFavorites
| ServerError (reason : string).

Definition status (r : response) : Z :=
  match r with
  | AddedToFavorites | RemovedFromFavorites => 200
  | AlreadyInFavorites => 400
  | NotInFavorites => 404
  | ServerError _ => 500
  end.

Definition success (r : response) : bool :=
  match r with
  | AddedToFavorites | RemovedFromFavorites => true
  | _ => false
  end.

Definition same_pair (user recipe : Z) (row : Favorite) : bool :=
  (user_id row =? user)%Z && (recipe_id row =? recipe)%Z.

(** [db.query(Favorite).filter_by(user_id=.., recipe_id=..).first()] *)
Definition first_favorite (user recipe : Z) (rows : list Favorite)
  : option Favorite :=
  List.find (same_pair user recipe) rows.

(** The primary key given to a new row. *)
Definition next_id (rows : list Favorite) : Z :=
  1 + fold_right Z.max 0%Z (map id rows).

Definition failure_text (e : failure) : string :=
  match e with
  | HTTPFailure _ => "HTTP error"
  | OtherFailure msg => msg
  end.

(** The integers SQLite holds are the 64-bit ones.  Binding any other
    integer to a statement raises [OverflowError], so no row of a table
    carries one. *)
Definition storable (z : Z) : bool := (- 2 ^ 63 <=? z)%Z && (z <? 2 ^ 63)%Z.

(** The texts of the exceptions of the database layer, abbreviated. *)
Definition overflow_text : string :=
  "Python int too large to convert to SQLite INTEGER".
Definition unsupported_text : string :=
  "Error binding parameter: type is not supported".
Definition not_null_text : string :=
  "NOT NULL constraint failed: favorites.recipe_title".

(** The lookup of both endpoints with the exception it can raise ([inl]):
    the route accepts any run of digits as [recipe_id], and an id that
    is not [storable] cannot be bound to the query.  A row that is found
    is returned: in a table of the database its id is storable. *)
Definition lookup (user recipe : Z) (rows : list Favorite)
  : string + option Favorite :=
  match first_favorite user recipe rows with
  | Some row => inr (Some row)
  | None => if storable recipe then inr None else inl overflow_text
  end.

(** What a [String] column receives for a bound value: a text as it is,
    [None] as NULL, an integer as its decimal text (the column has text
    affinity); an integer out of range, a list or an object cannot be
    bound ([inl]). *)
Definition column_text (v : value) : string + value :=
  match v with
  | VNone => inr VNone
  | VStr s => inr (VStr s)
  | VInt z =>
      if storable z then inr (VStr (NilZero.string_of_int (Z.to_int z)))
      else inl overflow_text
  | VList _ | VObj _ => inl unsupported_text
  end.

Section WithService.
Variable srv : server.

(** Lines 607-635.  Every exception becomes the answer 500 with
    nothing written: a failed lookup, a failed detail request, and at
    [db.commit()] a title or an image that cannot be bound (the title is
    bound first) or a [null] title, which violates [nullable=False]. *)
Definition add_favorite (current_user recipe : Z) (rows : list Favorite)
    (w : world) : response * list Favorite * world :=
  match lookup current_user recipe rows with
  | inl reason => (ServerError reason, rows, w)
  | inr (Some _) => (AlreadyInFavorites, rows, w)
  | inr None =>
      let '(resp, w1) := call_information srv (VInt recipe) w in
      match resp with
      | inl e => (ServerError (failure_text e), rows, w1)
      | inr recipe_data =>
          match column_text (get_default recipe_data "title" (VStr "Unknown")) with
          | inl reason => (ServerError reason, rows, w1)
          | inr title =>
              match column_text (get_default recipe_data "image" (VStr "")) with
              | inl reason => (ServerError reason, rows, w1)
              | inr image =>
                  match title with
                  | VNone => (ServerError not_null_text, rows, w1)
                  | _ =>
                      let new_favorite :=
                        {| id := next_id rows;
                           user_id := current_user;
                           recipe_id := recipe;
                           recipe_title := title;
                           recipe_image := image |} in
                      (AddedToFavorites, rows ++ [new_favorite], w1)
                  end
              end
          end
      end
  end.

(** [db.delete(favorite)] for the first matching row. *)
Fixpoint delete_first (user recipe : Z) (rows : list Favorite) : list Favorite :=
  match rows with
  | [] => []
  | row :: rest =>
      if same_pair user recipe row then rest
      else row :: delete_first user recipe rest
  end.

(** Lines 640-654. *)
Definition remove_favorite (current_user recipe : Z) (rows : list Favorite)
  : response * list Favorite :=
  match lookup current_user recipe rows with
  | inl reason => (ServerError reason, rows)
  | inr (Some _) => (RemovedFromFavorites, delete_first current_user recipe rows)
  | inr None => (NotInFavorites, rows)
  end.

End WithService.

(** The pairs present in the table. *)
Definition pairs (rows : list Favorite) : list (Z * Z) :=
  map (fun row => (user_id row, recipe_id row)) rows.

(** A table the database can hold: every recipe id is storable. *)
Definition storable_rows (rows : list Favorite) : Prop :=
  Forall (fun row => storable (recipe_id row) = true) rows.

End Favorites.

(** ** Accounts: [signup] and [login] *)

Module Accounts.
Import PyStr.

(** A row of the [users] table. *)
Record User : Type := {
  id : Z;
  email : string;
  password_hash : string
}.

(** [db.query(User).filter_by(email=..).first()] *)
Definition first_user (address : string) (users : list User) : option User :=
  List.find (fun u => String.eqb (email u) address) users.

Definition next_id (users : list User) : Z :=
  1 + fold_right Z.max 0%Z (map id users).

Inductive signup_result : Type :=
| AccountCreated
| EmailAlreadyExists
| SignupFormInvalid.

Inductive login_result : Type :=
| LoggedIn (u : User)
| InvalidEmailOrPassword
| LoginFormInvalid.

Section WithHashing.
(** werkzeug's [generate_password_hash], with the salt it draws, and
    [check_password_hash]. *)
Variable salt : Type.
Variable generate_password_hash : salt -> string -> string.
Variable check_password_hash : string -> string -> bool.

(** Lines 360-381; [valid] is [form.validate_on_submit()]. *)
Definition signup (valid : bool) (form_email form_password : string) (s : salt)
    (users : list User) : signup_result * list User :=
  if valid then
    match first_user (lower form_email) users with
    | Some _ => (EmailAlreadyExists, users)
    | None =>
        let new_user :=
          {| id := next_id users;
             email := lower form_email;
             password_hash := generate_password_hash s form_password |} in
        (AccountCreated, users ++ [new_user])
    end
  else (SignupFormInvalid, users).

(** Lines 385-402; the table is only read. *)
Definition login (valid : bool) (form_email form_password : string)
    (users : list User) : login_result :=
  if valid then
    match first_user (lower form_email) users with
    | Some user =>
        if check_password_hash (password_hash user) form_password
        then LoggedIn user else InvalidEmailOrPassword
    | None => InvalidEmailOrPassword
    end
  else LoginFormInvalid.

End WithHashing.

(** Every stored address is its own lowercase form. *)
Definition all_lowercase (users : list User) : Prop :=
  Forall (fun u => lower (email u) = email u) users.

End Accounts.

(** ** Services used in the scenarios *)

Module Scenario.
Import Json Api.

(** A service whose answers do not depend on the history. *)
Definition canned (find : string -> failure + list dict)
    (complex : failure + option (list dict))
    (info : value -> failure + dict) : server :=
  {| find_by_ingredients := fun _ ingredient _ => find ingredient;
     complex_search := fun _ _ => complex;
     information := fun _ recipe_id => info recipe_id |}.

(** Every call times out. *)
Definition offline : server :=
  canned (fun _ => inl (OtherFailure "timed out"))
         (inl (OtherFailure "timed out"))
         (fun _ => inl (OtherFailure "timed out")).

Definition recipe (recipe_id : Z) (title : string) : dict :=
  <["id" := VInt recipe_id]> (<["title" := VStr title]> ∅).

Definition some_key : option string := Some "secret".

Definition detail (minutes : Z) (cuisine : string) : dict :=
  <["readyInMinutes" := VInt minutes]> (<["cuisines" := VList [VStr cuisine]]> ∅).

(** "egg" matches recipes 1 and 2, "rice" matches recipes 2 and 3; every
    detail fetch succeeds. *)
Definition pantry : server :=
  canned
    (fun ingredient =>
       if String.eqb ingredient "egg"
       then inr [recipe 1 "Omelette"; recipe 2 "Egg fried rice"]
       else if String.eqb ingredient "rice"
       then inr [recipe 2 "Egg fried rice"; recipe 3 "Risotto"]
       else inr [])
    (inr (Some [recipe 1 "Omelette"; recipe 2 "Egg fried rice"]))
    (fun _ => inr (detail 20 "italian")).

(** As [pantry], but every detail fetch is answered with status 500. *)
Definition no_details : server :=
  canned
    (fun ingredient =>
       if String.eqb ingredient "egg"
       then inr [recipe 1 "Omelette"; recipe 2 "Egg fried rice"]
       else if String.eqb ingredient "rice"
       then inr [recipe 2 "Egg fried rice"; recipe 3 "Risotto"]
       else inr [])
    (inr (Some [recipe 1 "Omelette"; recipe 2 "Egg fried rice"]))
    (fun _ => inl (HTTPFailure 500)).

(** No recipe has all the ingredients, but "egg" alone matches recipe 1. *)
Definition no_exact : server :=
  canned
    (fun ingredient =>
       if String.eqb ingredient "egg" then inr [recipe 1 "Omelette"] else inr [])
    (inr (Some []))
    (fun _ => inr (detail 20 "italian")).

(** A stand-in for werkzeug's hashing in the account scenarios. *)
Definition toy_hash (salt : nat) (password : string) : string :=
  "pbkdf2:" +:+ password.

Definition toy_check (password_hash password : string) : bool :=
  String.eqb password_hash ("pbkdf2:" +:+ password).


End Scenario.

(** ** Vocabulary of the statements *)

Module Spec.
Import PyStr Json Api Ingredients Search.

(** [w'] is [w] after some more requests, all of them satisfying [P] and
    at most [n] of them. *)
Definition extends (P : request -> Prop) (n : nat) (w w' : world) : Prop :=
  exists new, sent w' = sent w ++ new /\ Forall P new /\ length new <= n.

Definition is_information (q : request) : Prop :=
  match q with Information _ => True | _ => False end.

Definition is_find (q : request) : Prop :=
  match q with FindByIngredients _ _ => True | _ => False end.

(** A loop body that sends at most one request, a detail fetch. *)
Definition one_information (body : dict -> world -> option dict * world) : Prop :=
  forall r w, extends is_information 1 w (snd (body r w))
              /\ entered (snd (body r w)) = entered w.

(** No ingredient of the request carries the exclusion marker. *)
Definition unmarked (q : request) : Prop :=
  match q with
  | FindByIngredients ingredient _ => startswith marker ingredient = false
  | ComplexSearch params =>
      Forall (fun tok => startswith marker (strip tok) = false)
        (split comma (cs_includeIngredients params))
  | Information _ => True
  end.

(** The id of a recipe, as looked up by the code. *)
Definition recipe_id (r : dict) : option value := r !! "id".

(** The entry carries the id [k]. *)
Definition carries (k : key) (r : dict) : bool :=
  bool_decide (as_key (get r "id") = Some k).

(** The number of entries of one response that carry the id [k]. *)
Definition listed (k : key) (recipes : list dict) : nat :=
  length (List.filter (carries k) recipes).



(** The number of entries with the id [k] over all answers. *)
Definition entries_matching (k : key) (answered : list (string * list dict)) : nat :=
  list_sum (map (fun a => listed k (snd a)) answered).

(** An id that is neither [null], nor 0, nor the empty text. *)
Definition key_truthy (k : key) : bool :=
  match k with
  | KNone => false
  | KInt z => negb (z =? 0)%Z
  | KStr s => PyStr.truthy s
  end.

(** The id of the entry is a non-empty list or object, which cannot be
    the key of a dictionary. *)
Definition unhashable_id (r : dict) : bool :=
  match get r "id" with
  | VList (_ :: _) | VObj (_ :: _) => true
  | _ => false
  end.

(** The entries of a response before the first one with such an id. *)
Fixpoint readable (recipes : list dict) : list dict :=
  match recipes with
  | [] => []
  | r :: rest => if unhashable_id r then [] else r :: readable rest
  end.

(** The answers, each cut down to its readable entries. *)
Definition read (answered : list (string * list dict)) : list (string * list dict) :=
  map (fun a => (fst a, readable (snd a))) answered.

(** No entry of any answer has an id that is a non-empty list or object. *)
Definition hashable_ids (answered : list (string * list dict)) : Prop :=
  Forall (fun a => Forall (fun r => unhashable_id r = false) (snd a)) answered.

(** What the two dictionaries hold once the ids [seen] have been counted. *)
Record agg_inv (seen : list key) (st : agg) : Prop := {
  inv_nodup : NoDup (map fst (all_recipes st));
  inv_ids : forall k r, (k, r) ∈ all_recipes st ->
            exists v, r !! "id" = Some v /\ as_key v = Some k;
  inv_seen : forall k, k ∈ map fst (all_recipes st) <-> k ∈ seen;
  inv_count : forall k,
    ingredient_match_count st !! k
    = if decide (k ∈ seen) then Some (count_occ key_eq_dec seen k) else None
}.

(** The search functions one valid submission enters, given what the
    primary search came back with. *)
Definition calls_of_search (primary : exn + list dict) : list func :=
  GetRecipes :: match primary with
                | inr [] => [GetFallbackRecipes]
                | _ => []
                end.

(** The recipe carries the match count [n]. *)
Definition annotated (n : nat) (r : dict) : Prop :=
  r !! "match_count" = Some (VInt (Z.of_nat n)).

(** Every detail fetch for the recipe [r] fails, whenever it is made. *)
Definition detail_fails (srv : server) (r : dict) : Prop :=
  forall hist v, r !! "id" = Some v -> exists e, information srv hist v = inl e.

(** A loop body that leaves the id of the recipe it appends alone. *)
Definition keeps_id (body : dict -> world -> option dict * world) : Prop :=
  forall r w r' w', body r w = (Some r', w') -> recipe_id r' = recipe_id r.

(** The sort key as a function of the id alone. *)
Definition count_by_id (cnt : gmap key nat) (o : option value) : nat :=
  default 0 (k ← as_key (default (VInt 0) o); Some (default 0 (cnt !! k))).

(** The order [sort(reverse=True)] establishes for the key [f]. *)
Definition desc {A : Type} (f : A -> nat) (a b : A) : Prop := f b <= f a.

(** A list of numbers that never goes up. *)
Definition non_increasing (l : list nat) : Prop :=
  forall i j a b, i < j -> l !! i = Some a -> l !! j = Some b -> b <= a.

End Spec.

(** ** Favorites as the pages read them *)

Module Views.
Import Json Favorites.

Definition of_user (user : Z) (row : Favorite) : bool := (user_id row =? user)%Z.

(** [get_favorite_ids], lines 321-327. *)
Definition get_favorite_ids (user : Z) (rows : list Favorite) : list Z :=
  map recipe_id (List.filter (of_user user) rows).

(** [favorites], lines 583-590: the rows handed to the template. *)
Definition favorites (current_user : Z) (rows : list Favorite) : list Favorite :=
  List.filter (of_user current_user) rows.

(** [profile], lines 595-602: [favorite_count]. *)
Definition profile (current_user : Z) (rows : list Favorite) : nat :=
  length (List.filter (of_user current_user) rows).

(** [v in favorite_ids] for a list of integers. *)
Definition id_in (v : value) (favorite_ids : list Z) : bool :=
  match v with
  | VInt z => existsb (Z.eqb z) favorite_ids
  | _ => false
  end.

End Views.

(** ** Paging through the stored results: [get_more_recipes] *)

Module Paging.
Import Json Favorites Views Page.

(** An index of a slice, brought into [0, len] as Python does. *)
Definition clamp (len : nat) (i : Z) : nat :=
  if (i <? 0)%Z then Z.to_nat (Z.max 0 (Z.of_nat len + i))
  else Nat.min (Z.to_nat i) len.

(** [l[a:b]] *)
Definition py_slice {A : Type} (a b : Z) (l : list A) : list A :=
  let lo := clamp (length l) a in
  let hi := clamp (length l) b in
  take (hi - lo) (drop lo l).

(** [request.json.get("current_count", 9)] under [int(..)]: absent, a
    number, or something [int] (or the lookup) raises on. *)
Inductive count_field : Type :=
| CountAbsent
| CountValue (z : Z)
| CountInvalid.

(** One entry of [recipes_data] (lines 551-563). *)
Record item : Type := {
  fields : dict;
  is_favorited : bool
}.

Inductive response : Type :=
| NoRecipesInSession                    (* 400 *)
| Batch (recipes : list item) (has_more : bool) (total_recipes : nat)
        (current_count : Z)             (* 200 *)
| Failed.                               (* 500 *)

Definition item_of (favorite_ids : list Z) (recipe : dict) : item :=
  {| fields :=
       <["id" := get recipe "id"]>
       (<["title" := get recipe "title"]>
       (<["image" := get_default recipe "image" (VStr "")]>
       (<["readyInMinutes" := get recipe "readyInMinutes"]>
       (<["cuisines" := get_default recipe "cuisines" (VList [])]>
       (<["usedIngredientCount" := get recipe "usedIngredientCount"]>
       (<["missedIngredientCount" := get recipe "missedIngredientCount"]>
       (<["usedIngredients" := get_default recipe "usedIngredients" (VList [])]>
       (<["missedIngredients" := get_default recipe "missedIngredients" (VList [])]>
       (<["match_count" := get recipe "match_count"]> ∅)))))))));
     is_favorited := id_in (get recipe "id") favorite_ids |}.

(** Lines 514-578. *)
Definition get_more_recipes (current_user : Z) (requested : count_field)
    (ses : session) (rows : list Favorite) : response :=
  let all_recipes := default [] (s_all_recipes ses) in
  match all_recipes with
  | [] => NoRecipesInSession
  | _ =>
      match match requested with
            | CountAbsent => Some 9%Z
            | CountValue z => Some z
            | CountInvalid => None
            end with
      | None => Failed
      | Some current_count =>
          if (Z.of_nat (length all_recipes) <=? current_count)%Z
          then Batch [] false (length all_recipes) current_count
          else
            match py_slice current_count (current_count + 9) all_recipes with
            | [] => Batch [] false (length all_recipes) current_count
            | next_batch =>
                let favorite_ids := get_favorite_ids current_user rows in
                let recipes_data := map (item_of favorite_ids) next_batch in
                let new_count :=
                  (current_count + Z.of_nat (length recipes_data))%Z in
                Batch recipes_data
                      (new_count <? Z.of_nat (length all_recipes))%Z
                      (length all_recipes) new_count
            end
      end
  end.

End Paging.

(** ** Following the pages *)

Module Client.
Import Json Favorites Views Page Paging.

(** A client that asks for more as long as it is told there is more,
    starting at [current_count]; [rounds] bounds the number of requests. *)
Fixpoint follow (rounds : nat) (current_user : Z) (current_count : Z)
    (ses : session) (rows : list Favorite) : list item :=
  match rounds with
  | O => []
  | S n =>
      match get_more_recipes current_user (CountValue current_count) ses rows with
      | Batch recipes has_more _ next =>
          recipes ++ (if has_more then follow n current_user next ses rows else [])
      | _ => []
      end
  end.

End Client.

(** ** More vocabulary *)

Module Spec2.
Import PyStr Json Api Ingredients Search Page.

(** A loop body that sends the detail request of the recipe it is given
    when the recipe has an id, and nothing else. *)
Definition fetches_id (body : dict -> world -> option dict * world) : Prop :=
  forall r w,
    sent (snd (body r w))
    = sent w ++ match r !! "id" with
                | Some v => [Information v]
                | None => []
                end.

(** The detail requests of a list of recipes, in order. *)
Definition detail_requests (recipes : list dict) : list request :=
  flat_map (fun r => match r !! "id" with
                     | Some v => [Information v]
                     | None => []
                     end) recipes.

(** The per-ingredient requests of a list of ingredients, in order. *)
Definition find_requests (ingredients_list : list string) : list request :=
  map (fun ingredient => FindByIngredients ingredient 50) ingredients_list.

(** The [complexSearch] parameters the page builds from a form. *)
Definition params_of (f : form) : complex_params :=
  {| cs_number := 30;
     cs_includeIngredients := handler_ingredients_text (f_ingredients f);
     cs_maxReadyTime := f_max_time f;
     cs_cuisine := if PyStr.truthy (f_cuisine f) then Some (f_cuisine f) else None;
     cs_type := if PyStr.truthy (f_dish_type f) then Some (f_dish_type f) else None;
     cs_few_ingredients := f_low_ingredient f |}.

(** Lines 475-484, the message for a failed search call. *)
Definition category (e : failure) : page_error :=
  match e with
  | HTTPFailure status =>
      if (status =? 402)%Z then QuotaExceeded
      else if (status =? 401)%Z then InvalidKey
      else if (status =? 429)%Z then TooManyRequests
      else ApiError status
  | OtherFailure msg => SomethingWentWrong (fetch_error_prefix +:+ msg)
  end.

End Spec2.

(** ** More services and tables for the scenarios *)

Module Scenario2.
Import Json Api Favorites Page Scenario.

(** The search call is answered with status 402. *)
Definition over_quota : server :=
  canned (fun _ => inl (HTTPFailure 402))
         (inl (HTTPFailure 402))
         (fun _ => inl (HTTPFailure 402)).

Definition and_form (text : string) : form :=
  {| f_ingredients := text;
     f_max_time := None;
     f_cuisine := "";
     f_search_type := "AND";
     f_dish_type := "";
     f_low_ingredient := false |}.

Definition or_form (text : string) : form :=
  {| f_ingredients := text;
     f_max_time := None;
     f_cuisine := "";
     f_search_type := "OR";
     f_dish_type := "";
     f_low_ingredient := false |}.

(** User 7 has recipe 42 among the favorites. *)
Definition one_row : Favorite :=
  {| id := 1; user_id := 7; recipe_id := 42;
     recipe_title := VStr "Unknown"; recipe_image := VStr "" |}.

(** Every detail fetch is answered with an object of the given title. *)
Definition titled (title : value) : server :=
  canned (fun _ => inr []) (inr (Some []))
         (fun _ => inr (<["title" := title]> ∅)).

(** "x" is answered with recipe 3, "y" with an entry whose id is the
    list [[9]] followed by recipe 3. *)
Definition odd_ids : server :=
  canned
    (fun ingredient =>
       if String.eqb ingredient "x" then inr [recipe 3 "Risotto"]
       else if String.eqb ingredient "y"
       then inr [<["id" := VList [VInt 9]]> ∅; recipe 3 "Risotto"]
       else inr [])
    (inr (Some []))
    (fun _ => inr (detail 20 "italian")).

(** A session that holds two stored recipes. *)
Definition two_stored : session :=
  {| s_all_recipes := Some [recipe 1 "Omelette"; recipe 2 "Egg fried rice"];
     s_is_fallback := None;
     s_search_params := None |}.

Definition ada : Accounts.User :=
  {| Accounts.id := 1;
     Accounts.email := "ada@example.com";
     Accounts.password_hash := "pbkdf2:s3cret!" |}.

End Scenario2.

(** ** The recipe page: [recipe_detail] *)

Module Detail.
Import PyStr Json Favorites Views.

(** The calls of the recipe page. *)
Inductive request : Type :=
| FullInformation (recipe : Z)      (* information, with nutrition *)
| Similar (recipe : Z)              (* similar, number 5 *)
| Information (similar_id : value)  (* information of a similar recipe *)
| TitleSearch (query : string).     (* complexSearch by title, number 5 *)

(** The service as the recipe page uses it; each answer may depend on
    the requests sent so far.  Bodies are taken in the shape the
    endpoints document. *)
Record server : Type := {
  full_information : list request -> Z -> Api.failure + dict;
  similar : list request -> Z -> Api.failure + list dict;
  information : list request -> value -> Api.failure + dict;
  title_search : list request -> string -> Api.failure + option (list dict)
}.

(** What the page answers with. *)
Inductive flash : Type :=
| ErrorLoadingRecipe (status : Z)
| SomethingWentWrong (msg : string).

Inductive result : Type :=
| Rendered (recipe : dict) (is_favorited : bool) (similar_recipes : list dict)
| Redirected (message : flash).

(** [d.get(k)] on an object nested in a value; of a repeated key the
    last entry counts, as in a decoded body. *)
Fixpoint obj_get (kvs : list (string * value)) (k : string) : option value :=
  match kvs with
  | [] => None
  | (k', v) :: rest =>
      match obj_get rest k with
      | Some v' => Some v'
      | None => if String.eqb k' k then Some v else None
      end
  end.

(** [ing.get("name", "").lower()]; [None] stands for the exception raised
    on an entry that is not an object or a name that is not a string. *)
Definition name_of (ing : value) : option string :=
  match ing with
  | VObj kvs =>
      match default (VStr "") (obj_get kvs "name") with
      | VStr s => Some (lower s)
      | _ => None
      end
  | _ => None
  end.

Fixpoint names_in (l : list value) : option (list string) :=
  match l with
  | [] => Some []
  | ing :: rest =>
      match name_of ing with
      | Some name =>
          match names_in rest with
          | Some names => Some (name :: names)
          | None => None
          end
      | None => None
      end
  end.

(** The names met by [{ing.get("name", "").lower() for ing in v}], in the
    order of iteration; [None] when the comprehension raises. *)
Definition names_of (v : value) : option (list string) :=
  match v with
  | VList l => names_in l
  | VStr s => if PyStr.truthy s then None else Some []
  | VObj kvs => match kvs with [] => Some [] | _ => None end
  | VNone | VInt _ => None
  end.

Fixpoint take_word (s : string) : string :=
  match s with
  | EmptyString => EmptyString
  | String c s' => if is_space c then EmptyString else String c (take_word s')
  end.

(** [s.split()[0]]; [None] stands for [IndexError]. *)
Definition first_word (s : string) : option string :=
  match lstrip s with
  | EmptyString => None
  | t => Some (take_word t)
  end.

(** The [query] of the title search (line 711); [None] when computing
    it raises. *)
Definition title_query (recipe : dict) : option string :=
  let title := get recipe "title" in
  if truthy title then
    match get_default recipe "title" (VStr "") with
    | VStr s => first_word s
    | _ => None
    end
  else Some EmptyString.

(** [r.get("id") != recipe_id] *)
Definition other_than (recipe : Z) (r : dict) : bool :=
  match get r "id" with
  | VInt z => negb (z =? recipe)%Z
  | _ => true
  end.

Section WithService.
Variable srv : server.
(** [list(a & b)] for the two sets of names, given by the names met in
    the order they were met; the order of the result is Python's. *)
Variable listing : list string -> list string -> list string.
(** [str(v)] inside the default image address. *)
Variable format_id : value -> string.

Definition default_image (similar_id : value) : string :=
  "https://spoonacular.com/recipeImages/" +:+ format_id similar_id
  +:+ "-312x231.jpg".

(** Lines 701-704, the handler of the inner [try]; the flag says that
    the handler itself raised ([KeyError] on a missing id). *)
Definition on_failure (similar_recipe : dict) : dict * bool :=
  let s1 := <["common_ingredients" := VList []]> similar_recipe in
  if truthy (get s1 "image") then (s1, false)
  else match s1 !! "id" with
       | Some v => (<["image" := VStr (default_image v)]> s1, false)
       | None => (s1, true)
       end.

(** Lines 689-704, the body of [for similar in similar_recipes]. *)
Definition similar_step (current_names : list string) (similar_recipe : dict)
    (log : list request) : dict * bool * list request :=
  match similar_recipe !! "id" with
  | None => (on_failure similar_recipe, log)
  | Some v =>
      let log1 := log ++ [Information v] in
      match information srv log v with
      | inl _ => (on_failure similar_recipe, log1)
      | inr similar_info =>
          let s1 := <["image" := get_default similar_info "image" (VStr "")]>
                      similar_recipe in
          match names_of (get_default similar_info "extendedIngredients" (VList [])) with
          | None => (on_failure s1, log1)
          | Some similar_names =>
              (<["common_ingredients" :=
                   VList (map VStr (take 3 (listing current_names similar_names)))]> s1,
               false, log1)
          end
      end
  end.

(** The loop over the similar recipes, which are updated in place: when
    a step raises, the recipes after it are as they were. *)
Fixpoint similar_loop (current_names : list string) (similar_recipes : list dict)
    (log : list request) : list dict * bool * list request :=
  match similar_recipes with
  | [] => ([], false, log)
  | similar_recipe :: rest =>
      let '(s', raised, log1) := similar_step current_names similar_recipe log in
      if raised then (s' :: rest, true, log1)
      else
        let '(rest', raised', log2) := similar_loop current_names rest log1 in
        (s' :: rest', raised', log2)
  end.

(** Lines 673-704, the inner [try]: the similar recipes as they stand
    when it is left, and whether it was left by an exception. *)
Definition similar_section (recipe_id : Z) (recipe : dict) (log : list request)
  : list dict * bool * list request :=
  let log1 := log ++ [Similar recipe_id] in
  match similar srv log recipe_id with
  | inl _ => ([], true, log1)
  | inr similar_recipes =>
      match similar_recipes with
      | [] => (similar_recipes, false, log1)
      | _ =>
          if truthy (get recipe "extendedIngredients") then
            match names_of (get_default recipe "extendedIngredients" (VList [])) with
            | None => (similar_recipes, true, log1)
            | Some current_names => similar_loop current_names similar_recipes log1
            end
          else (similar_recipes, false, log1)
      end
  end.

(** Lines 705-720, the handler of that [try]. *)
Definition title_fallback (recipe_id : Z) (recipe : dict)
    (similar_recipes : list dict) (log : list request)
  : list dict * list request :=
  match title_query recipe with
  | None => (similar_recipes, log)
  | Some query =>
      let log1 := log ++ [TitleSearch query] in
      match title_search srv log query with
      | inl _ => (similar_recipes, log1)
      | inr fallback_results =>
          (take 5 (List.filter (other_than recipe_id) (default [] fallback_results)),
           log1)
      end
  end.

(** [recipe_detail], lines 659-731. *)
Definition recipe_detail (current_user recipe_id : Z) (rows : list Favorite)
    (log : list request) : result * list request :=
  let log1 := log ++ [FullInformation recipe_id] in
  match full_information srv log recipe_id with
  | inl (Api.HTTPFailure status) => (Redirected (ErrorLoadingRecipe status), log1)
  | inl (Api.OtherFailure msg) => (Redirected (SomethingWentWrong msg), log1)
  | inr recipe =>
      let '(similar_recipes, raised, log2) := similar_section recipe_id recipe log1 in
      let '(similar_recipes', log3) :=
        if raised then title_fallback recipe_id recipe similar_recipes log2
        else (similar_recipes, log2) in
      let favorite_ids := get_favorite_ids current_user rows in
      (Rendered recipe (existsb (Z.eqb recipe_id) favorite_ids) similar_recipes',
       log3)
  end.

End WithService.

(** The intersection of two sets of names, listed without repetition
    in some order. *)
Definition lists_common (listing : list string -> list string -> list string) : Prop :=
  forall a b, NoDup (listing a b)
              /\ forall x, In x (listing a b) <-> In x a /\ In x b.

(** The similar recipe carries at most three common ingredients, all of
    them among [current_names]. *)
Definition has_common (current_names : list string) (s : dict) : Prop :=
  exists common,
    s !! "common_ingredients" = Some (VList (map VStr common))
    /\ length common <= 3
    /\ NoDup common
    /\ forall x, In x common -> In x current_names.

Definition is_info (q : request) : Prop :=
  match q with Information _ => True | _ => False end.

(** The detail requests for a list of similar recipes, in order. *)
Definition info_requests (similar_recipes : list dict) : list request :=
  flat_map (fun s => match s !! "id" with
                     | Some v => [Information v]
                     | None => []
                     end) similar_recipes.

(** [s'] is [s] but for its image and its common ingredients. *)
Definition same_but_annotations (s s' : dict) : Prop :=
  forall k, k <> "image" -> k <> "common_ingredients" -> s' !! k = s !! k.

End Detail.

(** ** Services for the recipe page scenarios *)

Module Scenario3.
Import Json Api Detail Scenario.

Definition ingredient (name : string) : value := VObj [("name", VStr name)].

(** Recipe 5, with two ingredients. *)
Definition fried_rice : dict :=
  <["id" := VInt 5]>
  (<["title" := VStr "Egg fried rice"]>
  (<["extendedIngredients" := VList [ingredient "Egg"; ingredient "Rice"]]> ∅)).

Definition omelette_info : dict :=
  <["image" := VStr "omelette.jpg"]>
  (<["extendedIngredients" := VList [ingredient "egg"; ingredient "Butter"]]> ∅).

(** Every call succeeds; recipe 1 is similar to any recipe. *)
Definition kitchen : Detail.server :=
  {| full_information := fun _ _ => inr fried_rice;
     similar := fun _ _ => inr [recipe 1 "Omelette"];
     information := fun _ _ => inr omelette_info;
     title_search := fun _ _ => inr (Some [recipe 5 "Egg fried rice";
                                          recipe 6 "Egg curry"]) |}.

(** As [kitchen], but the similar endpoint answers 500. *)
Definition no_similar : Detail.server :=
  {| full_information := fun _ _ => inr fried_rice;
     similar := fun _ _ => inl (HTTPFailure 500);
     information := fun _ _ => inr omelette_info;
     title_search := fun _ _ => inr (Some [recipe 5 "Egg fried rice";
                                          recipe 6 "Egg curry"]) |}.

(** Recipe 5 comes without a title, and the similar endpoint answers
    500. *)
Definition untitled : Detail.server :=
  {| full_information := fun _ _ => inr (<["id" := VInt 5]> ∅);
     similar := fun _ _ => inl (HTTPFailure 500);
     information := fun _ _ => inr omelette_info;
     title_search := fun _ _ => inr (Some [recipe 6 "Egg curry";
                                          recipe 7 "Risotto"]) |}.

(** As [kitchen], but recipe 5 comes without its ingredients. *)
Definition no_ingredients : Detail.server :=
  {| full_information := fun _ _ => inr (recipe 5 "Egg fried rice");
     similar := fun _ _ => inr [recipe 1 "Omelette"];
     information := fun _ _ => inr omelette_info;
     title_search := fun _ _ => inr (Some [recipe 6 "Egg curry"]) |}.

(** The names of both lists, each once, in the order of the first. *)
Definition common_listing (a b : list string) : list string :=
  remove_dups (List.filter (fun x => bool_decide (x ∈ b)) a).

(** A stand-in for [str] in the scenarios. *)
Definition toy_format (v : value) : string :=
  match v with
  | VStr s => s
  | _ => "0"
  end.

End Scenario3.

(** * Properties *)

(** ** Strings *)

Section StringFacts.
Import PyStr.

Lemma lower_char_idem (c : ascii) : lower_char (lower_char c) = lower_char c.
Proof. destruct c as [[] [] [] [] [] [] [] []]; vm_compute; reflexivity. Qed.

Lemma lower_idem (s : string) : lower (lower s) = lower s.
Proof.
  induction s as [|c s IH]; simpl; [reflexivity|].
  rewrite lower_char_idem, IH. reflexivity.
Qed.

Lemma lower_char_marker (c : ascii) :
  Ascii.eqb (lower_char c) "#" = Ascii.eqb c "#".
Proof. destruct c as [[] [] [] [] [] [] [] []]; vm_compute; reflexivity. Qed.

Lemma startswith_lower (s : string) :
  startswith "#" (lower s) = startswith "#" s.
Proof. destruct s; simpl; [reflexivity | apply lower_char_marker]. Qed.

Lemma lstrip_no_lead (s : string) : no_lead (lstrip s).
Proof.
  induction s as [|c s IH]; simpl; [exact I|].
  destruct (is_space c) eqn:E; [exact IH | simpl; exact E].
Qed.

Lemma lstrip_fixed (s : string) : no_lead s -> lstrip s = s.
Proof. destruct s; simpl; [reflexivity|]. intros ->. reflexivity. Qed.

Lemma rstrip_no_lead (s : string) : no_lead s -> no_lead (rstrip s).
Proof.
  destruct s as [|c s]; simpl; [trivial|]. intros E.
  destruct (rstrip s); [rewrite E|]; simpl; exact E.
Qed.

Lemma rstrip_idem (s : string) : rstrip (rstrip s) = rstrip s.
Proof.
  induction s as [|c s IH]; simpl; [reflexivity|].
  destruct (rstrip s) as [|d r] eqn:E.
  - destruct (is_space c) eqn:Ec; simpl; [reflexivity|]. rewrite Ec. reflexivity.
  - remember (String d r) as t. simpl. rewrite IH. subst t. reflexivity.
Qed.

Lemma strip_idem (s : string) : strip (strip s) = strip s.
Proof.
  unfold strip.
  rewrite (lstrip_fixed (rstrip (lstrip s))).
  - apply rstrip_idem.
  - apply rstrip_no_lead, lstrip_no_lead.
Qed.

Lemma strip_space (s : string) : strip (String " " s) = strip s.
Proof. reflexivity. Qed.

Lemma has_char_lstrip (c : ascii) (s : string) :
  has_char c s = false -> has_char c (lstrip s) = false.
Proof.
  induction s as [|d s IH]; simpl; [trivial|]. intros H.
  apply orb_false_iff in H as [H1 H2].
  destruct (is_space d); [auto|]. simpl. rewrite H1, H2. reflexivity.
Qed.

Lemma has_char_rstrip (c : ascii) (s : string) :
  has_char c s = false -> has_char c (rstrip s) = false.
Proof.
  induction s as [|d s IH]; simpl; [trivial|]. intros H.
  apply orb_false_iff in H as [H1 H2]. specialize (IH H2).
  destruct (rstrip s) as [|e r].
  - destruct (is_space d); simpl; [reflexivity|]. rewrite H1. reflexivity.
  - remember (String e r) as t. simpl. rewrite H1, IH. reflexivity.
Qed.

Lemma has_char_strip (c : ascii) (s : string) :
  has_char c s = false -> has_char c (strip s) = false.
Proof. intros H. apply has_char_rstrip, has_char_lstrip, H. Qed.

Lemma split_nonempty (sep : ascii) (s : string) : split sep s <> [].
Proof.
  destruct s as [|c s]; simpl; [discriminate|].
  destruct (Ascii.eqb c sep); [discriminate|].
  destruct (split sep s); discriminate.
Qed.

(** No piece of a split contains the separator. *)
Lemma split_pieces (sep : ascii) (s : string) :
  Forall (fun t => has_char sep t = false) (split sep s).
Proof.
  induction s as [|c s IH]; simpl.
  - repeat constructor.
  - destruct (Ascii.eqb c sep) eqn:E.
    + constructor; [reflexivity | exact IH].
    + destruct (split sep s) as [|t ts].
      * repeat constructor. simpl. rewrite E. reflexivity.
      * inversion IH as [|? ? Ht Hts]; subst.
        constructor; [|exact Hts]. simpl. rewrite E, Ht. reflexivity.
Qed.

Lemma split_app_sep (sep : ascii) (x s : string) :
  has_char sep x = false ->
  split sep (x +:+ String sep s) = x :: split sep s.
Proof.
  induction x as [|c x IH]; simpl; intros H.
  - rewrite Ascii.eqb_refl. reflexivity.
  - apply orb_false_iff in H as [H1 H2].
    rewrite H1, (IH H2). reflexivity.
Qed.

Lemma split_fixed (sep : ascii) (x : string) :
  has_char sep x = false -> split sep x = [x].
Proof.
  induction x as [|c x IH]; simpl; intros H; [reflexivity|].
  apply orb_false_iff in H as [H1 H2].
  rewrite H1, (IH H2). reflexivity.
Qed.

Lemma split_space (s : string) :
  split "," (String " " s) =
  match split "," s with
  | t :: ts => String " " t :: ts
  | [] => [String " " EmptyString]
  end.
Proof. reflexivity. Qed.

(** Splitting a joined list gives the pieces back, each but the first
    behind the blank that [", "] puts in. *)
Lemma split_join (l : list string) :
  Forall (fun t => has_char "," t = false) l ->
  split "," (join ", " l) =
  match l with
  | [] => [EmptyString]
  | x :: xs => x :: map (String " ") xs
  end.
Proof.
  induction l as [|x xs IH]; intros H; [reflexivity|].
  inversion H as [|? ? Hx Hxs]; subst.
  destruct xs as [|y ys].
  - simpl. apply split_fixed, Hx.
  - change (join ", " (x :: y :: ys))
      with (x +:+ String "," (String " " (join ", " (y :: ys)))).
    rewrite (split_app_sep _ _ _ Hx), split_space, (IH Hxs). reflexivity.
Qed.

End StringFacts.

(** ** Requests sent by the search functions *)

Section LogFacts.
Import PyStr Json Api Ingredients Search Spec.

Variable api_key : option string.
Variable srv : server.

Lemma extends_refl P n w : extends P n w w.
Proof.
  exists []. rewrite app_nil_r. repeat split; [constructor | simpl; lia].
Qed.

Lemma extends_trans P n m w1 w2 w3 :
  extends P n w1 w2 -> extends P m w2 w3 -> extends P (n + m) w1 w3.
Proof.
  intros (a & Ha & Pa & La) (b & Hb & Pb & Lb). exists (a ++ b).
  rewrite Hb, Ha, <- app_assoc. repeat split.
  - apply Forall_app; split; assumption.
  - rewrite length_app. lia.
Qed.

Lemma extends_weaken (P Q : request -> Prop) n m w w' :
  (forall q, P q -> Q q) -> n <= m -> extends P n w w' -> extends Q m w w'.
Proof.
  intros HPQ Hnm (a & Ha & Pa & La). exists a. repeat split; [exact Ha| |lia].
  revert Pa. apply List.Forall_impl. exact HPQ.
Qed.

Lemma extends_record (P : request -> Prop) q w :
  P q -> extends P 1 w (record q w).
Proof.
  intros Hq. exists [q]. repeat split; [repeat constructor; exact Hq | simpl; lia].
Qed.

Lemma extends_enter P n f w w' :
  extends P n (enter f w) w' -> extends P n w w'.
Proof. exact (fun H => H). Qed.

Lemma extends_entered P n f w : extends P n w (enter f w).
Proof. apply (extends_enter P n f), extends_refl. Qed.

Lemma entered_record q w : entered (record q w) = entered w.
Proof. reflexivity. Qed.

(** *** The per-ingredient loop *)

Lemma collect_extends (P : request -> Prop) ings st w :
  (forall i, In i ings -> P (FindByIngredients i 50)) ->
  extends P (length ings) w (snd (collect srv ings st w)).
Proof.
  revert st w. induction ings as [|i rest IH]; intros st w HP; simpl.
  - apply extends_refl.
  - assert (Hi : P (FindByIngredients i 50)) by (apply HP; left; reflexivity).
    assert (Hrest : forall j, In j rest -> P (FindByIngredients j 50))
      by (intros j Hj; apply HP; right; exact Hj).
    destruct (find_by_ingredients srv (sent w) i 50) as [e|body];
      apply (extends_trans P 1 (length rest) _ (record (FindByIngredients i 50) w));
      auto using extends_record.
Qed.

Lemma collect_entered ings st w :
  entered (snd (collect srv ings st w)) = entered w.
Proof.
  revert st w. induction ings as [|i rest IH]; intros st w; simpl; [reflexivity|].
  destruct (find_by_ingredients srv (sent w) i 50); rewrite IH; reflexivity.
Qed.

(** *** The enrichment loops *)

Lemma enrich_and_one : one_information (enrich_and srv).
Proof.
  intros r w. unfold enrich_and.
  destruct (r !! "id") as [v|]; simpl; [|split; [apply extends_refl | reflexivity]].
  destruct (information srv (sent w) v); simpl;
    (split; [apply extends_record; exact I | reflexivity]).
Qed.

Lemma enrich_or_one max_time cuisine dish_type :
  one_information (enrich_or srv max_time cuisine dish_type).
Proof.
  intros r w. unfold enrich_or.
  destruct (r !! "id") as [v|]; simpl; [|split; [apply extends_refl | reflexivity]].
  destruct (information srv (sent w) v); simpl;
    [|destruct (or_filters _ _ _ _)]; simpl;
    (split; [apply extends_record; exact I | reflexivity]).
Qed.

Lemma enrich_fallback_one cnt : one_information (enrich_fallback srv cnt).
Proof.
  intros r w. unfold enrich_fallback.
  destruct (r !! "id") as [v|]; simpl; [|split; [apply extends_refl | reflexivity]].
  destruct (information srv (sent w) v); simpl;
    [|destruct (match_count_opt _ _)]; simpl;
    (split; [apply extends_record; exact I | reflexivity]).
Qed.

Lemma for_each_extends body recipes w :
  one_information body ->
  extends is_information (length recipes) w (snd (for_each body recipes w))
  /\ entered (snd (for_each body recipes w)) = entered w.
Proof.
  intros Hb. revert w. induction recipes as [|r rest IH]; intros w; simpl.
  - split; [apply extends_refl | reflexivity].
  - destruct (Hb r w) as [H1 E1].
    destruct (body r w) as [o w1]; simpl in *.
    destruct (IH w1) as [H2 E2].
    destruct (for_each body rest w1) as [out w2]; simpl in *.
    split; [|congruence].
    apply (extends_trans _ 1 (length rest) _ w1); assumption.
Qed.

(** *** The search functions *)

Lemma get_fallback_extends (P : request -> Prop) ingredients num w0 :
  (forall i, In i (ingredients_list ingredients) -> P (FindByIngredients i 50)) ->
  (forall v, P (Information v)) ->
  exists n,
    extends P n w0 (snd (get_fallback_recipes api_key srv ingredients num w0)).
Proof.
  intros Hfind Hinfo. unfold get_fallback_recipes.
  destruct (key_missing api_key); [exists 0; apply extends_entered|].
  pose proof (collect_extends P (ingredients_list ingredients)
                empty_agg (enter GetFallbackRecipes w0) Hfind) as H1.
  destruct (collect srv _ empty_agg (enter GetFallbackRecipes w0)) as [st w1].
  simpl in H1.
  destruct (for_each_extends _ (ranked st num) w1
              (enrich_fallback_one (ingredient_match_count st))) as [H2 _].
  destruct (for_each _ (ranked st num) w1) as [out w2]. simpl in *.
  eexists. apply (extends_enter _ _ GetFallbackRecipes).
  eapply extends_trans; [exact H1|].
  eapply extends_weaken; [| |exact H2]; [intros [] []; apply Hinfo | reflexivity].
Qed.

(** The AND search sends its one [complexSearch] request first, with
    the ingredient text and [num] as given, then only detail fetches, one
    per entry of the response at most. *)
Lemma get_recipes_exact_sent ingredients max_time cuisine num search_type
    dish_type low w0 :
  key_missing api_key = false ->
  String.eqb search_type "OR" = false ->
  let params :=
    {| cs_number := num;
       cs_includeIngredients := ingredients;
       cs_maxReadyTime := max_time;
       cs_cuisine := opt_truthy cuisine;
       cs_type := opt_truthy dish_type;
       cs_few_ingredients := low |} in
  exists rest,
    sent (snd (get_recipes api_key srv ingredients max_time cuisine num
                 search_type dish_type low w0))
    = sent w0 ++ ComplexSearch params :: rest
    /\ Forall is_information rest
    /\ length rest <=
         match complex_search srv (sent w0) params with
         | inr results => length (default [] results)
         | inl _ => 0
         end.
Proof.
  intros Hk Hs params. unfold get_recipes. rewrite Hk, Hs. fold params.
  unfold call_complex. simpl sent at 2.
  destruct (complex_search srv (sent w0) params) as [[status|msg]|results]; simpl;
    try (exists []; repeat split; [constructor | simpl; lia]).
  destruct (for_each_extends _ (default [] results)
              (record (ComplexSearch params) (enter GetRecipes w0))
              enrich_and_one) as [(new & E & Hnew & Hlen) _].
  destruct (for_each _ _ _) as [out w2]. simpl in *.
  exists new. rewrite E, <- app_assoc. repeat split; assumption.
Qed.

End LogFacts.

(** ** The exclusion marker *)

Section MarkerFacts.
Import PyStr Json Api Ingredients Search Page Spec.

Lemma kept_tokens text t :
  In t (handler_ingredients_list text) ->
  startswith marker t = false /\ has_char comma t = false /\ strip t = t.
Proof.
  unfold handler_ingredients_list. intros H.
  apply in_map_iff in H as (tok & <- & H).
  apply filter_In in H as [Htok Hkeep].
  apply andb_true_iff in Hkeep as [_ Hm]. apply negb_true_iff in Hm.
  repeat split; [exact Hm | | apply strip_idem].
  apply has_char_strip.
  pose proof (split_pieces comma text) as Hall.
  rewrite List.Forall_forall in Hall. apply Hall, Htok.
Qed.

Lemma text_tokens text q :
  In q (split comma (handler_ingredients_text text)) ->
  startswith marker (strip q) = false.
Proof.
  unfold handler_ingredients_text, comma.
  rewrite split_join.
  - destruct (handler_ingredients_list text) as [|x xs] eqn:E.
    + intros [<-|[]]. reflexivity.
    + intros [<-|H].
      * destruct (kept_tokens text x) as (Hm & _ & Hs);
          [rewrite E; left; reflexivity|]. rewrite Hs. exact Hm.
      * apply in_map_iff in H as (y & <- & Hy).
        destruct (kept_tokens text y) as (Hm & _ & Hs);
          [rewrite E; right; exact Hy|].
        rewrite strip_space, Hs. exact Hm.
  - apply List.Forall_forall. intros t Ht.
    destruct (kept_tokens text t Ht) as (_ & Hc & _). exact Hc.
Qed.

Lemma text_queries text q :
  In q (ingredients_list (handler_ingredients_text text)) ->
  startswith marker q = false.
Proof.
  unfold ingredients_list. intros H.
  apply in_map_iff in H as (tok & <- & H).
  apply filter_In in H as [Htok _].
  unfold marker. rewrite startswith_lower. exact (text_tokens text tok Htok).
Qed.

Variable api_key : option string.
Variable srv : server.

Lemma get_recipes_unmarked text max_time cuisine num search_type dish_type low w0 :
  exists n,
    extends unmarked n w0
      (snd (get_recipes api_key srv (handler_ingredients_text text) max_time
              cuisine num search_type dish_type low w0)).
Proof.
  unfold get_recipes.
  destruct (key_missing api_key); [exists 0; apply extends_entered|].
  destruct (String.eqb search_type "OR").
  - pose proof (collect_extends srv unmarked
                  (ingredients_list (handler_ingredients_text text))
                  empty_agg (enter GetRecipes w0)
                  (fun i Hi => text_queries text i Hi)) as H1.
    destruct (collect srv _ empty_agg (enter GetRecipes w0)) as [st w1].
    simpl in H1.
    destruct (for_each_extends _ (ranked st num) w1
                (enrich_or_one srv max_time cuisine dish_type)) as [H2 _].
    destruct (for_each _ (ranked st num) w1) as [out w2]. simpl in *.
    eexists. apply (extends_enter _ _ GetRecipes).
    eapply extends_trans; [exact H1|].
    eapply extends_weaken; [| |exact H2]; [intros [] []; exact I | reflexivity].
  - set (params := {| cs_number := num |}).
    assert (Hp : extends unmarked 1 (enter GetRecipes w0)
                   (record (ComplexSearch params) (enter GetRecipes w0))).
    { apply extends_record. simpl. apply List.Forall_forall.
      intros q Hq. apply (text_tokens text q Hq). }
    unfold call_complex.
    destruct (complex_search srv _ params) as [[status|msg]|results]; simpl;
      try (exists 1; exact Hp).
    all: try (exists 1; apply (extends_enter _ _ GetRecipes); exact Hp).
    destruct (for_each_extends _ (default [] results)
                (record (ComplexSearch params) (enter GetRecipes w0))
                (enrich_and_one srv)) as [H2 _].
    destruct (for_each _ _ _) as [out w2]. simpl in *.
    eexists. apply (extends_enter _ _ GetRecipes).
    eapply extends_trans; [exact Hp|].
    eapply extends_weaken; [| |exact H2]; [intros [] []; exact I | reflexivity].
Qed.

Lemma get_fallback_unmarked text num w0 :
  exists n,
    extends unmarked n w0
      (snd (get_fallback_recipes api_key srv (handler_ingredients_text text) num w0)).
Proof.
  apply get_fallback_extends; [|intros v; exact I].
  intros i Hi. exact (text_queries text i Hi).
Qed.

Lemma search_unmarked f ses w0 :
  exists n, extends unmarked n w0 (snd (search api_key srv f ses w0)).
Proof.
  unfold search.
  destruct (get_recipes_unmarked (f_ingredients f) (f_max_time f)
              (if PyStr.truthy (f_cuisine f) then Some (f_cuisine f) else None)
              30 (f_search_type f) (Some (f_dish_type f)) (f_low_ingredient f) w0)
    as [n Hn].
  destruct (get_recipes _ _ _ _ _ _ _ _ _ w0) as [[e|[|r rs]] w1]; simpl in *;
    try (exists n; exact Hn).
  destruct (get_fallback_unmarked (f_ingredients f) 30 w1) as [m Hm].
  destruct (get_fallback_recipes _ _ _ _ w1) as [[e|[|r rs]] w2]; simpl in *;
    exists (n + m); eapply extends_trans; eassumption.
Qed.

Lemma ingredients_world submitted f ses w0 :
  snd (ingredients api_key srv submitted f ses w0)
  = if submitted then snd (search api_key srv f ses w0) else w0.
Proof.
  unfold ingredients. destruct submitted.
  - destruct (search api_key srv f ses w0) as [[pg ses1] w1]. simpl.
    destruct (restore pg ses1). reflexivity.
  - simpl. destruct (restore _ ses). reflexivity.
Qed.

Lemma search_exact_sent f ses w0 :
  key_missing api_key = false ->
  String.eqb (f_search_type f) "OR" = false ->
  exists params rest,
    sent (snd (search api_key srv f ses w0)) = sent w0 ++ ComplexSearch params :: rest
    /\ cs_includeIngredients params = handler_ingredients_text (f_ingredients f).
Proof.
  intros Hk Hs. unfold search.
  destruct (get_recipes_exact_sent api_key srv
              (handler_ingredients_text (f_ingredients f)) (f_max_time f)
              (if PyStr.truthy (f_cuisine f) then Some (f_cuisine f) else None)
              30 (f_search_type f) (Some (f_dish_type f)) (f_low_ingredient f) w0
              Hk Hs) as (rest & E & _).
  destruct (get_recipes _ _ _ _ _ _ _ _ _ w0) as [[e|[|r rs]] w1]; simpl in *;
    try (eexists _, rest; split; [exact E | reflexivity]).
  destruct (get_fallback_extends api_key srv (fun _ => True)
              (handler_ingredients_text (f_ingredients f)) 30 w1
              (fun _ _ => I) (fun _ => I)) as (n & more & E2 & _).
  destruct (get_fallback_recipes _ _ _ _ w1) as [[e|[|r rs]] w2]; simpl in *;
    (eexists _, (rest ++ more);
     split; [rewrite E2, E, <- app_assoc; reflexivity | reflexivity]).
Qed.

(** C6. A comma-separated token of the submitted ingredient text that
    starts, once trimmed, with the exclusion marker is not among the
    ingredients kept by the page, no token of the text handed to the
    search carries the marker, every request the page sends is free of
    marked ingredients, and the AND search sends exactly that text as its
    ingredient query. *)
Theorem marked_ingredients_never_queried submitted f ses w0 tok :
  In tok (split comma (f_ingredients f)) ->
  startswith marker (strip tok) = true ->
  ~ In (strip tok) (handler_ingredients_list (f_ingredients f))
  /\ (forall q, In q (split comma (handler_ingredients_text (f_ingredients f))) ->
                startswith marker (strip q) = false)
  /\ (exists new,
        sent (snd (ingredients api_key srv submitted f ses w0)) = sent w0 ++ new
        /\ Forall unmarked new)
  /\ (key_missing api_key = false -> submitted = true ->
      String.eqb (f_search_type f) "OR" = false ->
      exists params rest,
        sent (snd (ingredients api_key srv submitted f ses w0))
        = sent w0 ++ ComplexSearch params :: rest
        /\ cs_includeIngredients params = handler_ingredients_text (f_ingredients f)).
Proof.
  intros Htok Hmark. repeat split.
  - intros Hin. apply kept_tokens in Hin as (Hm & _). congruence.
  - intros q Hq. exact (text_tokens _ q Hq).
  - rewrite ingredients_world. destruct submitted.
    + destruct (search_unmarked f ses w0) as (n & new & E & Hnew & _).
      exists new. split; assumption.
    + exists []. rewrite app_nil_r. split; [reflexivity | constructor].
  - intros Hk -> Hs. rewrite ingredients_world. apply search_exact_sent; assumption.
Qed.

End MarkerFacts.

Example split_example :
  PyStr.split Ingredients.comma "eggs, milk, #cilantro" = ["eggs"; " milk"; " #cilantro"].
Proof. reflexivity. Qed.

Example handler_text_example :
  Ingredients.handler_ingredients_text "eggs, milk, #cilantro" = "eggs, milk".
Proof. reflexivity. Qed.

Example handler_text_blanks :
  Ingredients.handler_ingredients_text "  Eggs ,, #cilantro,milk " = "Eggs, milk".
Proof. reflexivity. Qed.

Example ingredients_list_example :
  Ingredients.ingredients_list "Eggs, milk" = ["eggs"; "milk"].
Proof. reflexivity. Qed.

(** The scenario of the search form: "eggs, milk, #cilantro" in AND mode
    sends the query "eggs, milk". *)
Lemma marked_ingredients_witness :
  let f := {| Page.f_ingredients := "eggs, milk, #cilantro";
              Page.f_max_time := None;
              Page.f_cuisine := "";
              Page.f_search_type := "AND";
              Page.f_dish_type := "";
              Page.f_low_ingredient := false |} in
  ~ In "#cilantro" (Ingredients.handler_ingredients_list "eggs, milk, #cilantro")
  /\ (exists params rest,
        Api.sent (snd (Page.ingredients Scenario.some_key Scenario.offline true f
                         Page.empty_session Api.start))
        = Api.ComplexSearch params :: rest
        /\ Api.cs_includeIngredients params = "eggs, milk").
Proof.
  intros f.
  destruct (marked_ingredients_never_queried Scenario.some_key Scenario.offline
              true f Page.empty_session Api.start " #cilantro")
    as (H1 & _ & _ & H4).
  - simpl. tauto.
  - reflexivity.
  - split; [exact H1|]. apply H4; reflexivity.
Defined.

(** ** The aggregation of the per-ingredient answers *)

Section AggFacts.
Import PyStr Json Api PyList Ingredients Search Spec.

Lemma has_key_spec k (all : list (key * dict)) :
  has_key k all = true <-> k ∈ map fst all.
Proof.
  unfold has_key. rewrite existsb_exists, list_elem_of_In, in_map_iff.
  split; intros (kv & H1 & H2); exists kv.
  - apply bool_decide_eq_true in H2. split; [exact H2 | exact H1].
  - split; [exact H2 | apply bool_decide_eq_true; exact H1].
Qed.

Lemma count_occ_absent (seen : list key) k :
  k ∉ seen -> count_occ key_eq_dec seen k = 0.
Proof. rewrite list_elem_of_In. apply count_occ_not_In. Qed.

Lemma count_occ_snoc (seen : list key) k k' :
  count_occ key_eq_dec (seen ++ [k]) k'
  = count_occ key_eq_dec seen k' + (if decide (k = k') then 1 else 0).
Proof.
  rewrite count_occ_app. simpl.
  destruct (key_eq_dec k k'), (decide (k = k')); congruence.
Qed.

Lemma empty_agg_inv : agg_inv [] empty_agg.
Proof.
  split; simpl.
  - constructor.
  - intros k r H. inversion H.
  - reflexivity.
  - intros k. rewrite lookup_empty. destruct (decide (k ∈ [])) as [H|]; [inversion H | reflexivity].
Qed.

(** Counting one more entry with the hashable id [k]. *)
Lemma add_recipe_inv seen st recipe v k :
  agg_inv seen st ->
  recipe !! "id" = Some v -> truthy v = true -> as_key v = Some k ->
  exists st', add_recipe st recipe = (st', false) /\ agg_inv (seen ++ [k]) st'.
Proof.
  intros [Hnd Hids Hseen Hcnt] Hv Ht Hk.
  unfold add_recipe, get. rewrite Hv. simpl. rewrite Ht, Hk.
  destruct (has_key k (all_recipes st)) eqn:Hhas.
  - apply has_key_spec in Hhas. pose proof (proj1 (Hseen k) Hhas) as Hin.
    rewrite (Hcnt k). destruct (decide (k ∈ seen)) as [_|]; [|contradiction].
    eexists. split; [reflexivity|]. split; simpl.
    + exact Hnd.
    + exact Hids.
    + intros k'. rewrite (Hseen k'), elem_of_app, list_elem_of_singleton.
      split; [tauto|]. intros [H| ->]; assumption.
    + intros k'. rewrite count_occ_snoc.
      destruct (decide (k = k')) as [<-|Hne].
      * rewrite lookup_insert_eq.
        destruct (decide (k ∈ seen ++ [k])) as [_|Hn];
          [f_equal; lia | exfalso; apply Hn, elem_of_app; left; exact Hin].
      * rewrite lookup_insert_ne by exact Hne. rewrite (Hcnt k').
        destruct (decide (k' ∈ seen)) as [H1|H1],
                 (decide (k' ∈ seen ++ [k])) as [H2|H2];
          try (f_equal; lia); try reflexivity; exfalso.
        -- apply H2, elem_of_app. left. exact H1.
        -- apply elem_of_app in H2 as [H2|H2]; [contradiction|].
           apply list_elem_of_singleton in H2. congruence.
  - assert (Hnot : k ∉ map fst (all_recipes st)).
    { intros H. apply has_key_spec in H. congruence. }
    assert (Hnew : k ∉ seen) by (intros H; apply Hnot, Hseen, H).
    simpl. rewrite lookup_insert_eq.
    eexists. split; [reflexivity|]. split; simpl.
    + rewrite map_app. simpl. apply NoDup_app. repeat split.
      * exact Hnd.
      * intros x Hx Hx'. apply list_elem_of_singleton in Hx'. subst x. contradiction.
      * apply NoDup_singleton.
    + intros k' r Hin. apply elem_of_app in Hin as [Hin|Hin]; [eauto|].
      apply list_elem_of_singleton in Hin. inversion Hin; subst. eauto.
    + intros k'. rewrite map_app, !elem_of_app, (Hseen k'). reflexivity.
    + intros k'. rewrite count_occ_snoc.
      destruct (decide (k = k')) as [<-|Hne].
      * rewrite lookup_insert_eq, (count_occ_absent _ _ Hnew).
        destruct (decide (k ∈ seen ++ [k])) as [_|Hn]; [reflexivity|].
        exfalso. apply Hn, elem_of_app. right. apply list_elem_of_singleton. reflexivity.
      * rewrite !lookup_insert_ne by exact Hne. rewrite (Hcnt k').
        destruct (decide (k' ∈ seen)) as [H1|H1],
                 (decide (k' ∈ seen ++ [k])) as [H2|H2];
          try (f_equal; lia); try reflexivity; exfalso.
        -- apply H2, elem_of_app. left. exact H1.
        -- apply elem_of_app in H2 as [H2|H2]; [contradiction|].
           apply list_elem_of_singleton in H2. congruence.
Qed.

Lemma truthy_present (recipe : dict) :
  truthy (get recipe "id") = true ->
  exists v, recipe !! "id" = Some v /\ get recipe "id" = v.
Proof.
  unfold get. destruct (recipe !! "id") as [v|]; simpl; [eauto | discriminate].
Qed.

Lemma add_recipes_inv seen st recipes :
  agg_inv seen st -> agg_inv (seen ++ counted recipes) (add_recipes st recipes).
Proof.
  revert seen st. induction recipes as [|r rest IH]; intros seen st Hinv; simpl.
  - rewrite app_nil_r. exact Hinv.
  - destruct (truthy (get r "id")) eqn:Ht.
    + destruct (truthy_present r Ht) as (v & Hv & Hg).
      destruct (as_key (get r "id")) as [k|] eqn:Hk.
      * rewrite Hg in Ht, Hk.
        destruct (add_recipe_inv seen st r v k Hinv Hv Ht Hk) as (st' & E & Hinv').
        rewrite E. rewrite (cons_middle k), app_assoc. apply IH, Hinv'.
      * unfold add_recipe. rewrite Ht, Hk, app_nil_r. exact Hinv.
    + unfold add_recipe. rewrite Ht. apply IH, Hinv.
Qed.

Variable srv : server.

Lemma collect_inv ings seen st w :
  agg_inv seen st ->
  agg_inv (seen ++ all_counted (answers srv ings w)) (fst (collect srv ings st w)).
Proof.
  revert seen st w. induction ings as [|i rest IH]; intros seen st w Hinv; simpl.
  - unfold all_counted. simpl. rewrite app_nil_r. exact Hinv.
  - destruct (find_by_ingredients srv (sent w) i 50) as [e|body].
    + apply IH, Hinv.
    + unfold all_counted. simpl. rewrite app_assoc.
      apply IH, add_recipes_inv, Hinv.
Qed.

End AggFacts.

(** ** Ranking: the stable descending sort, the cap and the loops *)

Section RankFacts.
Import PyStr Json Api PyList Ingredients Search Spec.

Context {A : Type} (f : A -> nat).

Lemma insert_desc_perm x l : insert_desc f x l ≡ₚ x :: l.
Proof.
  induction l as [|y l IH]; simpl; [reflexivity|].
  destruct (f y <=? f x)%nat; [reflexivity|].
  rewrite IH. apply Permutation_swap.
Qed.

Lemma sort_desc_perm l : sort_desc f l ≡ₚ l.
Proof.
  induction l as [|x l IH]; simpl; [reflexivity|].
  rewrite insert_desc_perm, IH. reflexivity.
Qed.

Lemma insert_desc_sorted x l :
  StronglySorted (desc f) l -> StronglySorted (desc f) (insert_desc f x l).
Proof.
  induction l as [|y l IH]; simpl; intros Hs.
  - repeat constructor.
  - inversion Hs as [|? ? Hl Hy]; subst.
    destruct (f y <=? f x)%nat eqn:E.
    + apply Nat.leb_le in E. constructor; [exact Hs|].
      constructor; [exact E|].
      revert Hy. apply List.Forall_impl. unfold desc. intros z Hz. lia.
    + apply Nat.leb_gt in E. constructor; [apply IH, Hl|].
      rewrite (insert_desc_perm x l). constructor; [unfold desc; lia | exact Hy].
Qed.

Lemma sort_desc_sorted l : StronglySorted (desc f) (sort_desc f l).
Proof.
  induction l as [|x l IH]; simpl; [constructor | apply insert_desc_sorted, IH].
Qed.

Lemma py_take_sublist num (l : list A) : py_take num l `sublist_of` l.
Proof. unfold py_take. destruct (0 <=? num)%Z; apply sublist_take. Qed.

Lemma py_take_length num (l : list A) :
  (0 <= num)%Z -> (Z.of_nat (length (py_take num l)) <= num)%Z.
Proof.
  intros H. unfold py_take.
  destruct (0 <=? num)%Z eqn:E; [|apply Z.leb_gt in E; lia].
  rewrite length_take. lia.
Qed.

End RankFacts.

Section OrderFacts.
Import PyStr Json Api PyList Ingredients Search Spec.

Lemma forall_sublist {A : Type} (P : A -> Prop) (l1 l2 : list A) :
  l1 `sublist_of` l2 -> Forall P l2 -> Forall P l1.
Proof.
  induction 1 as [|x l1 l2 Hsub IH|x l1 l2 Hsub IH]; intros Hall.
  - constructor.
  - inversion Hall; subst. constructor; auto.
  - inversion Hall; subst. auto.
Qed.

Lemma sorted_sublist {A : Type} (R : A -> A -> Prop) (l1 l2 : list A) :
  l1 `sublist_of` l2 -> StronglySorted R l2 -> StronglySorted R l1.
Proof.
  induction 1 as [|x l1 l2 Hsub IH|x l1 l2 Hsub IH]; intros Hs.
  - constructor.
  - inversion Hs as [|? ? Hl Hx]; subst. constructor; [apply IH, Hl|].
    eapply forall_sublist; eassumption.
  - inversion Hs; subst. auto.
Qed.

Lemma sorted_map {A : Type} (f : A -> nat) (l : list A) :
  StronglySorted (desc f) l -> StronglySorted ge (map f l).
Proof.
  induction 1 as [|x l Hl IH Hx]; simpl; constructor; [exact IH|].
  apply List.Forall_map. revert Hx. apply List.Forall_impl. unfold desc. intros; lia.
Qed.

Lemma sorted_non_increasing (l : list nat) :
  StronglySorted ge l -> non_increasing l.
Proof.
  induction 1 as [|x l Hl IH Hx]; intros i j a b Hij Hi Hj.
  - destruct i; discriminate.
  - destruct j as [|j]; [lia|]. simpl in Hj. destruct i as [|i]; simpl in Hi.
    + inversion Hi; subst a. rewrite List.Forall_forall in Hx.
      assert (x >= b); [|lia].
      apply Hx, list_elem_of_In, list_elem_of_lookup. eauto.
    + apply (IH i j a b); [lia | exact Hi | exact Hj].
Qed.

Lemma sublist_map {A B : Type} (g : A -> B) (l1 l2 : list A) :
  l1 `sublist_of` l2 -> map g l1 `sublist_of` map g l2.
Proof. induction 1; simpl; constructor; assumption. Qed.

(** The loops append recipes in the order of their input, some skipped,
    each with its id untouched. *)
Lemma for_each_ids body recipes w :
  keeps_id body ->
  map recipe_id (fst (for_each body recipes w)) `sublist_of` map recipe_id recipes.
Proof.
  intros Hb. revert w. induction recipes as [|r rest IH]; intros w; simpl.
  - constructor.
  - destruct (body r w) as [o w1] eqn:E. specialize (IH w1).
    destruct (for_each body rest w1) as [out w2]. simpl in *.
    destruct o as [r'|].
    + simpl. rewrite (Hb _ _ _ _ E). constructor. exact IH.
    + constructor. exact IH.
Qed.

Lemma for_each_length body recipes w :
  length (fst (for_each body recipes w)) <= length recipes.
Proof.
  revert w. induction recipes as [|r rest IH]; intros w; simpl; [lia|].
  destruct (body r w) as [o w1]. specialize (IH w1).
  destruct (for_each body rest w1) as [out w2]. simpl in *.
  destruct o; simpl; lia.
Qed.

Variable srv : server.

Lemma enrich_and_keeps_id : keeps_id (enrich_and srv).
Proof.
  intros r w r' w'. unfold enrich_and, recipe_id.
  destruct (r !! "id") as [v|] eqn:Hv; [|intros [= <- _]; assumption].
  destruct (call_information srv v w) as [[e|info] w1]; intros [= <- _];
    [assumption|].
  rewrite !lookup_insert_ne by discriminate. assumption.
Qed.

Lemma enrich_or_keeps_id max_time cuisine dish_type :
  keeps_id (enrich_or srv max_time cuisine dish_type).
Proof.
  intros r w r' w'. unfold enrich_or, recipe_id.
  destruct (r !! "id") as [v|] eqn:Hv; [|intros [= <- _]; assumption].
  destruct (call_information srv v w) as [[e|info] w1];
    [intros [= <- _]; assumption|].
  destruct (or_filters max_time cuisine dish_type info); intros [= <- _];
    rewrite !lookup_insert_ne by discriminate; assumption.
Qed.

Lemma enrich_fallback_keeps_id cnt : keeps_id (enrich_fallback srv cnt).
Proof.
  intros r w r' w'. unfold enrich_fallback, recipe_id.
  destruct (r !! "id") as [v|] eqn:Hv; [|discriminate].
  destruct (call_information srv v w) as [[e|info] w1]; [discriminate|].
  destruct (match_count_opt _ _); intros [= <- _].
  rewrite !lookup_insert_ne by discriminate. assumption.
Qed.

Lemma match_count_by_id cnt r :
  match_count_of cnt r = count_by_id cnt (recipe_id r).
Proof. reflexivity. Qed.

End OrderFacts.

(** ** The OR search *)

Section InclusiveFacts.
Import PyStr Json Api PyList Ingredients Search Spec.

Variable api_key : option string.
Variable srv : server.

Lemma get_recipes_or ingredients max_time cuisine num dish_type low w0 :
  key_missing api_key = false ->
  get_recipes api_key srv ingredients max_time cuisine num "OR" dish_type low w0
  = let '(st, w1) :=
      collect srv (ingredients_list ingredients) empty_agg (enter GetRecipes w0) in
    let '(out, w2) :=
      for_each (enrich_or srv max_time cuisine dish_type) (ranked st num) w1 in
    (inr out, w2).
Proof. intros Hk. unfold get_recipes. rewrite Hk. reflexivity. Qed.

Lemma ranked_sublist st num :
  exists l, l ≡ₚ map snd (all_recipes st)
            /\ StronglySorted (desc (match_count_of (ingredient_match_count st))) l
            /\ ranked st num `sublist_of` l.
Proof.
  exists (sort_desc (match_count_of (ingredient_match_count st))
            (map snd (all_recipes st))).
  split; [apply sort_desc_perm|]. split; [apply sort_desc_sorted|].
  apply py_take_sublist.
Qed.

(** The recipes kept in [all_recipes] have pairwise different ids. *)
Lemma stored_ids_nodup seen st :
  agg_inv seen st -> NoDup (map recipe_id (map snd (all_recipes st))).
Proof.
  intros [Hnd Hids _ _]. revert Hnd Hids.
  induction (all_recipes st) as [|[k r] all IH]; simpl; intros Hnd Hids.
  - constructor.
  - apply NoDup_cons in Hnd as [Hk Hnd]. apply NoDup_cons. split.
    + intros Hin. apply Hk.
      apply list_elem_of_In, in_map_iff in Hin as (r' & Hr' & Hin).
      apply in_map_iff in Hin as ([k' r''] & Hs & Hin). simpl in Hs. subst r''.
      apply list_elem_of_In in Hin.
      destruct (Hids k r) as (v & Hv & Hkv); [left|].
      destruct (Hids k' r') as (v' & Hv' & Hkv'); [right; exact Hin|].
      unfold recipe_id in Hr'. rewrite Hv, Hv' in Hr'. inversion Hr'; subst v'.
      assert (k' = k) by congruence. subst k'.
      apply list_elem_of_In, in_map_iff. exists (k, r').
      split; [reflexivity | apply list_elem_of_In, Hin].
    + apply IH; [exact Hnd|]. intros k' r' Hin. apply Hids. right. exact Hin.
Qed.

Lemma ranked_ids_nodup seen st num :
  agg_inv seen st -> NoDup (map recipe_id (ranked st num)).
Proof.
  intros Hinv. destruct (ranked_sublist st num) as (l & Hperm & _ & Hsub).
  eapply sublist_NoDup; [|apply sublist_map, Hsub].
  assert (Hp : map recipe_id l ≡ₚ map recipe_id (map snd (all_recipes st)))
    by (apply Permutation_map, Hperm).
  rewrite Hp. apply (stored_ids_nodup seen st Hinv).
Qed.

Lemma ranked_have_ids seen st num :
  agg_inv seen st -> Forall (fun r => is_Some (recipe_id r)) (ranked st num).
Proof.
  intros Hinv. destruct (ranked_sublist st num) as (l & Hperm & _ & Hsub).
  apply (forall_sublist _ _ l Hsub). rewrite Hperm.
  apply List.Forall_forall. intros r Hr.
  apply in_map_iff in Hr as ([k r'] & Hs & Hin). simpl in Hs. subst r'.
  destruct (inv_ids seen st Hinv k r) as (v & Hv & _); [apply list_elem_of_In, Hin|].
  unfold recipe_id. rewrite Hv. eauto.
Qed.

Lemma ranked_sorted st num :
  StronglySorted ge (map (match_count_of (ingredient_match_count st)) (ranked st num)).
Proof.
  destruct (ranked_sublist st num) as (l & _ & Hsorted & Hsub).
  apply sorted_map. eapply sorted_sublist; eassumption.
Qed.

Lemma loop_sorted body cnt recipes w :
  keeps_id body ->
  StronglySorted ge (map (match_count_of cnt) recipes) ->
  StronglySorted ge (map (match_count_of cnt) (fst (for_each body recipes w))).
Proof.
  intros Hb Hs.
  assert (E : forall l, map (match_count_of cnt) l
                        = map (count_by_id cnt) (map recipe_id l))
    by (intros l; rewrite map_map; reflexivity).
  rewrite E in *. eapply sorted_sublist; [|exact Hs].
  apply sublist_map, for_each_ids, Hb.
Qed.

(** C3. With the credential present, the OR search returns, and the match
    counts of the recipes it returns never go up along the list: for
    positions i < j the count at i is at least the count at j.  The order
    is that of the ranked list, which the enrichment and filter pass only
    thins out. *)
Theorem inclusive_ranking_non_increasing ingredients max_time cuisine num
    dish_type low w0 :
  key_missing api_key = false ->
  exists out w',
    get_recipes api_key srv ingredients max_time cuisine num "OR" dish_type low w0
    = (inr out, w')
    /\ let st := fst (collect srv (ingredients_list ingredients) empty_agg
                        (enter GetRecipes w0)) in
       let count := match_count_of (ingredient_match_count st) in
       non_increasing (map count out)
       /\ non_increasing (map count (ranked st num))
       /\ map recipe_id out `sublist_of` map recipe_id (ranked st num).
Proof.
  intros Hk. rewrite (get_recipes_or _ _ _ _ _ _ _ Hk).
  destruct (collect srv _ empty_agg (enter GetRecipes w0)) as [st w1] eqn:Ec.
  pose proof (loop_sorted (enrich_or srv max_time cuisine dish_type)
                (ingredient_match_count st) (ranked st num) w1
                (enrich_or_keeps_id srv max_time cuisine dish_type)
                (ranked_sorted st num)) as Hs.
  pose proof (for_each_ids (enrich_or srv max_time cuisine dish_type)
                (ranked st num) w1
                (enrich_or_keeps_id srv max_time cuisine dish_type)) as Hsub.
  destruct (for_each _ (ranked st num) w1) as [out w2]. simpl in *.
  exists out, w2. split; [reflexivity|]. repeat split.
  - apply sorted_non_increasing, Hs.
  - apply sorted_non_increasing, ranked_sorted.
  - exact Hsub.
Qed.

(** C5. With the credential present, the OR search returns a list in
    which every recipe has an id and no id occurs twice, whatever the
    per-ingredient responses held. *)
Theorem inclusive_ids_unique ingredients max_time cuisine num dish_type low w0 :
  key_missing api_key = false ->
  exists out w',
    get_recipes api_key srv ingredients max_time cuisine num "OR" dish_type low w0
    = (inr out, w')
    /\ NoDup (map recipe_id out)
    /\ Forall (fun r => is_Some (recipe_id r)) out.
Proof.
  intros Hk. rewrite (get_recipes_or _ _ _ _ _ _ _ Hk).
  pose proof (collect_inv srv (ingredients_list ingredients) [] empty_agg
                (enter GetRecipes w0) empty_agg_inv) as Hinv.
  destruct (collect srv _ empty_agg (enter GetRecipes w0)) as [st w1] eqn:Ec.
  simpl in Hinv.
  pose proof (for_each_ids (enrich_or srv max_time cuisine dish_type)
                (ranked st num) w1
                (enrich_or_keeps_id srv max_time cuisine dish_type)) as Hsub.
  destruct (for_each _ (ranked st num) w1) as [out w2]. simpl in *.
  exists out, w2. split; [reflexivity|]. split.
  - eapply sublist_NoDup; [eapply ranked_ids_nodup, Hinv | exact Hsub].
  - apply List.Forall_map.
    eapply forall_sublist; [exact Hsub|].
    apply List.Forall_map. eapply ranked_have_ids, Hinv.
Qed.

End InclusiveFacts.

Example inclusive_scenario :
  map Spec.recipe_id
    (match fst (Search.get_recipes Scenario.some_key Scenario.pantry "egg, rice"
                  None None 30 "OR" None false Api.start) with
     | inr out => out
     | inl _ => []
     end)
  = [Some (Json.VInt 2); Some (Json.VInt 1); Some (Json.VInt 3)].
Proof. vm_compute. reflexivity. Qed.

Lemma inclusive_ranking_witness :
  exists out w',
    Search.get_recipes Scenario.some_key Scenario.pantry "egg, rice" None None 30
      "OR" None false Api.start = (inr out, w')
    /\ let st := fst (Search.collect Scenario.pantry
                        (Ingredients.ingredients_list "egg, rice") Search.empty_agg
                        (Api.enter Api.GetRecipes Api.start)) in
       let count := Search.match_count_of (Search.ingredient_match_count st) in
       Spec.non_increasing (map count out)
       /\ Spec.non_increasing (map count (Search.ranked st 30))
       /\ map Spec.recipe_id out
            `sublist_of` map Spec.recipe_id (Search.ranked st 30).
Proof.
  apply (inclusive_ranking_non_increasing Scenario.some_key Scenario.pantry
           "egg, rice" None None 30 None false Api.start).
  reflexivity.
Defined.

Lemma inclusive_ids_witness :
  exists out w',
    Search.get_recipes Scenario.some_key Scenario.pantry "egg, rice" None None 30
      "OR" None false Api.start = (inr out, w')
    /\ NoDup (map Spec.recipe_id out)
    /\ Forall (fun r => is_Some (Spec.recipe_id r)) out.
Proof.
  apply (inclusive_ids_unique Scenario.some_key Scenario.pantry
           "egg, rice" None None 30 None false Api.start).
  reflexivity.
Defined.

(** ** Match counts *)

Section CountFacts.
Import PyStr Json Api PyList Ingredients Search Spec.

Lemma count_occ_nodup (l : list key) k :
  NoDup l -> count_occ key_eq_dec l k = if bool_decide (k ∈ l) then 1 else 0.
Proof.
  intros Hnd. apply NoDup_ListNoDup in Hnd.
  pose proof (proj1 (NoDup_count_occ key_eq_dec l) Hnd k) as Hle.
  destruct (bool_decide (k ∈ l)) eqn:E.
  - apply bool_decide_eq_true, list_elem_of_In in E.
    apply (count_occ_In key_eq_dec) in E. lia.
  - apply bool_decide_eq_false in E. apply count_occ_absent, E.
Qed.

Lemma key_truthy_spec v k : as_key v = Some k -> key_truthy k = truthy v.
Proof. destruct v; simpl; intros [= <-]; reflexivity. Qed.

(** The ids the loop cannot look up are the non-empty lists and
    objects. *)
Lemma unhashable_spec (r : dict) :
  unhashable_id r
  = truthy (get r "id") && bool_decide (as_key (get r "id") = None).
Proof.
  unfold unhashable_id.
  destruct (get r "id") as [|z|s|[|x l]|[|x kvs]]; simpl; try reflexivity;
    symmetry; apply andb_false_r.
Qed.

(** The trace of one response counts the id as often as the readable
    entries carry it. *)
Lemma counted_listed k recipes :
  key_truthy k = true ->
  count_occ key_eq_dec (counted recipes) k = listed k (readable recipes).
Proof.
  intros Hk. unfold listed. induction recipes as [|r rest IH]; [reflexivity|].
  cbn [counted readable]. rewrite unhashable_spec.
  destruct (truthy (get r "id")) eqn:Ht.
  - destruct (as_key (get r "id")) as [k'|] eqn:Ek; [|reflexivity].
    cbn [andb bool_decide]. rewrite bool_decide_eq_false_2 by discriminate.
    cbn [List.filter]. unfold carries at 1. rewrite Ek. cbn [count_occ].
    destruct (key_eq_dec k' k) as [->|Hne].
    + rewrite bool_decide_eq_true_2 by reflexivity. cbn [length]. f_equal. exact IH.
    + rewrite bool_decide_eq_false_2 by congruence. exact IH.
  - cbn [andb List.filter]. unfold carries at 1.
    rewrite bool_decide_eq_false_2; [exact IH|].
    intros Ek. apply key_truthy_spec in Ek. congruence.
Qed.

Lemma counted_truthy k recipes : k ∈ counted recipes -> key_truthy k = true.
Proof.
  induction recipes as [|r rest IH]; cbn [counted]; [intros H; inversion H|].
  destruct (truthy (get r "id")) eqn:Ht; [|exact IH].
  destruct (as_key (get r "id")) as [k'|] eqn:Ek; [|intros H; inversion H].
  intros H. apply elem_of_cons in H as [->|H]; [|exact (IH H)].
  rewrite (key_truthy_spec _ _ Ek). exact Ht.
Qed.

Lemma entries_cons k a answered :
  entries_matching k (a :: answered)
  = listed k (snd a) + entries_matching k answered.
Proof. reflexivity. Qed.

Lemma trace_read k answered :
  key_truthy k = true ->
  count_occ key_eq_dec (all_counted answered) k = entries_matching k (read answered).
Proof.
  intros Hk. induction answered as [|a answered IH]; [reflexivity|].
  change (read (a :: answered)) with ((fst a, readable (snd a)) :: read answered).
  rewrite entries_cons, <- IH. cbn [snd].
  change (all_counted (a :: answered)) with (counted (snd a) ++ all_counted answered).
  rewrite count_occ_app, (counted_listed _ _ Hk). reflexivity.
Qed.

Lemma trace_falsy k answered : key_truthy k = false -> k ∉ all_counted answered.
Proof.
  intros Hk Hin. unfold all_counted in Hin.
  apply list_elem_of_In, in_concat in Hin as (l & Hl & Hin).
  apply in_map_iff in Hl as (a & <- & _).
  apply list_elem_of_In, counted_truthy in Hin. congruence.
Qed.

Lemma readable_all recipes :
  Forall (fun r => unhashable_id r = false) recipes -> readable recipes = recipes.
Proof.
  induction 1 as [|r rest Hr _ IH]; [reflexivity|].
  cbn [readable]. rewrite Hr, IH. reflexivity.
Qed.

Lemma read_all answered : hashable_ids answered -> read answered = answered.
Proof.
  unfold read. induction 1 as [|a answered Ha _ IH]; [reflexivity|].
  cbn [map]. rewrite IH, (readable_all _ Ha). destruct a; reflexivity.
Qed.



Variable srv : server.


End CountFacts.



(** An entry whose id is a list ends the reading of its response: with
    "x" answered by recipe 3 and "y" by an entry with the id [[9]]
    followed by recipe 3, recipe 3 is counted once although two entries
    carry its id. *)
Example unhashable_id_cuts_response :
  let st := fst (Search.collect Scenario2.odd_ids
                   (Ingredients.ingredients_list "x, y") Search.empty_agg
                   Api.start) in
  let answered := Search.answers Scenario2.odd_ids
                    (Ingredients.ingredients_list "x, y") Api.start in
  Search.ingredient_match_count st !! Json.KInt 3 = Some 1
  /\ Spec.entries_matching (Json.KInt 3) (Spec.read answered) = 1
  /\ Spec.entries_matching (Json.KInt 3) answered = 2.
Proof. vm_compute. repeat split; reflexivity. Qed.

(** ** The result cap *)

Section CapFacts.
Import PyStr Json Api PyList Ingredients Search Spec.

Variable api_key : option string.
Variable srv : server.

Lemma for_each_and_length recipes w :
  length (fst (for_each (enrich_and srv) recipes w)) = length recipes.
Proof.
  revert w. induction recipes as [|r rest IH]; intros w; simpl; [reflexivity|].
  destruct (enrich_and srv r w) as [o w1] eqn:E. specialize (IH w1).
  destruct (for_each (enrich_and srv) rest w1) as [out w2]. simpl in *.
  unfold enrich_and in E. destruct (r !! "id") as [v|].
  - destruct (call_information srv v w) as [[e|info] w']; inversion E; subst;
      simpl; congruence.
  - inversion E; subst. simpl. congruence.
Qed.

Lemma ranked_length st num :
  (0 <= num)%Z -> (Z.of_nat (length (ranked st num)) <= num)%Z.
Proof. apply py_take_length. Qed.

(** C8, as the code has it.  With the credential present and a
    non-negative [num]: the OR search hands at most [num] recipes to
    enrichment, so it sends at most [num] detail fetches, all after the
    per-ingredient queries, and returns at most [num] recipes, whatever
    the service answers.  The AND search sends [num] as the [number]
    parameter of its one search request; every entry of the response is
    enriched and returned. *)
Theorem recipe_cap ingredients max_time cuisine num search_type dish_type low w0 :
  key_missing api_key = false ->
  (0 <= num)%Z ->
  (search_type = "OR" ->
   exists out w' finds infos,
     get_recipes api_key srv ingredients max_time cuisine num search_type
       dish_type low w0 = (inr out, w')
     /\ (Z.of_nat (length out) <= num)%Z
     /\ sent w' = sent w0 ++ finds ++ infos
     /\ Forall is_find finds
     /\ Forall is_information infos
     /\ (Z.of_nat (length infos) <= num)%Z)
  /\
  (String.eqb search_type "OR" = false ->
   let res := get_recipes api_key srv ingredients max_time cuisine num search_type
                dish_type low w0 in
   exists params infos,
     sent (snd res) = sent w0 ++ ComplexSearch params :: infos
     /\ cs_number params = num
     /\ Forall is_information infos
     /\ forall results,
          complex_search srv (sent w0) params = inr results ->
          exists out, fst res = inr out
                      /\ length out = length (default [] results)
                      /\ length infos <= length (default [] results)).
Proof.
  intros Hk Hnum. split.
  - intros ->. rewrite (get_recipes_or _ _ _ _ _ _ _ _ _ Hk).
    pose proof (collect_extends srv is_find (ingredients_list ingredients)
                  empty_agg (enter GetRecipes w0) (fun _ _ => I))
      as (finds & Ef & Hf & _).
    destruct (collect srv _ empty_agg (enter GetRecipes w0)) as [st w1].
    simpl in Ef.
    destruct (for_each_extends _ (ranked st num) w1
                (enrich_or_one srv max_time cuisine dish_type))
      as [(infos & Ei & Hi & Li) _].
    pose proof (for_each_length (enrich_or srv max_time cuisine dish_type)
                  (ranked st num) w1) as Lo.
    pose proof (ranked_length st num Hnum) as Lr.
    destruct (for_each _ (ranked st num) w1) as [out w2]. simpl in *.
    exists out, w2, finds, infos. rewrite Ei, Ef, <- app_assoc.
    repeat split; try assumption; lia.
  - intros Hs res.
    destruct (get_recipes_exact_sent api_key srv ingredients max_time cuisine num
                search_type dish_type low w0 Hk Hs) as (infos & E & Hi & Li).
    eexists _, infos. split; [exact E|]. split; [reflexivity|].
    split; [exact Hi|]. intros results Hres. rewrite Hres in Li.
    subst res. unfold get_recipes in *. rewrite Hk, Hs in *.
    unfold call_complex in *. simpl in *. rewrite Hres in *.
    pose proof (for_each_and_length (default [] results)
                  (record (ComplexSearch
                     {| cs_number := num;
                        cs_includeIngredients := ingredients;
                        cs_maxReadyTime := max_time;
                        cs_cuisine := opt_truthy cuisine;
                        cs_type := opt_truthy dish_type;
                        cs_few_ingredients := low |}) (enter GetRecipes w0))) as Lo.
    destruct (for_each _ _ _) as [out w2]. simpl in *.
    exists out. split; [reflexivity|]. split; [exact Lo | exact Li].
Qed.

End CapFacts.

Lemma recipe_cap_witness :
  exists out w' finds infos,
    Search.get_recipes Scenario.some_key Scenario.pantry "egg, rice" None None 2
      "OR" None false Api.start = (inr out, w')
    /\ (Z.of_nat (length out) <= 2)%Z
    /\ Api.sent w' = Api.sent Api.start ++ finds ++ infos
    /\ Forall Spec.is_find finds
    /\ Forall Spec.is_information infos
    /\ (Z.of_nat (length infos) <= 2)%Z.
Proof.
  destruct (recipe_cap Scenario.some_key Scenario.pantry "egg, rice" None None 2
              "OR" None false Api.start) as [H _].
  - reflexivity.
  - lia.
  - apply H. reflexivity.
Defined.

(** The claim as worded fails in AND mode: asked for one recipe, a service
    that answers with two has both enriched and returned. *)
Lemma exact_mode_exceeds_cap :
  let res := Search.get_recipes Scenario.some_key Scenario.pantry "egg" None None 1
               "AND" None false Api.start in
  match fst res with inr out => length out | inl _ => 0 end = 2
  /\ drop 1 (Api.sent (snd res))
     = [Api.Information (Json.VInt 1); Api.Information (Json.VInt 2)].
Proof. vm_compute. split; reflexivity. Qed.

(** ** Failing detail fetches *)

Section DetailFacts.
Import PyStr Json Api PyList Ingredients Search Spec.

Variable api_key : option string.
Variable srv : server.

Lemma for_each_keeps body recipes w r :
  In r recipes -> (forall w1, fst (body r w1) = Some r) ->
  In r (fst (for_each body recipes w)).
Proof.
  intros Hin Hb. revert w. induction recipes as [|r0 rest IH]; intros w; [inversion Hin|].
  simpl. destruct (body r0 w) as [o w1] eqn:E.
  destruct Hin as [->|Hin].
  - pose proof (Hb w) as Hr. rewrite E in Hr. simpl in Hr. subst o.
    destruct (for_each body rest w1). left. reflexivity.
  - pose proof (IH Hin w1) as IH'.
    destruct (for_each body rest w1) as [out w2]. simpl in *.
    destruct o; [right|]; exact IH'.
Qed.

Lemma enrich_and_on_failure r w :
  detail_fails srv r -> fst (enrich_and srv r w) = Some r.
Proof.
  intros Hf. unfold enrich_and, call_information.
  destruct (r !! "id") as [v|] eqn:Hv; [|reflexivity].
  destruct (Hf (sent w) v Hv) as [e ->]. reflexivity.
Qed.

Lemma enrich_or_on_failure max_time cuisine dish_type r w :
  detail_fails srv r -> fst (enrich_or srv max_time cuisine dish_type r w) = Some r.
Proof.
  intros Hf. unfold enrich_or, call_information.
  destruct (r !! "id") as [v|] eqn:Hv; [|reflexivity].
  destruct (Hf (sent w) v Hv) as [e ->]. reflexivity.
Qed.

Lemma enrich_fallback_on_failure cnt r w :
  detail_fails srv r -> fst (enrich_fallback srv cnt r w) = None.
Proof.
  intros Hf. unfold enrich_fallback, call_information.
  destruct (r !! "id") as [v|] eqn:Hv; [|reflexivity].
  destruct (Hf (sent w) v Hv) as [e ->]. reflexivity.
Qed.

(** In the AND search a recipe of the search response whose detail fetch
    fails is returned as the search response had it. *)
Lemma exact_keeps_on_detail_failure ingredients max_time cuisine num search_type
    dish_type low w0 results r :
  key_missing api_key = false ->
  String.eqb search_type "OR" = false ->
  complex_search srv (sent w0)
    {| cs_number := num;
       cs_includeIngredients := ingredients;
       cs_maxReadyTime := max_time;
       cs_cuisine := opt_truthy cuisine;
       cs_type := opt_truthy dish_type;
       cs_few_ingredients := low |} = inr results ->
  In r (default [] results) ->
  detail_fails srv r ->
  exists out w',
    get_recipes api_key srv ingredients max_time cuisine num search_type
      dish_type low w0 = (inr out, w')
    /\ In r out.
Proof.
  intros Hk Hs Hres Hin Hf. unfold get_recipes. rewrite Hk, Hs.
  unfold call_complex. simpl sent. rewrite Hres.
  pose proof (for_each_keeps (enrich_and srv) (default [] results)
                (record (ComplexSearch
                   {| cs_number := num;
                      cs_includeIngredients := ingredients;
                      cs_maxReadyTime := max_time;
                      cs_cuisine := opt_truthy cuisine;
                      cs_type := opt_truthy dish_type;
                      cs_few_ingredients := low |}) (enter GetRecipes w0))
                r Hin (fun w1 => enrich_and_on_failure r w1 Hf)) as Hout.
  destruct (for_each _ _ _) as [out w2]. simpl in *. eauto.
Qed.

(** In the OR search a ranked recipe whose detail fetch fails is
    returned as the per-ingredient response had it, past the filters. *)
Lemma inclusive_keeps_on_detail_failure ingredients max_time cuisine num
    dish_type low w0 r :
  key_missing api_key = false ->
  In r (ranked (fst (collect srv (ingredients_list ingredients) empty_agg
                       (enter GetRecipes w0))) num) ->
  detail_fails srv r ->
  exists out w',
    get_recipes api_key srv ingredients max_time cuisine num "OR"
      dish_type low w0 = (inr out, w')
    /\ In r out.
Proof.
  intros Hk Hin Hf. rewrite (get_recipes_or _ _ _ _ _ _ _ _ _ Hk).
  destruct (collect srv _ empty_agg (enter GetRecipes w0)) as [st w1].
  simpl in Hin.
  pose proof (for_each_keeps (enrich_or srv max_time cuisine dish_type)
                (ranked st num) w1 r Hin
                (fun w => enrich_or_on_failure max_time cuisine dish_type r w Hf))
    as Hout.
  destruct (for_each _ _ _) as [out w2]. simpl in *. eauto.
Qed.

Lemma for_each_drops body recipes w :
  (forall r w1, In r recipes -> fst (body r w1) = None) ->
  fst (for_each body recipes w) = [].
Proof.
  revert w. induction recipes as [|r rest IH]; intros w Hb; [reflexivity|].
  simpl. pose proof (Hb r w (or_introl eq_refl)) as Hr.
  destruct (body r w) as [o w1]. simpl in Hr. subst o.
  specialize (IH w1 (fun r' w' H => Hb r' w' (or_intror H))).
  destruct (for_each body rest w1) as [out w2]. exact IH.
Qed.

(** The fallback search drops every recipe whose detail fetch fails:
    when all of them fail it returns nothing, whatever the per-ingredient
    queries found. *)
Lemma fallback_drops_on_detail_failure ingredients num w0 :
  (forall hist v, exists e, information srv hist v = inl e) ->
  fst (get_fallback_recipes api_key srv ingredients num w0) = inr [].
Proof.
  intros Hf. unfold get_fallback_recipes.
  destruct (key_missing api_key); [reflexivity|].
  destruct (collect srv _ empty_agg (enter GetFallbackRecipes w0)) as [st w1].
  pose proof (for_each_drops (enrich_fallback srv (ingredient_match_count st))
                (ranked st num) w1) as Hd.
  destruct (for_each _ _ _) as [out w2]. simpl in *.
  rewrite Hd; [reflexivity|].
  intros r w _. apply enrich_fallback_on_failure. intros hist v _. apply Hf.
Qed.

End DetailFacts.

(** C1 fails in the fallback search.  "egg" is answered with recipes 1
    and 2 and every detail fetch with status 500: the OR search and the
    AND search return both recipes as the search call gave them, the
    fallback search returns none. *)
Theorem fallback_loses_recipes_without_details :
  fst (Search.get_fallback_recipes Scenario.some_key Scenario.no_details "egg" 30
         Api.start) = inr []
  /\ fst (Search.get_recipes Scenario.some_key Scenario.no_details "egg" None None
            30 "OR" None false Api.start)
     = inr [Scenario.recipe 1 "Omelette"; Scenario.recipe 2 "Egg fried rice"]
  /\ fst (Search.get_recipes Scenario.some_key Scenario.no_details "egg" None None
            30 "AND" None false Api.start)
     = inr [Scenario.recipe 1 "Omelette"; Scenario.recipe 2 "Egg fried rice"].
Proof. split; [|split]; vm_compute; reflexivity. Qed.

(** ** The search page *)

Section PageFacts.
Import PyStr Json Api PyList Ingredients Search Page Spec.

Variable api_key : option string.
Variable srv : server.

Lemma get_recipes_entered ingredients max_time cuisine num search_type dish_type
    low w0 :
  entered (snd (get_recipes api_key srv ingredients max_time cuisine num
                  search_type dish_type low w0))
  = entered w0 ++ [GetRecipes].
Proof.
  unfold get_recipes. destruct (key_missing api_key); [reflexivity|].
  destruct (String.eqb search_type "OR").
  - pose proof (collect_entered srv (ingredients_list ingredients) empty_agg
                  (enter GetRecipes w0)) as E1.
    destruct (collect srv _ empty_agg (enter GetRecipes w0)) as [st w1].
    destruct (for_each_extends _ (ranked st num) w1
                (enrich_or_one srv max_time cuisine dish_type)) as [_ E2].
    destruct (for_each _ (ranked st num) w1) as [out w2]. simpl in *. congruence.
  - unfold call_complex.
    destruct (complex_search srv _ _) as [[status|msg]|results]; try reflexivity.
    match goal with
    | |- context [for_each ?b ?l ?w] =>
        destruct (for_each_extends b l w (enrich_and_one srv)) as [_ E2];
        destruct (for_each b l w) as [out w2]
    end.
    simpl in *. exact E2.
Qed.

Lemma get_fallback_entered ingredients num w0 :
  entered (snd (get_fallback_recipes api_key srv ingredients num w0))
  = entered w0 ++ [GetFallbackRecipes].
Proof.
  unfold get_fallback_recipes. destruct (key_missing api_key); [reflexivity|].
  pose proof (collect_entered srv (ingredients_list ingredients) empty_agg
                (enter GetFallbackRecipes w0)) as E1.
  destruct (collect srv _ empty_agg (enter GetFallbackRecipes w0)) as [st w1].
  destruct (for_each_extends _ (ranked st num) w1
              (enrich_fallback_one srv (ingredient_match_count st))) as [_ E2].
  destruct (for_each _ (ranked st num) w1) as [out w2]. simpl in *. congruence.
Qed.

Lemma for_each_forall (P : dict -> Prop) body recipes w :
  (forall r w1 r' w2, body r w1 = (Some r', w2) -> P r') ->
  Forall P (fst (for_each body recipes w)).
Proof.
  intros Hb. revert w. induction recipes as [|r rest IH]; intros w; simpl.
  - constructor.
  - destruct (body r w) as [o w1] eqn:E. specialize (IH w1).
    destruct (for_each body rest w1) as [out w2]. simpl in *.
    destruct o as [r'|]; [constructor; eauto | exact IH].
Qed.

(** What the fallback search returns carries its match count. *)
Lemma fallback_annotated ingredients num w0 out w' :
  get_fallback_recipes api_key srv ingredients num w0 = (inr out, w') ->
  let cnt := ingredient_match_count
               (fst (collect srv (ingredients_list ingredients) empty_agg
                       (enter GetFallbackRecipes w0))) in
  Forall (fun r => annotated (match_count_of cnt r) r) out.
Proof.
  unfold get_fallback_recipes.
  destruct (key_missing api_key); [intros [= <- _]; constructor|].
  destruct (collect srv _ empty_agg (enter GetFallbackRecipes w0)) as [st w1].
  simpl.
  pose proof (for_each_forall
                (fun r => annotated (match_count_of (ingredient_match_count st) r) r)
                (enrich_fallback srv (ingredient_match_count st))
                (ranked st num) w1) as H.
  destruct (for_each _ _ _) as [out' w2]. intros [= <- _]. apply H.
  clear. intros r w r' w2. unfold enrich_fallback.
  destruct (r !! "id") as [v|]; [|discriminate].
  destruct (call_information srv v w) as [[e|info] w3]; [discriminate|].
  destruct (match_count_opt _ _) as [n|] eqn:En; [|discriminate].
  intros [= <- _]. unfold annotated. rewrite lookup_insert_eq.
  unfold match_count_of. 
  assert (E : match_count_opt (ingredient_match_count st)
                (<["match_count" := VInt (Z.of_nat n)]>
                   (<["image" := get_default info "image"
                        (get_default
                           (<["cuisines" := get_default info "cuisines" (VList [])]>
                              (<["readyInMinutes" := get info "readyInMinutes"]> r))
                           "image" (VStr ""))]>
                      (<["cuisines" := get_default info "cuisines" (VList [])]>
                         (<["readyInMinutes" := get info "readyInMinutes"]> r))))
              = Some n).
  { rewrite <- En. unfold match_count_opt, id_key, get_default.
    rewrite !lookup_insert_ne by discriminate. reflexivity. }
  rewrite E. reflexivity.
Qed.

Lemma ingredients_submitted f ses w0 :
  ingredients api_key srv true f ses w0 = search api_key srv f ses w0.
Proof.
  unfold ingredients.
  assert (H : forall pg s w,
             search api_key srv f ses w0 = (pg, s, w) ->
             restore pg s = (pg, s)).
  { intros pg s w. unfold search.
    destruct (get_recipes _ _ _ _ _ _ _ _ _ w0) as [[e|[|r rs]] w1].
    - intros [= <- <- _]. reflexivity.
    - destruct (get_fallback_recipes _ _ _ _ w1) as [[e|[|r rs]] w2];
        intros [= <- <- _]; reflexivity.
    - intros [= <- <- _]. reflexivity. }
  destruct (search api_key srv f ses w0) as [[pg s] w].
  rewrite (H pg s w eq_refl). reflexivity.
Qed.

(** C2. One valid submission of the search form enters [get_recipes]
    and then [get_fallback_recipes] exactly when [get_recipes] returned an
    empty list (not when it raised, not when it returned recipes).  When
    the fallback returns recipes, the page shows them, each carries its
    match count, and the session is marked as fallback and stores them;
    when the primary search returns recipes, the page shows those and the
    session carries no fallback mark. *)
Theorem fallback_iff_primary_empty f ses w0 :
  let text := handler_ingredients_text (f_ingredients f) in
  let cuisine := if PyStr.truthy (f_cuisine f) then Some (f_cuisine f) else None in
  let primary := get_recipes api_key srv text (f_max_time f) cuisine 30
                   (f_search_type f) (Some (f_dish_type f)) (f_low_ingredient f) w0 in
  let fallback := get_fallback_recipes api_key srv text 30 (snd primary) in
  let cnt := ingredient_match_count
               (fst (collect srv (ingredients_list text) empty_agg
                       (enter GetFallbackRecipes (snd primary)))) in
  let result := ingredients api_key srv true f ses w0 in
  let pg := fst (fst result) in
  let ses' := snd (fst result) in
  entered (snd result) = entered w0 ++ calls_of_search (fst primary)
  /\ (In GetFallbackRecipes (calls_of_search (fst primary)) <-> fst primary = inr [])
  /\ (fst primary = inr [] ->
      forall fb, fst fallback = inr fb -> fb <> [] ->
        recipes pg = Some fb
        /\ error pg = Some NoExactMatches
        /\ s_is_fallback ses' = Some true
        /\ s_all_recipes ses' = Some (map stored fb)
        /\ Forall (fun r => annotated (match_count_of cnt r) r) fb)
  /\ (forall all, fst primary = inr all -> all <> [] ->
        recipes pg = Some all
        /\ error pg = None
        /\ s_is_fallback ses' = None
        /\ s_all_recipes ses' = Some (map stored all)
        /\ snd result = snd primary).
Proof.
  intros text cuisine primary fallback cnt result pg ses'.
  subst pg ses' result fallback cnt. rewrite ingredients_submitted. unfold search.
  fold text cuisine.
  pose proof (get_recipes_entered text (f_max_time f) cuisine 30 (f_search_type f)
                (Some (f_dish_type f)) (f_low_ingredient f) w0) as E1.
  fold primary in E1 |- *. clearbody primary.
  destruct primary as [[e|[|r rs]] w1]; simpl in *.
  - split; [exact E1|].
    split; [split; [intros [H|[]]; discriminate | discriminate]|].
    split; [discriminate | intros all H; discriminate].
  - pose proof (get_fallback_entered text 30 w1) as E2.
    pose proof (fallback_annotated text 30 w1) as Ha.
    destruct (get_fallback_recipes api_key srv text 30 w1) as [[e|[|r rs]] w2];
      simpl in *;
      (split; [rewrite E2, E1, <- app_assoc; reflexivity|]);
      (split; [split; [reflexivity | intros _; right; left; reflexivity]|]);
      (split; [|intros all [= <-] H; contradiction]);
      intros _ fb [= <-] Hne; try contradiction.
    repeat split. exact (Ha _ _ eq_refl).
  - split; [exact E1|]. split; [|split].
    + split; [intros [H|[]]; discriminate | discriminate].
    + discriminate.
    + intros all [= <-] _. repeat split.
Qed.

(** C9, as the code has it.  With the credential missing, [get_recipes]
    raises the configuration error in either mode without sending a
    request, and the page reports it; the error differs from every error
    [get_recipes] raises with a credential.  [get_fallback_recipes]
    returns an empty list instead, also without sending a request. *)
Theorem missing_credential :
  key_missing api_key = true ->
  (forall ingredients max_time cuisine num search_type dish_type low w0,
     get_recipes api_key srv ingredients max_time cuisine num search_type
       dish_type low w0
     = (inl (RuntimeError missing_key_message), enter GetRecipes w0)
     /\ sent (enter GetRecipes w0) = sent w0)
  /\ (forall ingredients num w0,
        get_fallback_recipes api_key srv ingredients num w0
        = (inr [], enter GetFallbackRecipes w0)
        /\ sent (enter GetFallbackRecipes w0) = sent w0)
  /\ (forall f ses w0,
        let result := ingredients api_key srv true f ses w0 in
        recipes (fst (fst result)) = None
        /\ error (fst (fst result)) = Some (SomethingWentWrong missing_key_message)
        /\ sent (snd result) = sent w0)
  /\ (forall other_key other_srv ingredients max_time cuisine num search_type
             dish_type low w0 e,
        key_missing other_key = false ->
        fst (get_recipes other_key other_srv ingredients max_time cuisine num
               search_type dish_type low w0) = inl e ->
        e <> RuntimeError missing_key_message
        /\ ((exists status, e = HTTPError status)
            \/ (exists msg, e = RuntimeError (fetch_error_prefix +:+ msg)))).
Proof.
  intros Hk.
  assert (H1 : forall ingredients max_time cuisine num search_type dish_type low w0,
             get_recipes api_key srv ingredients max_time cuisine num search_type
               dish_type low w0
             = (inl (RuntimeError missing_key_message), enter GetRecipes w0)).
  { intros. unfold get_recipes. rewrite Hk. reflexivity. }
  split; [intros; split; [apply H1 | reflexivity]|].
  split; [intros; unfold get_fallback_recipes; rewrite Hk; split; reflexivity|].
  split.
  - intros f ses w0 result. subst result.
    rewrite ingredients_submitted. unfold search. rewrite H1. simpl.
    repeat split.
  - intros other_key other_srv ingredients max_time cuisine num search_type
      dish_type low w0 e Hother. unfold get_recipes. rewrite Hother.
    destruct (String.eqb search_type "OR").
    + destruct (collect _ _ _ _) as [st w1].
      destruct (for_each _ _ _) as [out w2]. discriminate.
    + destruct (call_complex _ _ _) as [[[status|msg]|results] w1]; simpl.
      * intros [= <-]. split; [discriminate | left; eauto].
      * intros [= <-]. split; [discriminate | right; eauto].
      * destruct (for_each _ _ _) as [out w2]. discriminate.
Qed.

End PageFacts.

(** The scenario of the page: nothing has both "unobtainium" and "egg",
    so the fallback runs and its results are marked. *)
Lemma fallback_witness :
  let f := {| Page.f_ingredients := "unobtainium, egg";
              Page.f_max_time := None;
              Page.f_cuisine := "";
              Page.f_search_type := "AND";
              Page.f_dish_type := "";
              Page.f_low_ingredient := false |} in
  let result := Page.ingredients Scenario.some_key Scenario.no_exact true f
                  Page.empty_session Api.start in
  let fb := [<["match_count" := Json.VInt 1]>
               (<["image" := Json.VStr ""]>
                  (<["cuisines" := Json.VList [Json.VStr "italian"]]>
                     (<["readyInMinutes" := Json.VInt 20]>
                        (Scenario.recipe 1 "Omelette"))))] in
  Api.entered (snd result) = [Api.GetRecipes; Api.GetFallbackRecipes]
  /\ Page.recipes (fst (fst result)) = Some fb
  /\ Page.s_is_fallback (snd (fst result)) = Some true.
Proof.
  intros f result fb.
  pose proof (fallback_iff_primary_empty Scenario.some_key Scenario.no_exact f
                Page.empty_session Api.start) as H.
  cbv zeta in H. destruct H as (H1 & _ & H3 & _).
  match type of H3 with
  | ?A -> _ => assert (Ep : A) by (vm_compute; reflexivity)
  end.
  specialize (H3 Ep fb).
  match type of H3 with
  | ?A -> _ => assert (Ef : A) by (vm_compute; reflexivity)
  end.
  destruct (H3 Ef) as (Hr & _ & Hf & _); [discriminate|].
  split; [|split; [exact Hr | exact Hf]].
  etransitivity; [exact H1|]. vm_compute. reflexivity.
Defined.

Lemma missing_credential_witness :
  Search.key_missing None = true
  /\ (forall ingredients max_time cuisine num search_type dish_type low w0,
        Search.get_recipes None Scenario.pantry ingredients max_time cuisine num
          search_type dish_type low w0
        = (inl (Search.RuntimeError Search.missing_key_message),
           Api.enter Api.GetRecipes w0)
        /\ Api.sent (Api.enter Api.GetRecipes w0) = Api.sent w0).
Proof.
  split; [reflexivity|].
  apply (missing_credential None Scenario.pantry). reflexivity.
Defined.

(** The claim as worded fails for the fallback search: without a
    credential it returns normally, with an empty list. *)
Lemma fallback_without_credential_returns :
  fst (Search.get_fallback_recipes None Scenario.pantry "egg" 30 Api.start) = inr []
  /\ forall e,
       fst (Search.get_fallback_recipes None Scenario.pantry "egg" 30 Api.start)
       <> inl e.
Proof. split; [reflexivity | discriminate]. Qed.

(** ** Favorites *)

Section FavoriteFacts.
Import Json Api Favorites.

Lemma same_pair_spec user recipe row :
  same_pair user recipe row = true <-> (user_id row, recipe_id row) = (user, recipe).
Proof.
  unfold same_pair. rewrite andb_true_iff, !Z.eqb_eq.
  split; [intros [-> ->]; reflexivity | intros [= -> ->]; split; reflexivity].
Qed.

Lemma first_favorite_none user recipe rows :
  first_favorite user recipe rows = None <-> ~ In (user, recipe) (pairs rows).
Proof.
  unfold first_favorite, pairs. split.
  - intros Hnone Hin. apply in_map_iff in Hin as (row & Hrow & Hin).
    pose proof (find_none _ _ Hnone row Hin) as Hf.
    apply same_pair_spec in Hrow. congruence.
  - intros Hnot. destruct (List.find _ rows) as [row|] eqn:E; [|reflexivity].
    apply find_some in E as [Hin Hrow]. exfalso. apply Hnot.
    apply in_map_iff. exists row. split; [apply same_pair_spec, Hrow | exact Hin].
Qed.

Variable srv : server.

(** [add_favorite] either leaves the table alone or appends one row for
    a pair that was absent. *)
Lemma add_favorite_rows current_user recipe rows w :
  let rows' := snd (fst (add_favorite srv current_user recipe rows w)) in
  rows' = rows
  \/ (~ In (current_user, recipe) (pairs rows)
      /\ pairs rows' = pairs rows ++ [(current_user, recipe)]).
Proof.
  unfold add_favorite, lookup.
  destruct (first_favorite current_user recipe rows) as [row|] eqn:E;
    [left; reflexivity|].
  apply first_favorite_none in E.
  destruct (storable recipe); [|left; reflexivity].
  destruct (call_information srv (VInt recipe) w) as [[e|recipe_data] w1];
    [left; reflexivity|].
  destruct (column_text (get_default recipe_data "title" (VStr "Unknown")))
    as [reason|title]; [left; reflexivity|].
  destruct (column_text (get_default recipe_data "image" (VStr "")))
    as [reason|image]; [left; reflexivity|].
  destruct title;
    try (left; reflexivity);
    (right; split; [exact E|]; simpl; unfold pairs; rewrite map_app; reflexivity).
Qed.

(** C7. Adding a favorite for a pair that already has a row is rejected
    (status 400, no success), sends nothing and leaves the table as it
    was; and whatever the table and the service, [add_favorite] never
    turns a table without a repeated (user, recipe) pair into one with a
    repeated pair. *)
Theorem add_favorite_rejects_duplicate current_user recipe rows w :
  In (current_user, recipe) (pairs rows) ->
  add_favorite srv current_user recipe rows w = (AlreadyInFavorites, rows, w)
  /\ success AlreadyInFavorites = false
  /\ status AlreadyInFavorites = 400%Z
  /\ (forall user' recipe' rows0 w0,
        NoDup (pairs rows0) ->
        NoDup (pairs (snd (fst (add_favorite srv user' recipe' rows0 w0))))).
Proof.
  intros Hin. split; [|split; [reflexivity|split; [reflexivity|]]].
  - unfold add_favorite, lookup.
    destruct (first_favorite current_user recipe rows) as [row|] eqn:E;
      [reflexivity|].
    apply first_favorite_none in E. contradiction.
  - intros user' recipe' rows0 w0 Hnd.
    destruct (add_favorite_rows user' recipe' rows0 w0) as [->|[Hnot ->]];
      [exact Hnd|].
    apply NoDup_app. repeat split; [exact Hnd| |apply NoDup_singleton].
    intros x Hx Hx'. apply list_elem_of_singleton in Hx'. subst x.
    apply Hnot, list_elem_of_In, Hx.
Qed.

End FavoriteFacts.

Lemma add_favorite_witness :
  let row := {| Favorites.id := 1; Favorites.user_id := 7; Favorites.recipe_id := 42;
                Favorites.recipe_title := Json.VStr "Omelette";
                Favorites.recipe_image := Json.VStr "" |} in
  Favorites.add_favorite Scenario.pantry 7 42 [row] Api.start
  = (Favorites.AlreadyInFavorites, [row], Api.start).
Proof.
  intros row.
  apply (add_favorite_rejects_duplicate Scenario.pantry 7 42 [row] Api.start).
  left. reflexivity.
Defined.

Example add_favorite_fresh :
  Favorites.pairs
    (snd (fst (Favorites.add_favorite Scenario.pantry 7 42 [] Api.start)))
  = [(7, 42)%Z].
Proof. vm_compute. reflexivity. Qed.

(** ** Accounts *)

Section AccountFacts.
Import PyStr Accounts.

Variable salt : Type.
Variable generate_password_hash : salt -> string -> string.
Variable check_password_hash : string -> string -> bool.

(** A hash checks against the password it was made from. *)
Hypothesis check_generated :
  forall s password,
    check_password_hash (generate_password_hash s password) password = true.

Lemma find_app {A : Type} (p : A -> bool) (l1 l2 : list A) :
  List.find p (l1 ++ l2)
  = match List.find p l1 with Some x => Some x | None => List.find p l2 end.
Proof.
  induction l1 as [|x l1 IH]; simpl; [reflexivity|].
  destruct (p x); [reflexivity | exact IH].
Qed.

Lemma first_user_none address users :
  first_user address users = None <-> ~ In address (map email users).
Proof.
  unfold first_user. split.
  - intros Hnone Hin. apply in_map_iff in Hin as (u & Hu & Hin).
    pose proof (find_none _ _ Hnone u Hin) as Hf. simpl in Hf.
    rewrite Hu, String.eqb_refl in Hf. discriminate.
  - intros Hnot. destruct (List.find _ users) as [u|] eqn:E; [|reflexivity].
    apply find_some in E as [Hin Hu]. apply String.eqb_eq in Hu.
    exfalso. apply Hnot, in_map_iff. eauto.
Qed.

Lemma signup_created valid form_email form_password s users users' :
  signup salt generate_password_hash valid form_email form_password s users
  = (AccountCreated, users') ->
  first_user (lower form_email) users = None
  /\ users' = users ++ [{| id := next_id users;
                           email := lower form_email;
                           password_hash := generate_password_hash s form_password |}].
Proof.
  unfold signup. destruct valid; [|discriminate].
  destruct (first_user (lower form_email) users); [discriminate|].
  intros [= <-]. split; reflexivity.
Qed.

(** C10. Signup stores the lowercased address, after checking the
    lowercased address against the table, so a table of lowercase (and of
    pairwise different) addresses stays one under every signup, and
    [login] only reads it; after a successful signup, logging in with the
    same password and any capitalisation of the address succeeds as the
    new user. *)
Theorem signup_login_lowercase valid form_email form_password s users :
  let result := signup salt generate_password_hash valid form_email form_password
                  s users in
  (all_lowercase users -> all_lowercase (snd result))
  /\ (NoDup (map email users) -> NoDup (map email (snd result)))
  /\ (fst result <> AccountCreated -> snd result = users)
  /\ (fst result = AccountCreated ->
      exists u,
        snd result = users ++ [u]
        /\ email u = lower form_email
        /\ ~ In (lower form_email) (map email users)
        /\ forall variant,
             lower variant = lower form_email ->
             login check_password_hash true variant form_password (snd result)
             = LoggedIn u).
Proof.
  intros result. subst result.
  destruct (signup salt generate_password_hash valid form_email form_password
              s users) as [res users'] eqn:E. simpl.
  destruct res.
  - apply signup_created in E as [Hnone ->].
    pose proof (proj1 (first_user_none _ _) Hnone) as Hnot.
    split; [|split; [|split; [congruence|]]].
    + intros Hall. apply Forall_app. split; [exact Hall|].
      constructor; [|constructor]. simpl. apply lower_idem.
    + intros Hnd. rewrite map_app. apply NoDup_app.
      repeat split; [exact Hnd| |apply NoDup_singleton].
      intros x Hx Hx'. apply list_elem_of_singleton in Hx'. subst x.
      apply Hnot, list_elem_of_In, Hx.
    + intros _. eexists. split; [reflexivity|]. split; [reflexivity|].
      split; [exact Hnot|]. intros variant Hv.
      unfold login, first_user. rewrite Hv, find_app.
      fold (first_user (lower form_email) users). rewrite Hnone.
      simpl. rewrite String.eqb_refl. simpl. rewrite check_generated. reflexivity.
  - unfold signup in E. destruct valid; [|discriminate].
    destruct (first_user (lower form_email) users); inversion E; subst.
    repeat split; auto. discriminate.
  - unfold signup in E. destruct valid.
    + destruct (first_user (lower form_email) users); discriminate.
    + inversion E; subst. repeat split; auto. discriminate.
Qed.

End AccountFacts.

Lemma signup_login_witness :
  let result := Accounts.signup nat Scenario.toy_hash true "Ada@Example.COM"
                  "s3cret!" 0 [] in
  fst result = Accounts.AccountCreated
  /\ exists u,
       Accounts.email u = "ada@example.com"
       /\ Accounts.login Scenario.toy_check true "ADA@example.com" "s3cret!"
            (snd result) = Accounts.LoggedIn u.
Proof.
  intros result.
  destruct (signup_login_lowercase nat Scenario.toy_hash Scenario.toy_check
              (fun _ password => String.eqb_refl _)
              true "Ada@Example.COM" "s3cret!" 0 []) as (_ & _ & _ & H).
  split; [reflexivity|].
  destruct (H eq_refl) as (u & _ & Hu & _ & Hlogin).
  exists u. split; [exact Hu|]. apply Hlogin. reflexivity.
Defined.

(** ** Favorites: removal, round trip and the views *)

Section FavoriteViews.
Import Json Api Favorites Views.

Lemma pairs_app rows1 rows2 : pairs (rows1 ++ rows2) = pairs rows1 ++ pairs rows2.
Proof. unfold pairs. apply map_app. Qed.

Lemma first_favorite_split user recipe rows row :
  first_favorite user recipe rows = Some row ->
  exists before after,
    rows = before ++ row :: after
    /\ (user_id row, recipe_id row) = (user, recipe)
    /\ ~ In (user, recipe) (pairs before)
    /\ delete_first user recipe rows = before ++ after.
Proof.
  unfold first_favorite. induction rows as [|x rows IH]; simpl; [discriminate|].
  destruct (same_pair user recipe x) eqn:E.
  - intros [= ->]. exists [], rows. repeat split.
    + apply same_pair_spec, E.
    + intros [].
  - intros H. destruct (IH H) as (before & after & -> & Hrow & Hnot & Hdel).
    exists (x :: before), after. repeat split; [exact Hrow| |simpl; congruence].
    simpl. intros [Hx|Hin]; [|contradiction].
    apply same_pair_spec in Hx. congruence.
Qed.

Lemma first_favorite_found user recipe rows :
  In (user, recipe) (pairs rows) ->
  exists row, first_favorite user recipe rows = Some row.
Proof.
  intros Hin. destruct (first_favorite user recipe rows) as [row|] eqn:E; [eauto|].
  apply first_favorite_none in E. contradiction.
Qed.

Lemma ids_app user rows1 rows2 :
  get_favorite_ids user (rows1 ++ rows2)
  = get_favorite_ids user rows1 ++ get_favorite_ids user rows2.
Proof. unfold get_favorite_ids. rewrite List.filter_app, map_app. reflexivity. Qed.

Lemma ids_cons user row rows :
  get_favorite_ids user (row :: rows)
  = if (user_id row =? user)%Z then recipe_id row :: get_favorite_ids user rows
    else get_favorite_ids user rows.
Proof.
  unfold get_favorite_ids, of_user. simpl.
  destruct (user_id row =? user)%Z; reflexivity.
Qed.

Lemma ids_member user recipe rows :
  In recipe (get_favorite_ids user rows) <-> In (user, recipe) (pairs rows).
Proof.
  unfold get_favorite_ids, pairs, of_user. rewrite !in_map_iff. split.
  - intros (row & <- & Hin). apply filter_In in Hin as [Hin Hu].
    apply Z.eqb_eq in Hu. exists row. split; [congruence | exact Hin].
  - intros (row & [= <- <-] & Hin). exists row. split; [reflexivity|].
    apply filter_In. split; [exact Hin | apply Z.eqb_refl].
Qed.

Lemma lookup_found user recipe rows :
  In (user, recipe) (pairs rows) ->
  exists row, lookup user recipe rows = inr (Some row)
              /\ first_favorite user recipe rows = Some row.
Proof.
  intros Hin. destruct (first_favorite_found _ _ _ Hin) as [row E].
  exists row. unfold lookup. rewrite E. split; reflexivity.
Qed.

Lemma lookup_absent user recipe rows :
  ~ In (user, recipe) (pairs rows) ->
  lookup user recipe rows
  = if storable recipe then inr None else inl overflow_text.
Proof.
  intros Hnot. apply first_favorite_none in Hnot. unfold lookup.
  rewrite Hnot. reflexivity.
Qed.

(** In a table the database can hold, an id that cannot be bound has no
    row. *)
Lemma unstorable_absent user recipe rows :
  storable_rows rows -> storable recipe = false ->
  ~ In (user, recipe) (pairs rows).
Proof.
  unfold storable_rows, pairs. intros Hst Hno Hin.
  apply in_map_iff in Hin as (row & [= _ Hr] & Hin).
  rewrite List.Forall_forall in Hst. specialize (Hst row Hin). congruence.
Qed.

(** X1. Removing a favorite: when the pair has a row, the first such
    row is deleted and nothing else changes.  When it has none, the table
    is as before and the answer is the not-found one (404) for an id that
    fits a 64-bit integer, and the server error (500) for any other id,
    which the lookup cannot bind; no table of the database has a row for
    such an id.  On a table without repeated pairs the pair is gone after
    a removal, and no other user's favorites change. *)
Theorem remove_favorite_effect user recipe rows :
  let resp := fst (remove_favorite user recipe rows) in
  let rows' := snd (remove_favorite user recipe rows) in
  (In (user, recipe) (pairs rows) ->
     resp = RemovedFromFavorites
     /\ exists before row after,
          rows = before ++ row :: after
          /\ rows' = before ++ after
          /\ (user_id row, recipe_id row) = (user, recipe)
          /\ ~ In (user, recipe) (pairs before))
  /\ (~ In (user, recipe) (pairs rows) -> storable recipe = true ->
      resp = NotInFavorites /\ status resp = 404%Z /\ rows' = rows)
  /\ (~ In (user, recipe) (pairs rows) -> storable recipe = false ->
      resp = ServerError overflow_text /\ status resp = 500%Z /\ rows' = rows)
  /\ (storable_rows rows -> storable recipe = false ->
      ~ In (user, recipe) (pairs rows))
  /\ (storable_rows rows -> storable_rows rows')
  /\ (NoDup (pairs rows) -> ~ In (user, recipe) (pairs rows'))
  /\ (forall other, other <> user ->
        get_favorite_ids other rows' = get_favorite_ids other rows).
Proof.
  intros resp rows'. subst resp rows'. unfold remove_favorite.
  destruct (first_favorite user recipe rows) as [row|] eqn:E.
  - destruct (first_favorite_split _ _ _ _ E)
      as (before & after & Hrows & Hrow & Hnot & Hdel).
    assert (Hin : In (user, recipe) (pairs rows)).
    { rewrite Hrows, pairs_app. apply in_app_iff. right. left. exact Hrow. }
    unfold lookup. rewrite E. cbn [fst snd]. rewrite Hdel.
    split; [|split; [|split; [|split; [|split; [|split]]]]].
    + intros _. split; [reflexivity|]. exists before, row, after. auto.
    + intros Habs. contradiction.
    + intros Habs. contradiction.
    + apply unstorable_absent.
    + unfold storable_rows. rewrite Hrows, !Forall_app, Forall_cons. tauto.
    + rewrite Hrows, !pairs_app.
      change (pairs (row :: after)) with ((user_id row, recipe_id row) :: pairs after).
      rewrite Hrow.
      intros Hnd Hin'. apply NoDup_app in Hnd as (_ & Hdisj & Hnd).
      apply NoDup_cons in Hnd as [Hfresh _].
      apply in_app_iff in Hin' as [Hin'|Hin']; [contradiction|].
      apply Hfresh, list_elem_of_In, Hin'.
    + intros other Hne. rewrite Hrows, !ids_app. f_equal.
      rewrite ids_cons. injection Hrow as Hu _. rewrite Hu.
      destruct (Z.eqb_spec user other); [congruence | reflexivity].
  - apply first_favorite_none in E. rewrite (lookup_absent _ _ _ E).
    split; [|split; [|split; [|split; [|split; [|split]]]]].
    + intros Hin. contradiction.
    + intros _ ->. repeat split.
    + intros _ ->. repeat split.
    + apply unstorable_absent.
    + destruct (storable recipe); intros H; exact H.
    + destruct (storable recipe); intros _; exact E.
    + destruct (storable recipe); reflexivity.
Qed.

Variable srv : server.

(** What a successful [add_favorite] did. *)
Lemma add_favorite_added current_user recipe rows w rows' w' :
  add_favorite srv current_user recipe rows w = (AddedToFavorites, rows', w') ->
  ~ In (current_user, recipe) (pairs rows)
  /\ storable recipe = true
  /\ exists recipe_data row,
       information srv (sent w) (VInt recipe) = inr recipe_data
       /\ rows' = rows ++ [row]
       /\ user_id row = current_user
       /\ recipe_id row = recipe
       /\ column_text (get_default recipe_data "title" (VStr "Unknown"))
          = inr (recipe_title row)
       /\ recipe_title row <> VNone
       /\ column_text (get_default recipe_data "image" (VStr ""))
          = inr (recipe_image row)
       /\ w' = record (Information (VInt recipe)) w.
Proof.
  unfold add_favorite, lookup, call_information.
  destruct (first_favorite current_user recipe rows) as [row|] eqn:E;
    [discriminate|].
  apply first_favorite_none in E.
  destruct (storable recipe); [|discriminate].
  destruct (information srv (sent w) (VInt recipe)) as [e|recipe_data];
    [discriminate|].
  destruct (column_text (get_default recipe_data "title" (VStr "Unknown")))
    as [reason|title] eqn:Et; [discriminate|].
  destruct (column_text (get_default recipe_data "image" (VStr "")))
    as [reason|image] eqn:Ei; [discriminate|].
  destruct title; try discriminate; intros [= <- <-];
    (split; [exact E|]); (split; [reflexivity|]); eexists _, _;
    (split; [reflexivity|]); (split; [reflexivity|]); simpl;
    repeat split; try assumption; discriminate.
Qed.

(** The answers of [add_favorite], and the table with each. *)
Lemma add_favorite_answers current_user recipe rows w :
  let result := add_favorite srv current_user recipe rows w in
  (fst (fst result) = AddedToFavorites
   \/ (fst (fst result) = AlreadyInFavorites
       /\ In (current_user, recipe) (pairs rows)
       /\ snd (fst result) = rows)
   \/ (exists reason, fst (fst result) = ServerError reason)
      /\ snd (fst result) = rows)
  /\ (sent (snd result) = sent w
      \/ sent (snd result) = sent w ++ [Information (VInt recipe)]).
Proof.
  unfold add_favorite, lookup, call_information.
  destruct (first_favorite current_user recipe rows) as [row|] eqn:E.
  - split; [|left; reflexivity]. right. left.
    destruct (first_favorite_split _ _ _ _ E) as (before & after & -> & Hrow & _).
    repeat split. rewrite pairs_app. apply in_app_iff. right. left. exact Hrow.
  - destruct (storable recipe); [|split; [right; right; eauto | left; reflexivity]].
    destruct (information srv (sent w) (VInt recipe)) as [e|recipe_data];
      [split; [right; right; eauto | right; reflexivity]|].
    destruct (column_text (get_default recipe_data "title" (VStr "Unknown")))
      as [reason|title]; [split; [right; right; eauto | right; reflexivity]|].
    destruct (column_text (get_default recipe_data "image" (VStr "")))
      as [reason|image]; [split; [right; right; eauto | right; reflexivity]|].
    destruct title;
      (split; [|right; reflexivity]);
      try (left; reflexivity); right; right; eauto.
Qed.

(** X2. [add_favorite] succeeds exactly when the pair has no row, the
    id fits a 64-bit integer, the one detail request it sends is answered,
    and the title and the image of the answer can be stored (a text, an
    integer in range, for the image also [null]; "Unknown" and "" stand in
    for a missing title or image).  It then appended one row for the pair
    holding that title and image as the column stores them.  Every other
    outcome answers 400 or 500, leaves the table as it was and sends at
    most that one request. *)
Theorem add_favorite_caches_fields current_user recipe rows w :
  let result := add_favorite srv current_user recipe rows w in
  let resp := fst (fst result) in
  let rows' := snd (fst result) in
  (success resp = true ->
     exists recipe_data row,
       information srv (sent w) (VInt recipe) = inr recipe_data
       /\ rows' = rows ++ [row]
       /\ (user_id row, recipe_id row) = (current_user, recipe)
       /\ column_text (get_default recipe_data "title" (VStr "Unknown"))
          = inr (recipe_title row)
       /\ column_text (get_default recipe_data "image" (VStr ""))
          = inr (recipe_image row)
       /\ sent (snd result) = sent w ++ [Information (VInt recipe)])
  /\ (success resp = true <->
      ~ In (current_user, recipe) (pairs rows)
      /\ storable recipe = true
      /\ exists recipe_data title image,
           information srv (sent w) (VInt recipe) = inr recipe_data
           /\ column_text (get_default recipe_data "title" (VStr "Unknown"))
              = inr title
           /\ title <> VNone
           /\ column_text (get_default recipe_data "image" (VStr ""))
              = inr image)
  /\ (success resp = false ->
      rows' = rows
      /\ (status resp = 400%Z <-> In (current_user, recipe) (pairs rows))
      /\ (status resp = 500%Z <-> ~ In (current_user, recipe) (pairs rows)))
  /\ (sent (snd result) = sent w
      \/ sent (snd result) = sent w ++ [Information (VInt recipe)])
  /\ (storable_rows rows -> storable_rows rows').
Proof.
  intros result resp rows'. subst resp rows' result.
  pose proof (add_favorite_answers current_user recipe rows w) as [Hans Hsent].
  destruct (add_favorite srv current_user recipe rows w) as [[resp rows'] w'] eqn:E.
  cbn [fst snd] in *.
  assert (Hadded : success resp = true -> resp = AddedToFavorites).
  { destruct Hans as [H|[(H & _)|((reason & H) & _)]]; rewrite H;
      [reflexivity | discriminate | discriminate]. }
  split; [|split; [|split; [|split]]].
  - intros Hs. rewrite (Hadded Hs) in E.
    destruct (add_favorite_added _ _ _ _ _ _ E)
      as (_ & _ & data & row & Hi & Hr & Hu & Hrec & Ht & _ & Him & Hw).
    exists data, row. subst w'. repeat split; try assumption. congruence.
  - split.
    + intros Hs. rewrite (Hadded Hs) in E.
      destruct (add_favorite_added _ _ _ _ _ _ E)
        as (Hnot & Hst & data & row & Hi & _ & _ & _ & Ht & Hnn & Him & _).
      split; [exact Hnot|]. split; [exact Hst|]. eauto 8.
    + intros (Hnot & Hst & data & title & image & Hi & Ht & Hnn & Him).
      apply first_favorite_none in Hnot.
      unfold add_favorite, lookup, call_information in E.
      rewrite Hnot, Hst, Hi, Ht, Him in E.
      destruct title; [contradiction| | | |]; inversion E; reflexivity.
  - intros Hs.
    destruct Hans as [H|[(H & Hin & Hr)|((reason & H) & Hr)]]; subst resp;
      [discriminate| |].
    + split; [exact Hr|]. cbn [status]. split; split; intros; try lia; tauto.
    + split; [exact Hr|]. cbn [status].
      assert (Hnot : ~ In (current_user, recipe) (pairs rows)).
      { intros Hin. destruct (lookup_found _ _ _ Hin) as (row & El & _).
        unfold add_favorite in E. rewrite El in E. discriminate. }
      split; split; intros; try lia; tauto.
  - exact Hsent.
  - intros Hst.
    destruct Hans as [H|[(_ & _ & ->)|(_ & ->)]]; [|exact Hst|exact Hst].
    subst resp. destruct (add_favorite_added _ _ _ _ _ _ E)
      as (_ & Hrec & data & row & _ & -> & _ & Hr & _).
    unfold storable_rows. rewrite Forall_app, Forall_singleton, Hr. tauto.
Qed.

(** X3. Adding a favorite and then removing it gives the table back. *)
Theorem add_then_remove current_user recipe rows w rows' w' :
  add_favorite srv current_user recipe rows w = (AddedToFavorites, rows', w') ->
  remove_favorite current_user recipe rows' = (RemovedFromFavorites, rows).
Proof.
  intros E. destruct (add_favorite_added _ _ _ _ _ _ E)
    as (Hnot & _ & data & row & _ & -> & Hu & Hr & _).
  unfold remove_favorite.
  assert (Hin : In (current_user, recipe) (pairs (rows ++ [row]))).
  { rewrite pairs_app. apply in_app_iff. right. left. simpl. congruence. }
  destruct (lookup_found _ _ _ Hin) as (found & El & Ef). rewrite El.
  destruct (first_favorite_split _ _ _ _ Ef)
    as (before & after & Hrows & Hfound & Hbefore & ->).
  f_equal.
  assert (Hlen : length before = length rows).
  { destruct (Nat.lt_trichotomy (length before) (length rows)) as [Hlt|[Heq|Hgt]];
      [exfalso|exact Heq|exfalso].
    - apply Hnot. apply (f_equal (fun l => nth_error l (length before))) in Hrows.
      rewrite nth_error_app1 in Hrows by exact Hlt.
      rewrite nth_error_app2, Nat.sub_diag in Hrows by lia. simpl in Hrows.
      apply nth_error_In in Hrows. unfold pairs. apply in_map_iff.
      exists found. split; [exact Hfound | exact Hrows].
    - apply (f_equal (@length _)) in Hrows.
      rewrite !length_app in Hrows. simpl in Hrows. lia. }
  apply app_inj_1 in Hrows as [-> Htail]; [|symmetry; exact Hlen].
  inversion Htail; subst. apply app_nil_r.
Qed.

(** X4. The ids the pages read are those of the table: a recipe is
    among [get_favorite_ids] of a user exactly when the pair has a row,
    [profile] counts them, and a successful [add_favorite] adds the
    recipe at the end of that user's ids and leaves every other user's
    ids alone. *)
Theorem favorite_views_follow_table current_user recipe rows w :
  (In recipe (get_favorite_ids current_user rows)
   <-> In (current_user, recipe) (pairs rows))
  /\ profile current_user rows = length (get_favorite_ids current_user rows)
  /\ map recipe_id (favorites current_user rows) = get_favorite_ids current_user rows
  /\ (forall rows' w',
        add_favorite srv current_user recipe rows w = (AddedToFavorites, rows', w') ->
        get_favorite_ids current_user rows'
        = get_favorite_ids current_user rows ++ [recipe]
        /\ profile current_user rows' = S (profile current_user rows)
        /\ forall other, other <> current_user ->
             get_favorite_ids other rows' = get_favorite_ids other rows).
Proof.
  split; [apply ids_member|]. split; [|split; [reflexivity|]].
  - unfold profile, get_favorite_ids. rewrite length_map. reflexivity.
  - intros rows' w' E. destruct (add_favorite_added _ _ _ _ _ _ E)
      as (_ & _ & data & row & _ & -> & Hu & Hr & _).
    assert (Hown : get_favorite_ids current_user [row] = [recipe]).
    { rewrite ids_cons, Hu, Z.eqb_refl, Hr. reflexivity. }
    split; [rewrite ids_app, Hown; reflexivity|]. split.
    + unfold profile. rewrite List.filter_app, length_app.
      simpl. unfold of_user at 2. rewrite Hu, Z.eqb_refl. simpl. lia.
    + intros other Hne. rewrite ids_app, ids_cons, Hu.
      destruct (Z.eqb_spec current_user other); [congruence|].
      apply app_nil_r.
Qed.

End FavoriteViews.

(** ** Accounts: repeated signup and what a login proves *)

Section AccountMore.
Import PyStr Accounts.

Variable salt : Type.
Variable generate_password_hash : salt -> string -> string.
Variable check_password_hash : string -> string -> bool.

Lemma first_user_found address users u :
  first_user address users = Some u -> In u users /\ email u = address.
Proof.
  unfold first_user. intros H. apply find_some in H as [Hin Hu].
  apply String.eqb_eq in Hu. split; assumption.
Qed.

(** X5. Once an address is registered, signing up again with any
    capitalisation of it is refused and writes nothing. *)
Theorem signup_rejects_variant valid form_email form_password s users users'
    variant password' s' :
  signup salt generate_password_hash valid form_email form_password s users
  = (AccountCreated, users') ->
  lower variant = lower form_email ->
  signup salt generate_password_hash true variant password' s' users'
  = (EmailAlreadyExists, users').
Proof.
  intros E Hv. apply signup_created in E as [_ ->].
  unfold signup. rewrite Hv. unfold first_user. rewrite find_app.
  destruct (List.find _ users); [reflexivity|].
  simpl. rewrite String.eqb_refl. reflexivity.
Qed.

(** X6. A login that succeeds was made through a valid form, for a row
    of the table whose address is the lowercased submitted one and whose
    stored hash checks against the submitted password; when addresses in
    the table are pairwise different, that row is the only one with the
    address. *)
Theorem login_sound valid form_email form_password users u :
  login check_password_hash valid form_email form_password users = LoggedIn u ->
  valid = true
  /\ In u users
  /\ email u = lower form_email
  /\ check_password_hash (password_hash u) form_password = true
  /\ (NoDup (map email users) ->
      forall other, In other users -> email other = email u -> other = u).
Proof.
  unfold login. destruct valid; [|discriminate].
  destruct (first_user (lower form_email) users) as [user|] eqn:E; [|discriminate].
  destruct (check_password_hash (password_hash user) form_password) eqn:Ec;
    [|discriminate].
  intros [= <-]. apply first_user_found in E as [Hin Hu].
  repeat split; try assumption.
  intros Hnd other Ho He. clear -Hnd Hin Ho He.
  induction users as [|x users IH]; [inversion Hin|].
  simpl in Hnd. apply NoDup_cons in Hnd as [Hx Hnd].
  destruct Hin as [->|Hin], Ho as [->|Ho]; auto.
  - exfalso. apply Hx, list_elem_of_In, in_map_iff. eauto.
  - exfalso. apply Hx, list_elem_of_In, in_map_iff. eauto.
Qed.

End AccountMore.

(** ** Paging *)

Section PagingFacts.
Import Json Favorites Views Page Paging Client.

Lemma clamp_nonneg len i : (0 <= i)%Z -> clamp len i = Nat.min (Z.to_nat i) len.
Proof. intros H. unfold clamp. destruct (Z.ltb_spec i 0); [lia | reflexivity]. Qed.

Lemma clamp_bound len i : clamp len i <= len.
Proof. unfold clamp. destruct (Z.ltb_spec i 0); lia. Qed.

Lemma clamp_step len i : clamp len (i + 9) - clamp len i <= 9.
Proof.
  unfold clamp.
  destruct (Z.ltb_spec i 0), (Z.ltb_spec (i + 9) 0); lia.
Qed.

Lemma py_slice_length {A : Type} (i : Z) (l : list A) :
  length (py_slice i (i + 9) l) <= 9.
Proof.
  unfold py_slice. rewrite length_take.
  pose proof (clamp_step (length l) i). lia.
Qed.

(** From a non-negative index, a slice of nine is the next nine. *)
Lemma py_slice_next {A : Type} (i : Z) (l : list A) :
  (0 <= i)%Z -> py_slice i (i + 9) l = take 9 (drop (Z.to_nat i) l).
Proof.
  intros H. unfold py_slice. rewrite !clamp_nonneg by lia.
  destruct (Nat.le_gt_cases (length l) (Z.to_nat i)) as [Hge|Hlt].
  - rewrite Nat.min_r by lia. rewrite !drop_ge by lia. rewrite !take_nil. reflexivity.
  - rewrite (Nat.min_l (Z.to_nat i)) by lia.
    destruct (Nat.le_gt_cases (Z.to_nat (i + 9)) (length l)) as [Hin|Hout].
    + rewrite Nat.min_l by lia. f_equal. lia.
    + rewrite Nat.min_r by lia.
      rewrite !take_ge; [reflexivity| |]; rewrite length_drop; lia.
Qed.

Lemma py_slice_sublist {A : Type} (a b : Z) (l : list A) :
  py_slice a b l `sublist_of` l.
Proof.
  unfold py_slice. etransitivity; [apply sublist_take | apply sublist_drop].
Qed.

Variable current_user : Z.
Variable ses : session.
Variable rows : list Favorite.

Lemma get_more_recipes_nonneg all current :
  s_all_recipes ses = Some all -> all <> [] -> (0 <= current)%Z ->
  let next_batch := take 9 (drop (Z.to_nat current) all) in
  get_more_recipes current_user (CountValue current) ses rows
  = Batch (map (item_of (get_favorite_ids current_user rows)) next_batch)
          (current + Z.of_nat (length next_batch) <? Z.of_nat (length all))%Z
          (length all)
          (current + Z.of_nat (length next_batch))%Z.
Proof.
  intros Hs Hne Hc next_batch. unfold get_more_recipes. rewrite Hs.
  change (default [] (Some all)) with all.
  destruct all as [|r0 rest]; [contradiction|]. cbv beta iota.
  clear Hne. set (all := r0 :: rest) in *.
  destruct (Z.leb_spec (Z.of_nat (length all)) current) as [Hge|Hlt].
  - subst next_batch. rewrite drop_ge by lia. rewrite take_nil.
    change (Z.of_nat (length (@nil dict))) with 0%Z. rewrite Z.add_0_r.
    destruct (Z.ltb_spec current (Z.of_nat (length all))); [lia|].
    reflexivity.
  - rewrite (py_slice_next current all Hc). fold next_batch.
    assert (Hlen : length next_batch = Nat.min 9 (length all - Z.to_nat current)).
    { subst next_batch. rewrite length_take, length_drop. reflexivity. }
    clearbody next_batch.
    destruct next_batch as [|x xs];
      [change (length (@nil dict)) with 0 in Hlen; lia|].
    rewrite length_map. reflexivity.
Qed.

(** X7. For a non-negative count and a session that holds recipes, the
    answer is the next nine stored recipes at most (fewer at the end, none
    past the end), the new count is the old one plus their number, and
    more is announced exactly when the new count is below the total. *)
Theorem more_recipes_next_nine all current :
  s_all_recipes ses = Some all -> all <> [] -> (0 <= current)%Z ->
  let next_batch := take 9 (drop (Z.to_nat current) all) in
  get_more_recipes current_user (CountValue current) ses rows
  = Batch (map (item_of (get_favorite_ids current_user rows)) next_batch)
          (current + Z.of_nat (length next_batch) <? Z.of_nat (length all))%Z
          (length all)
          (current + Z.of_nat (length next_batch))%Z.
Proof. exact (get_more_recipes_nonneg all current). Qed.

(** What each answer of [get_more_recipes] tells. *)
Lemma more_recipes_cases requested :
  match get_more_recipes current_user requested ses rows with
  | NoRecipesInSession => default [] (s_all_recipes ses) = []
  | Failed => requested = CountInvalid /\ default [] (s_all_recipes ses) <> []
  | Batch recipes has_more total next =>
      exists current batch,
        match requested with
        | CountAbsent => current = 9%Z
        | CountValue z => current = z
        | CountInvalid => False
        end
        /\ recipes = map (item_of (get_favorite_ids current_user rows)) batch
        /\ batch `sublist_of` default [] (s_all_recipes ses)
        /\ length recipes <= 9
        /\ next = (current + Z.of_nat (length recipes))%Z
        /\ total = length (default [] (s_all_recipes ses))
        /\ (has_more = true -> (next < Z.of_nat total)%Z /\ recipes <> [])
  end.
Proof.
  unfold get_more_recipes.
  destruct (default [] (s_all_recipes ses)) as [|r0 rest]; [reflexivity|].
  cbv beta iota.
  assert (Hne : r0 :: rest <> []) by discriminate.
  set (all := r0 :: rest) in *.
  assert (Hempty : forall current,
             (match requested with
              | CountAbsent => current = 9%Z
              | CountValue z => current = z
              | CountInvalid => False
              end) ->
             exists current' batch,
               match requested with
               | CountAbsent => current' = 9%Z
               | CountValue z => current' = z
               | CountInvalid => False
               end
               /\ [] = map (item_of (get_favorite_ids current_user rows)) batch
               /\ batch `sublist_of` all
               /\ @length item [] <= 9
               /\ current = (current' + Z.of_nat (@length item []))%Z
               /\ length all = length all
               /\ (false = true -> (current < Z.of_nat (length all))%Z
                                   /\ @nil item <> [])).
  { intros current Hc. exists current, []. repeat split; try discriminate.
    - exact Hc.
    - apply sublist_nil_l.
    - simpl. lia.
    - simpl. lia. }
  destruct requested as [|z|]; [| |split; [reflexivity | exact Hne]].
  - destruct (Z.leb_spec (Z.of_nat (length all)) 9); [apply Hempty; reflexivity|].
    destruct (py_slice 9 (9 + 9) all) as [|x xs] eqn:Es; [apply Hempty; reflexivity|].
    rewrite <- Es. exists 9%Z, (py_slice 9 (9 + 9) all).
    rewrite length_map.
    split; [reflexivity|]. split; [reflexivity|].
    split; [apply py_slice_sublist|]. split; [apply py_slice_length|].
    split; [reflexivity|]. split; [reflexivity|].
    intros H'. split; [apply Z.ltb_lt, H' | rewrite Es; discriminate].
  - destruct (Z.leb_spec (Z.of_nat (length all)) z); [apply Hempty; reflexivity|].
    destruct (py_slice z (z + 9) all) as [|x xs] eqn:Es; [apply Hempty; reflexivity|].
    rewrite <- Es. exists z, (py_slice z (z + 9) all).
    rewrite length_map.
    split; [reflexivity|]. split; [reflexivity|].
    split; [apply py_slice_sublist|]. split; [apply py_slice_length|].
    split; [reflexivity|]. split; [reflexivity|].
    intros H'. split; [apply Z.ltb_lt, H' | rewrite Es; discriminate].
Qed.

(** X8. An empty or missing stored list is answered 400 whatever the
    count field holds, and only then; with stored recipes an unreadable
    count is answered 500, and only it.  Every other request is answered
    with a batch, which never holds more than nine entries; they are
    stored recipes in their stored order, and the count returned is the
    count sent (9 when absent) plus their number. *)
Theorem more_recipes_bounds requested :
  let answer := get_more_recipes current_user requested ses rows in
  (answer = NoRecipesInSession <-> default [] (s_all_recipes ses) = [])
  /\ (answer = Failed
      <-> requested = CountInvalid /\ default [] (s_all_recipes ses) <> [])
  /\ (forall recipes has_more total next,
        answer = Batch recipes has_more total next ->
        exists current batch,
          match requested with
          | CountAbsent => current = 9%Z
          | CountValue z => current = z
          | CountInvalid => False
          end
          /\ recipes = map (item_of (get_favorite_ids current_user rows)) batch
          /\ batch `sublist_of` default [] (s_all_recipes ses)
          /\ length recipes <= 9
          /\ next = (current + Z.of_nat (length recipes))%Z
          /\ total = length (default [] (s_all_recipes ses))
          /\ (has_more = true -> (next < Z.of_nat total)%Z /\ recipes <> [])).
Proof.
  intros answer. subst answer.
  pose proof (more_recipes_cases requested) as Hcases.
  split; [|split].
  - split.
    + intros E. rewrite E in Hcases. exact Hcases.
    + intros E. unfold get_more_recipes. rewrite E. reflexivity.
  - split.
    + intros E. rewrite E in Hcases. exact Hcases.
    + intros [-> Hne]. unfold get_more_recipes.
      destruct (default [] (s_all_recipes ses)); [contradiction | reflexivity].
  - intros recipes has_more total next E. rewrite E in Hcases. exact Hcases.
Qed.

(** X9. A client that starts at a non-negative count and keeps asking
    while more is announced receives, batch after batch, exactly the
    stored recipes from that count on, in order, once it is allowed enough
    requests. *)
Theorem follow_reads_all all rounds current :
  s_all_recipes ses = Some all -> all <> [] -> (0 <= current)%Z ->
  length all - Z.to_nat current <= 9 * rounds ->
  follow rounds current_user current ses rows
  = map (item_of (get_favorite_ids current_user rows))
        (drop (Z.to_nat current) all).
Proof.
  intros Hs Hne. revert current.
  induction rounds as [|n IH]; intros current Hc Hlen.
  - simpl. rewrite drop_ge by lia. reflexivity.
  - cbn [follow]. rewrite (get_more_recipes_nonneg all current Hs Hne Hc).
    cbv zeta.
    set (batch := take 9 (drop (Z.to_nat current) all)).
    assert (Hb : length batch = Nat.min 9 (length all - Z.to_nat current)).
    { subst batch. rewrite length_take, length_drop. reflexivity. }
    rewrite <- (take_drop 9 (drop (Z.to_nat current) all)) at 1.
    fold batch. rewrite map_app. f_equal.
    destruct (Z.ltb_spec (current + Z.of_nat (length batch))
                (Z.of_nat (length all))) as [Hlt|Hge].
    + rewrite IH by lia. rewrite drop_drop. do 2 f_equal. lia.
    + rewrite drop_ge; [reflexivity|]. rewrite length_drop. lia.
Qed.

End PagingFacts.

Section PagingStored.
Import Json Favorites Views Page Paging Client.

Lemma stored_get r k :
  k ∈ ["id"; "title"; "readyInMinutes"; "usedIngredientCount";
       "missedIngredientCount"; "match_count"] ->
  get (stored r) k = get r k.
Proof.
  intros Hk. unfold stored, get.
  repeat (apply elem_of_cons in Hk as [->|Hk];
          [repeat (rewrite lookup_insert_eq || rewrite lookup_insert_ne by discriminate);
           reflexivity|]).
  inversion Hk.
Qed.

Lemma stored_get_default r k dflt :
  (k, dflt) ∈ [("image", VStr ""); ("cuisines", VList []);
               ("usedIngredients", VList []); ("missedIngredients", VList [])] ->
  get_default (stored r) k dflt = get_default r k dflt.
Proof.
  intros Hk. unfold stored, get_default.
  repeat (apply elem_of_cons in Hk as [[= -> ->]|Hk];
          [repeat (rewrite lookup_insert_eq || rewrite lookup_insert_ne by discriminate);
           reflexivity|]).
  inversion Hk.
Qed.

Lemma stored_idem r : stored (stored r) = stored r.
Proof.
  unfold stored at 1.
  rewrite !stored_get by (repeat constructor).
  rewrite !stored_get_default by (repeat constructor).
  reflexivity.
Qed.

Lemma map_fixed {A : Type} (g : A -> A) (l : list A) :
  Forall (fun x => g x = x) l -> map g l = l.
Proof. induction 1 as [|x l Hx _ IH]; simpl; congruence. Qed.

Lemma id_in_spec v favorite_ids :
  id_in v favorite_ids = true <-> exists z, v = VInt z /\ In z favorite_ids.
Proof.
  unfold id_in. destruct v as [|z|s|l|kvs];
    try (split; [discriminate | intros (z' & [=] & _)]).
  rewrite existsb_exists. split.
  - intros (y & Hy & Hz). apply Z.eqb_eq in Hz. subst y. eauto.
  - intros (z' & [= <-] & Hin). exists z. split; [exact Hin | apply Z.eqb_refl].
Qed.

Variable current_user : Z.
Variable rows : list Favorite.

(** X10. What the paging endpoint returns is what the search stored:
    after [store_recipes_in_session], a non-negative count is answered
    with the stored entries themselves (the same ten fields, nothing
    re-derived), and an entry is flagged as favorited exactly when its id
    is an integer for which the user has a favorite row. *)
Theorem paging_returns_stored recipes_list ses current :
  recipes_list <> [] -> (0 <= current)%Z ->
  exists items has_more next,
    get_more_recipes current_user (CountValue current)
      (store_recipes_in_session recipes_list ses) rows
    = Batch items has_more (length recipes_list) next
    /\ map fields items = take 9 (drop (Z.to_nat current) (map stored recipes_list))
    /\ Forall (fun it =>
                 is_favorited it = true
                 <-> exists z, fields it !! "id" = Some (VInt z)
                               /\ In (current_user, z) (pairs rows)) items.
Proof.
  intros Hne Hc.
  assert (Hne' : map stored recipes_list <> [])
    by (destruct recipes_list; [contradiction | discriminate]).
  pose proof (get_more_recipes_nonneg current_user
                (store_recipes_in_session recipes_list ses) rows
                (map stored recipes_list) current eq_refl Hne' Hc) as E.
  cbv zeta in E. rewrite length_map in E.
  eexists _, _, _. split; [exact E|]. split.
  - rewrite map_map.
    assert (Hall : Forall (fun r => stored r = r)
                     (take 9 (drop (Z.to_nat current) (map stored recipes_list)))).
    { eapply forall_sublist;
        [etransitivity; [apply sublist_take | apply sublist_drop]|].
      apply List.Forall_map, List.Forall_forall. intros r _. apply stored_idem. }
    apply map_fixed. exact Hall.
  - apply List.Forall_forall. intros it Hin.
    apply in_map_iff in Hin as (r & <- & _). simpl.
    rewrite id_in_spec. unfold get.
    rewrite lookup_insert_eq. simpl. split.
    + intros (z & Hz & Hin). exists z. rewrite Hz.
      split; [reflexivity | apply ids_member, Hin].
    + intros (z & [= Hz] & Hin). exists z.
      split; [exact Hz | apply ids_member, Hin].
Qed.

End PagingStored.

(** ** The search page: sessions, errors and the requests sent *)

Section PageMore.
Import PyStr Json Api PyList Ingredients Search Page Spec Spec2.

Variable api_key : option string.
Variable srv : server.

Lemma get_fallback_returns ingredients num w :
  exists out, fst (get_fallback_recipes api_key srv ingredients num w) = inr out.
Proof.
  unfold get_fallback_recipes. destruct (key_missing api_key); [eauto|].
  destruct (collect _ _ _ _) as [st w1]. destruct (for_each _ _ _) as [out w2].
  eauto.
Qed.

(** The four ways a valid submission ends. *)
Lemma search_cases f ses w0 :
  let text := handler_ingredients_text (f_ingredients f) in
  let cuisine := if PyStr.truthy (f_cuisine f) then Some (f_cuisine f) else None in
  let primary := get_recipes api_key srv text (f_max_time f) cuisine 30
                   (f_search_type f) (Some (f_dish_type f)) (f_low_ingredient f) w0 in
  let fallback := get_fallback_recipes api_key srv text 30 (snd primary) in
  let ses2 := set_search_params f (pop_all_recipes ses) in
  (exists e, fst primary = inl e
             /\ search api_key srv f ses w0
                = ({| recipes := None; error := Some (error_of_exn e) |},
                   ses2, snd primary))
  \/ (fst primary = inr [] /\ fst fallback = inr []
      /\ search api_key srv f ses w0
         = ({| recipes := None; error := Some NoRecipesFound |},
            pop_all_recipes ses2, snd fallback))
  \/ (exists fb, fst primary = inr [] /\ fst fallback = inr fb /\ fb <> []
                 /\ search api_key srv f ses w0
                    = ({| recipes := Some fb; error := Some NoExactMatches |},
                       set_is_fallback (Some true)
                         (store_recipes_in_session fb ses2), snd fallback))
  \/ (exists all, fst primary = inr all /\ all <> []
                  /\ search api_key srv f ses w0
                     = ({| recipes := Some all; error := None |},
                        set_is_fallback None (store_recipes_in_session all ses2),
                        snd primary)).
Proof.
  intros text cuisine primary fallback ses2. subst fallback ses2.
  unfold search. fold text cuisine primary. clearbody primary.
  destruct primary as [[e|[|r rs]] w1]; simpl.
  - left. eauto.
  - right. destruct (get_fallback_returns text 30 w1) as [out Hout].
    destruct (get_fallback_recipes api_key srv text 30 w1) as [res w2].
    simpl in *. subst res. destruct out as [|r rs].
    + left. auto.
    + right. left. exists (r :: rs). repeat split. discriminate.
  - right. right. right. exists (r :: rs). repeat split. discriminate.
Qed.

(** X11. Going back to the results does not search again: a GET that
    follows a valid submission sends no request and leaves the session
    as it is; it shows the stored projection of the recipes the
    submission showed (nothing when it showed none), with the
    shared-ingredient notice exactly when those were fallback results. *)
Theorem back_to_results f f' ses w0 :
  let first := ingredients api_key srv true f ses w0 in
  let second := ingredients api_key srv false f' (snd (fst first)) (snd first) in
  snd second = snd first
  /\ snd (fst second) = snd (fst first)
  /\ recipes (fst (fst second)) = map stored <$> recipes (fst (fst first))
  /\ error (fst (fst second))
     = match recipes (fst (fst first)), error (fst (fst first)) with
       | Some _, Some NoExactMatches => Some ShowingShared
       | _, _ => None
       end.
Proof.
  intros first second. subst second first. rewrite ingredients_submitted.
  destruct (search_cases f ses w0)
    as [(e & _ & E)|[(_ & _ & E)|[(fb & _ & _ & Hne & E)|(all & _ & Hne & E)]]];
    rewrite E; clear E; unfold ingredients, restore; simpl.
  - repeat split.
  - repeat split.
  - destruct fb as [|r rs]; [contradiction|]. simpl. repeat split.
  - destruct all as [|r rs]; [contradiction|]. simpl. repeat split.
Qed.

(** X12. After a valid submission the session agrees with the page: it
    holds the submitted form, it holds the stored projection of exactly
    the recipes shown (none when none are shown), a list shown is never
    empty, a page without recipes carries a message, and the fallback
    mark is set with fallback results and absent with primary ones. *)
Theorem post_session_consistent f ses w0 :
  let result := ingredients api_key srv true f ses w0 in
  let pg := fst (fst result) in
  let ses' := snd (fst result) in
  s_search_params ses' = Some f
  /\ s_all_recipes ses' = map stored <$> recipes pg
  /\ (forall l, recipes pg = Some l -> l <> [])
  /\ (recipes pg = None -> error pg <> None)
  /\ (forall l, recipes pg = Some l ->
        (error pg = Some NoExactMatches /\ s_is_fallback ses' = Some true)
        \/ (error pg = None /\ s_is_fallback ses' = None)).
Proof.
  intros result pg ses'. subst pg ses' result. rewrite ingredients_submitted.
  destruct (search_cases f ses w0)
    as [(e & _ & E)|[(_ & _ & E)|[(fb & _ & _ & Hne & E)|(all & _ & Hne & E)]]];
    rewrite E; clear E; simpl.
  - repeat split; try discriminate.
  - repeat split; try discriminate.
  - repeat split; try discriminate.
    + intros l [= <-]. exact Hne.
    + intros l _. left. split; reflexivity.
  - repeat split; try discriminate.
    + intros l [= <-]. exact Hne.
    + intros l _. right. split; reflexivity.
Qed.

Lemma collect_sent ings st w :
  sent (snd (collect srv ings st w)) = sent w ++ find_requests ings.
Proof.
  revert st w. induction ings as [|i rest IH]; intros st w; simpl.
  - rewrite app_nil_r. reflexivity.
  - destruct (find_by_ingredients srv (sent w) i 50); rewrite IH; simpl;
      rewrite <- app_assoc; reflexivity.
Qed.

Lemma collect_all_fail ings st w :
  (forall hist i, In i ings -> exists e, find_by_ingredients srv hist i 50 = inl e) ->
  fst (collect srv ings st w) = st.
Proof.
  revert st w. induction ings as [|i rest IH]; intros st w Hf; [reflexivity|].
  simpl. destruct (Hf (sent w) i (or_introl eq_refl)) as [e ->].
  apply IH. intros hist j Hj. apply Hf. right. exact Hj.
Qed.

Lemma for_each_sent body recipes w :
  fetches_id body ->
  sent (snd (for_each body recipes w)) = sent w ++ detail_requests recipes.
Proof.
  intros Hb. revert w. induction recipes as [|r rest IH]; intros w; simpl.
  - rewrite app_nil_r. reflexivity.
  - pose proof (Hb r w) as E1. destruct (body r w) as [o w1]. simpl in E1.
    specialize (IH w1). destruct (for_each body rest w1) as [out w2]. simpl in *.
    rewrite IH, E1, <- app_assoc. reflexivity.
Qed.

Lemma enrich_or_fetches max_time cuisine dish_type :
  fetches_id (enrich_or srv max_time cuisine dish_type).
Proof.
  intros r w. unfold enrich_or, call_information.
  destruct (r !! "id") as [v|]; [|simpl; rewrite app_nil_r; reflexivity].
  destruct (information srv (sent w) v); [reflexivity|].
  destruct (or_filters _ _ _ _); reflexivity.
Qed.

Lemma enrich_and_fetches : fetches_id (enrich_and srv).
Proof.
  intros r w. unfold enrich_and, call_information.
  destruct (r !! "id") as [v|]; [|simpl; rewrite app_nil_r; reflexivity].
  destruct (information srv (sent w) v); reflexivity.
Qed.

Lemma enrich_fallback_fetches cnt : fetches_id (enrich_fallback srv cnt).
Proof.
  intros r w. unfold enrich_fallback, call_information.
  destruct (r !! "id") as [v|]; [|simpl; rewrite app_nil_r; reflexivity].
  destruct (information srv (sent w) v); [reflexivity|].
  destruct (match_count_opt _ _); reflexivity.
Qed.

Lemma detail_requests_length recipes :
  Forall (fun r => is_Some (recipe_id r)) recipes ->
  length (detail_requests recipes) = length recipes.
Proof.
  induction 1 as [|r rest [v Hv] _ IH]; [reflexivity|].
  unfold detail_requests, recipe_id in *. simpl. rewrite Hv. simpl. congruence.
Qed.

Lemma ranked_empty num : ranked empty_agg num = [].
Proof.
  unfold ranked, py_take. simpl. destruct (0 <=? num)%Z; [apply take_nil | reflexivity].
Qed.

Lemma params_of_eq f :
  params_of f
  = {| cs_number := 30;
       cs_includeIngredients := handler_ingredients_text (f_ingredients f);
       cs_maxReadyTime := f_max_time f;
       cs_cuisine := opt_truthy (if PyStr.truthy (f_cuisine f)
                                 then Some (f_cuisine f) else None);
       cs_type := opt_truthy (Some (f_dish_type f));
       cs_few_ingredients := f_low_ingredient f |}.
Proof.
  unfold params_of, opt_truthy. destruct (PyStr.truthy (f_cuisine f)) eqn:E;
    [rewrite E|]; reflexivity.
Qed.

Lemma get_recipes_exact_failure ingredients max_time cuisine num search_type
    dish_type low w0 e :
  key_missing api_key = false ->
  String.eqb search_type "OR" = false ->
  let params :=
    {| cs_number := num;
       cs_includeIngredients := ingredients;
       cs_maxReadyTime := max_time;
       cs_cuisine := opt_truthy cuisine;
       cs_type := opt_truthy dish_type;
       cs_few_ingredients := low |} in
  complex_search srv (sent w0) params = inl e ->
  get_recipes api_key srv ingredients max_time cuisine num search_type
    dish_type low w0
  = (inl match e with
         | HTTPFailure status => HTTPError status
         | OtherFailure msg => RuntimeError (fetch_error_prefix +:+ msg)
         end,
     record (ComplexSearch params) (enter GetRecipes w0)).
Proof.
  intros Hk Hs params He. unfold get_recipes, call_complex. rewrite Hk, Hs.
  change (sent (enter GetRecipes w0)) with (sent w0). fold params. rewrite He.
  destruct e; reflexivity.
Qed.

(** X13. When the one search call of an AND submission fails, the page
    shows no recipes and the message of the failure's category (quota for
    402, invalid key for 401, too many requests for 429, the status
    otherwise, the error text for a failure without a status); nothing
    else is sent, the fallback search is not entered, and the session
    holds no recipes. *)
Theorem upstream_error_categories f ses w0 e :
  key_missing api_key = false ->
  String.eqb (f_search_type f) "OR" = false ->
  complex_search srv (sent w0) (params_of f) = inl e ->
  let result := ingredients api_key srv true f ses w0 in
  recipes (fst (fst result)) = None
  /\ error (fst (fst result)) = Some (category e)
  /\ sent (snd result) = sent w0 ++ [ComplexSearch (params_of f)]
  /\ entered (snd result) = entered w0 ++ [GetRecipes]
  /\ s_all_recipes (snd (fst result)) = None.
Proof.
  intros Hk Hs He result. subst result. rewrite ingredients_submitted.
  rewrite params_of_eq in *. unfold search.
  rewrite (get_recipes_exact_failure _ _ _ _ _ _ _ _ _ Hk Hs He).
  destruct e as [status|msg]; repeat split.
Qed.

(** X14. In OR mode upstream failures never reach the user as errors:
    when every per-ingredient call fails (or the text has no usable
    ingredient, so that none is made), the page reports that no recipes
    were found, having queried every ingredient once for the primary
    search and once more for the fallback, and fetched no detail. *)
Theorem inclusive_hides_upstream_errors f ses w0 :
  key_missing api_key = false ->
  f_search_type f = "OR" ->
  let ings := ingredients_list (handler_ingredients_text (f_ingredients f)) in
  (forall hist i, In i ings ->
     exists e, find_by_ingredients srv hist i 50 = inl e) ->
  let result := ingredients api_key srv true f ses w0 in
  recipes (fst (fst result)) = None
  /\ error (fst (fst result)) = Some NoRecipesFound
  /\ sent (snd result) = sent w0 ++ find_requests ings ++ find_requests ings
  /\ entered (snd result) = entered w0 ++ [GetRecipes; GetFallbackRecipes].
Proof.
  intros Hk Hs ings Hf result. subst result. rewrite ingredients_submitted.
  unfold search. rewrite Hs, (get_recipes_or _ _ _ _ _ _ _ _ _ Hk).
  fold ings.
  pose proof (collect_all_fail ings empty_agg (enter GetRecipes w0) Hf) as E1.
  pose proof (collect_sent ings empty_agg (enter GetRecipes w0)) as S1.
  pose proof (collect_entered srv ings empty_agg (enter GetRecipes w0)) as N1.
  destruct (collect srv ings empty_agg (enter GetRecipes w0)) as [st w1].
  simpl in E1, S1, N1. subst st. rewrite ranked_empty. simpl.
  unfold get_fallback_recipes. rewrite Hk. fold ings.
  pose proof (collect_all_fail ings empty_agg (enter GetFallbackRecipes w1) Hf) as E2.
  pose proof (collect_sent ings empty_agg (enter GetFallbackRecipes w1)) as S2.
  pose proof (collect_entered srv ings empty_agg (enter GetFallbackRecipes w1)) as N2.
  destruct (collect srv ings empty_agg (enter GetFallbackRecipes w1)) as [st w2].
  simpl in E2, S2, N2. subst st. rewrite ranked_empty. simpl.
  repeat split.
  - rewrite S2, S1, <- app_assoc. reflexivity.
  - rewrite N2, N1, <- app_assoc. reflexivity.
Qed.

(** X15. The requests of an OR search are exactly these, in this order:
    one per-ingredient query (asking for 50) for each normalised
    ingredient, then one detail fetch for each ranked recipe; no
    [complexSearch] request is sent. *)
Theorem inclusive_requests_exact ingredients max_time cuisine num dish_type low w0 :
  key_missing api_key = false ->
  let ings := ingredients_list ingredients in
  let st := fst (collect srv ings empty_agg (enter GetRecipes w0)) in
  let w' := snd (get_recipes api_key srv ingredients max_time cuisine num "OR"
                   dish_type low w0) in
  sent w' = sent w0 ++ find_requests ings ++ detail_requests (ranked st num)
  /\ length (detail_requests (ranked st num)) = length (ranked st num)
  /\ entered w' = entered w0 ++ [GetRecipes].
Proof.
  intros Hk ings st w'. subst w' st. rewrite (get_recipes_or _ _ _ _ _ _ _ _ _ Hk).
  fold ings.
  pose proof (collect_sent ings empty_agg (enter GetRecipes w0)) as S1.
  pose proof (collect_entered srv ings empty_agg (enter GetRecipes w0)) as N1.
  pose proof (collect_inv srv ings [] empty_agg (enter GetRecipes w0)
                empty_agg_inv) as Hinv.
  destruct (collect srv ings empty_agg (enter GetRecipes w0)) as [st w1].
  simpl in S1, N1, Hinv. simpl fst.
  pose proof (for_each_sent (enrich_or srv max_time cuisine dish_type)
                (ranked st num) w1 (enrich_or_fetches max_time cuisine dish_type))
    as S2.
  destruct (for_each_extends _ (ranked st num) w1
              (enrich_or_one srv max_time cuisine dish_type)) as [_ N2].
  destruct (for_each _ (ranked st num) w1) as [out w2]. simpl in *.
  split; [rewrite S2, S1, <- app_assoc; reflexivity|].
  split; [|congruence].
  apply detail_requests_length. eapply ranked_have_ids, Hinv.
Qed.

End PageMore.

(** ** Normalising ingredient text *)

Section NormalFacts.
Import PyStr Ingredients.

Lemma is_space_lower c : is_space (lower_char c) = is_space c.
Proof. destruct c as [[] [] [] [] [] [] [] []]; vm_compute; reflexivity. Qed.

Lemma lower_char_comma c : Ascii.eqb (lower_char c) "," = Ascii.eqb c ",".
Proof. destruct c as [[] [] [] [] [] [] [] []]; vm_compute; reflexivity. Qed.

Lemma lstrip_lower s : lstrip (lower s) = lower (lstrip s).
Proof.
  induction s as [|c s IH]; simpl; [reflexivity|].
  rewrite is_space_lower. destruct (is_space c); [exact IH | reflexivity].
Qed.

Lemma rstrip_lower s : rstrip (lower s) = lower (rstrip s).
Proof.
  induction s as [|c s IH]; simpl; [reflexivity|].
  rewrite IH, is_space_lower.
  destruct (rstrip s); simpl; [destruct (is_space c)|]; reflexivity.
Qed.

Lemma strip_lower s : strip (lower s) = lower (strip s).
Proof. unfold strip. rewrite lstrip_lower, rstrip_lower. reflexivity. Qed.

Lemma truthy_lower s : truthy (lower s) = truthy s.
Proof. destruct s; reflexivity. Qed.

Lemma has_comma_lower s : has_char "," (lower s) = has_char "," s.
Proof.
  induction s as [|c s IH]; simpl; [reflexivity|].
  rewrite lower_char_comma, IH. reflexivity.
Qed.

(** Splitting the joined list again, trimming and filtering, gives the
    list back when its entries are trimmed, free of commas and pass the
    filter. *)
Lemma renormalise (q : string -> bool) (g : string -> string) (l : list string) :
  q EmptyString = false ->
  Forall (fun t => has_char "," t = false /\ strip t = t /\ q t = true) l ->
  map (fun t => g (strip t))
    (List.filter (fun t => q (strip t)) (split "," (join ", " l)))
  = map g l.
Proof.
  intros Hq Hall. rewrite split_join.
  - destruct Hall as [|x xs (_ & Hsx & Hqx) Hxs]; simpl;
      [change (strip EmptyString) with EmptyString; rewrite Hq; reflexivity|].
    rewrite Hsx, Hqx. simpl. rewrite Hsx. f_equal.
    induction Hxs as [|y ys (_ & Hsy & Hqy) _ IH]; [reflexivity|].
    simpl. rewrite strip_space, Hsy, Hqy. simpl.
    rewrite strip_space, Hsy, IH. reflexivity.
  - revert Hall. apply List.Forall_impl. tauto.
Qed.

Lemma kept_normal text :
  Forall (fun t => has_char "," t = false /\ strip t = t
                   /\ truthy t && negb (startswith marker t) = true)
    (handler_ingredients_list text).
Proof.
  apply List.Forall_forall. intros t Ht.
  destruct (kept_tokens text t Ht) as (_ & Hc & Hs).
  repeat split; [exact Hc | exact Hs|].
  unfold handler_ingredients_list in Ht.
  apply in_map_iff in Ht as (tok & <- & Hin).
  apply filter_In in Hin as [_ Hkeep]. exact Hkeep.
Qed.

(** X21. The queries of the search are normal: every ingredient
    [get_recipes] and [get_fallback_recipes] ask for is non-empty,
    trimmed, lowercase and free of commas; and on the text the page hands
    over they are the page's kept tokens, lowercased, in the same order. *)
Theorem ingredients_list_normal text :
  Forall (fun q => truthy q = true /\ strip q = q /\ lower q = q
                   /\ has_char "," q = false)
    (ingredients_list text)
  /\ ingredients_list (handler_ingredients_text text)
     = map lower (handler_ingredients_list text).
Proof.
  split.
  - apply List.Forall_forall. intros q Hq. unfold ingredients_list in Hq.
    apply in_map_iff in Hq as (tok & <- & Hin).
    apply filter_In in Hin as [Hin Ht]. repeat split.
    + rewrite truthy_lower. exact Ht.
    + rewrite strip_lower, strip_idem. reflexivity.
    + apply lower_idem.
    + rewrite has_comma_lower. apply has_char_strip.
      pose proof (split_pieces comma text) as Hall.
      rewrite List.Forall_forall in Hall. apply Hall, Hin.
  - unfold ingredients_list, handler_ingredients_text, comma.
    apply (renormalise truthy lower); [reflexivity|].
    generalize (kept_normal text). apply List.Forall_impl.
    intros t (Hc & Hs & Hk). apply andb_true_iff in Hk as [Hk _]. auto.
Qed.

(** X22. Normalising is idempotent: the text the page hands to the
    search, submitted again, is kept as it is. *)
Theorem handler_text_idempotent text :
  handler_ingredients_list (handler_ingredients_text text)
  = handler_ingredients_list text
  /\ handler_ingredients_text (handler_ingredients_text text)
     = handler_ingredients_text text.
Proof.
  assert (H : handler_ingredients_list (handler_ingredients_text text)
              = handler_ingredients_list text).
  { unfold handler_ingredients_list at 1. unfold handler_ingredients_text, comma.
    rewrite <- (map_id (handler_ingredients_list text)) at 2.
    apply (renormalise (fun t => truthy t && negb (startswith marker t))
             (fun t => t)); [reflexivity | apply kept_normal]. }
  split; [exact H|]. unfold handler_ingredients_text at 1. rewrite H. reflexivity.
Qed.

End NormalFacts.

(** ** More on ranking, the fallback search and enrichment *)

Section SearchMore.
Import PyStr Json Api PyList Ingredients Search Page Spec Spec2.

Lemma insert_desc_filter {A : Type} (key : A -> nat) (c : nat) (x : A) (l : list A) :
  List.filter (fun a => (key a =? c)%nat) (insert_desc key x l)
  = List.filter (fun a => (key a =? c)%nat) (x :: l).
Proof.
  induction l as [|y l IH]; [reflexivity|].
  cbn [insert_desc]. destruct (key y <=? key x)%nat eqn:E; [reflexivity|].
  apply Nat.leb_gt in E.
  cbn [List.filter] in *. rewrite IH.
  destruct (Nat.eqb_spec (key x) c), (Nat.eqb_spec (key y) c);
    try reflexivity; lia.
Qed.

Lemma sort_desc_filter {A : Type} (key : A -> nat) (c : nat) (l : list A) :
  List.filter (fun a => (key a =? c)%nat) (sort_desc key l)
  = List.filter (fun a => (key a =? c)%nat) l.
Proof.
  induction l as [|x l IH]; [reflexivity|].
  cbn [sort_desc]. rewrite insert_desc_filter. cbn [List.filter].
  rewrite IH. reflexivity.
Qed.

Lemma filter_take_prefix {A : Type} (p : A -> bool) (n : nat) (l : list A) :
  List.filter p (take n l) `prefix_of` List.filter p l.
Proof.
  exists (List.filter p (drop n l)).
  rewrite <- List.filter_app, take_drop. reflexivity.
Qed.

(** X16. Ties keep the first-seen order: for every match count, the
    ranked recipes with that count are an initial part of the recipes
    with that count in the order [all_recipes] first met them (all of
    them when the cap does not cut). *)
Theorem ranking_ties_keep_first_seen st num c :
  let count := match_count_of (ingredient_match_count st) in
  List.filter (fun r => (count r =? c)%nat) (ranked st num)
    `prefix_of` List.filter (fun r => (count r =? c)%nat) (map snd (all_recipes st))
  /\ (Z.of_nat (length (all_recipes st)) <= num ->
      List.filter (fun r => (count r =? c)%nat) (ranked st num)
      = List.filter (fun r => (count r =? c)%nat) (map snd (all_recipes st)))%Z.
Proof.
  intros count. unfold ranked. fold count.
  rewrite <- (sort_desc_filter count c (map snd (all_recipes st))).
  split.
  - unfold py_take. destruct (0 <=? num)%Z; apply filter_take_prefix.
  - intros Hlen. unfold py_take.
    destruct (Z.leb_spec 0 num); [|lia].
    rewrite take_ge; [reflexivity|].
    rewrite (Permutation_length (sort_desc_perm count _)), length_map. lia.
Qed.

Variable api_key : option string.
Variable srv : server.

Lemma get_fallback_eq ingredients num w0 :
  key_missing api_key = false ->
  get_fallback_recipes api_key srv ingredients num w0
  = let '(st, w1) :=
      collect srv (ingredients_list ingredients) empty_agg
        (enter GetFallbackRecipes w0) in
    let '(out, w2) :=
      for_each (enrich_fallback srv (ingredient_match_count st)) (ranked st num) w1 in
    (inr out, w2).
Proof. intros Hk. unfold get_fallback_recipes. rewrite Hk. reflexivity. Qed.

(** X17. With the credential present the fallback search returns a list
    without repeated ids, in non-increasing order of match count, of at
    most [num] recipes for a non-negative [num]; its requests are one
    query per normalised ingredient followed by one detail fetch per
    ranked recipe. *)
Theorem fallback_ranked ingredients num w0 :
  key_missing api_key = false ->
  let ings := ingredients_list ingredients in
  let st := fst (collect srv ings empty_agg (enter GetFallbackRecipes w0)) in
  exists out w',
    get_fallback_recipes api_key srv ingredients num w0 = (inr out, w')
    /\ NoDup (map recipe_id out)
    /\ non_increasing (map (match_count_of (ingredient_match_count st)) out)
    /\ ((0 <= num)%Z -> (Z.of_nat (length out) <= num)%Z)
    /\ sent w' = sent w0 ++ find_requests ings ++ detail_requests (ranked st num).
Proof.
  intros Hk ings st. subst st. rewrite (get_fallback_eq _ _ _ Hk). fold ings.
  pose proof (collect_sent srv ings empty_agg (enter GetFallbackRecipes w0)) as S1.
  pose proof (collect_inv srv ings [] empty_agg (enter GetFallbackRecipes w0)
                empty_agg_inv) as Hinv.
  destruct (collect srv ings empty_agg (enter GetFallbackRecipes w0)) as [st w1].
  simpl in S1, Hinv. simpl fst.
  set (body := enrich_fallback srv (ingredient_match_count st)).
  pose proof (for_each_sent body (ranked st num) w1
                (enrich_fallback_fetches srv (ingredient_match_count st))) as S2.
  pose proof (for_each_ids body (ranked st num) w1
                (enrich_fallback_keeps_id srv (ingredient_match_count st))) as Hsub.
  pose proof (loop_sorted body (ingredient_match_count st) (ranked st num) w1
                (enrich_fallback_keeps_id srv (ingredient_match_count st))
                (ranked_sorted st num)) as Hs.
  pose proof (for_each_length body (ranked st num) w1) as Hl.
  destruct (for_each body (ranked st num) w1) as [out w2]. simpl in *.
  exists out, w2. split; [reflexivity|]. split; [|split; [|split]].
  - eapply sublist_NoDup; [eapply ranked_ids_nodup, Hinv | exact Hsub].
  - apply sorted_non_increasing, Hs.
  - intros Hnum. pose proof (ranked_length st num Hnum). lia.
  - rewrite S2, S1, <- app_assoc. reflexivity.
Qed.

Lemma ranked_in_all st num r :
  In r (ranked st num) -> exists k, (k, r) ∈ all_recipes st.
Proof.
  intros Hin. destruct (ranked_sublist st num) as (l & Hperm & _ & Hsub).
  apply list_elem_of_In in Hin.
  pose proof (elem_of_sublist _ _ _ Hin Hsub) as Hl.
  rewrite Hperm in Hl. apply list_elem_of_In, in_map_iff in Hl as ([k r'] & Hr & Hl).
  simpl in Hr. subst r'. exists k. apply list_elem_of_In, Hl.
Qed.

Lemma for_each_from (P : dict -> Prop) body recipes w :
  (forall r w1 r' w2, In r recipes -> body r w1 = (Some r', w2) -> P r') ->
  Forall P (fst (for_each body recipes w)).
Proof.
  revert w. induction recipes as [|r rest IH]; intros w Hb; simpl.
  - constructor.
  - destruct (body r w) as [o w1] eqn:E.
    specialize (IH w1 (fun r0 w3 r' w2 H => Hb r0 w3 r' w2 (or_intror H))).
    destruct (for_each body rest w1) as [out w2]. simpl in *.
    destruct o as [r'|]; [constructor; [|exact IH] | exact IH].
    apply (Hb r w r' w1); [left; reflexivity | exact E].
Qed.

(** X18. Every recipe the fallback search returns is fully enriched and
    carries, as [match_count], the number of entries with its id that
    were read over the answered per-ingredient queries (of each answer,
    the entries before the first one whose id is a non-empty list or
    object), which is at least one; when no answered entry has such an
    id, that is the number of all answered entries with its id. *)
Theorem fallback_counts_entries ingredients num w0 :
  key_missing api_key = false ->
  let answered := answers srv (ingredients_list ingredients)
                    (enter GetFallbackRecipes w0) in
  exists out w',
    get_fallback_recipes api_key srv ingredients num w0 = (inr out, w')
    /\ Forall (fun r =>
                 exists k,
                   id_key r = Some k
                   /\ key_truthy k = true
                   /\ annotated (entries_matching k (read answered)) r
                   /\ 1 <= entries_matching k (read answered)
                   /\ (hashable_ids answered ->
                       annotated (entries_matching k answered) r)
                   /\ is_Some (r !! "readyInMinutes")
                   /\ is_Some (r !! "cuisines")
                   /\ is_Some (r !! "image")) out.
Proof.
  intros Hk answered. subst answered. rewrite (get_fallback_eq _ _ _ Hk).
  pose proof (collect_inv srv (ingredients_list ingredients) [] empty_agg
                (enter GetFallbackRecipes w0) empty_agg_inv) as Hinv.
  destruct (collect srv _ empty_agg (enter GetFallbackRecipes w0)) as [st w1].
  simpl in Hinv.
  set (answered := answers srv (ingredients_list ingredients)
                     (enter GetFallbackRecipes w0)) in *.
  pose proof (for_each_from
                (fun r => exists k,
                     id_key r = Some k
                     /\ key_truthy k = true
                     /\ annotated (entries_matching k (read answered)) r
                     /\ 1 <= entries_matching k (read answered)
                     /\ (hashable_ids answered ->
                         annotated (entries_matching k answered) r)
                     /\ is_Some (r !! "readyInMinutes")
                     /\ is_Some (r !! "cuisines")
                     /\ is_Some (r !! "image"))
                (enrich_fallback srv (ingredient_match_count st))
                (ranked st num) w1) as H.
  destruct (for_each _ (ranked st num) w1) as [out w2]. simpl in *.
  exists out, w2. split; [reflexivity|]. apply H. clear H.
  intros r w r' w2' Hin. destruct (ranked_in_all st num r Hin) as [k Hk'].
  destruct (inv_ids _ _ Hinv k r Hk') as (v & Hv & Hkv).
  assert (Hseen : k ∈ all_counted answered).
  { apply (inv_seen _ _ Hinv), list_elem_of_In, in_map_iff.
    exists (k, r). split; [reflexivity | apply list_elem_of_In, Hk']. }
  assert (Htruthy : key_truthy k = true).
  { destruct (key_truthy k) eqn:Et; [reflexivity|].
    exfalso. exact (trace_falsy _ _ Et Hseen). }
  assert (Hcount : default 0 (ingredient_match_count st !! k)
                   = entries_matching k (read answered)).
  { rewrite (inv_count _ _ Hinv k), <- (trace_read _ _ Htruthy).
    destruct (decide (k ∈ all_counted answered)); [reflexivity | contradiction]. }
  unfold enrich_fallback. rewrite Hv.
  destruct (call_information srv v w) as [[e|info] w3]; [discriminate|].
  unfold match_count_opt, id_key, get_default.
  rewrite !lookup_insert_ne by discriminate. rewrite Hv. simpl. rewrite Hkv. simpl.
  intros [= <- _]. exists k.
  assert (Hann : annotated (entries_matching k (read answered))
                   (<["match_count" := VInt (Z.of_nat
                        (default 0 (ingredient_match_count st !! k)))]>
                      (<["image" := default (default (VStr "") (r !! "image"))
                                      (info !! "image")]>
                         (<["cuisines" := default (VList []) (info !! "cuisines")]>
                            (<["readyInMinutes" := get info "readyInMinutes"]> r))))).
  { unfold annotated. rewrite lookup_insert_eq, Hcount. reflexivity. }
  split; [|split; [|split; [|split; [|split; [|split; [|split]]]]]].
  - rewrite !lookup_insert_ne by discriminate. rewrite Hv. exact Hkv.
  - exact Htruthy.
  - exact Hann.
  - rewrite <- (trace_read _ _ Htruthy).
    apply list_elem_of_In, (count_occ_In key_eq_dec) in Hseen. lia.
  - intros Hh. rewrite <- (read_all _ Hh) at 1. exact Hann.
  - rewrite !lookup_insert_ne by discriminate. rewrite lookup_insert_eq. eauto.
  - rewrite !lookup_insert_ne by discriminate. rewrite lookup_insert_eq. eauto.
  - rewrite lookup_insert_ne by discriminate. rewrite lookup_insert_eq. eauto.
Qed.

Lemma for_each_pairs (R : dict -> dict -> Prop) body recipes w :
  (forall r w1, exists r', fst (body r w1) = Some r' /\ R r r') ->
  Forall2 R recipes (fst (for_each body recipes w)).
Proof.
  intros Hb. revert w. induction recipes as [|r rest IH]; intros w; simpl.
  - constructor.
  - destruct (Hb r w) as (r' & E & Hr). destruct (body r w) as [o w1].
    simpl in E. subst o. specialize (IH w1).
    destruct (for_each body rest w1) as [out w2]. simpl in *.
    constructor; assumption.
Qed.

(** X19. The AND search returns the recipes of the search response one
    for one and in order; enrichment writes [readyInMinutes] and
    [cuisines] only, every other field of a recipe is returned as the
    search response had it. *)
Theorem exact_preserves_search_fields ingredients max_time cuisine num search_type
    dish_type low w0 results :
  key_missing api_key = false ->
  String.eqb search_type "OR" = false ->
  complex_search srv (sent w0)
    {| cs_number := num;
       cs_includeIngredients := ingredients;
       cs_maxReadyTime := max_time;
       cs_cuisine := opt_truthy cuisine;
       cs_type := opt_truthy dish_type;
       cs_few_ingredients := low |} = inr results ->
  exists out w',
    get_recipes api_key srv ingredients max_time cuisine num search_type
      dish_type low w0 = (inr out, w')
    /\ Forall2 (fun r r' =>
                  forall k, k <> "readyInMinutes" -> k <> "cuisines" ->
                            r' !! k = r !! k)
         (default [] results) out.
Proof.
  intros Hk Hs Hres. unfold get_recipes, call_complex. rewrite Hk, Hs.
  change (sent (enter GetRecipes w0)) with (sent w0). rewrite Hres.
  match goal with
  | |- context [for_each ?b ?l ?w] =>
      pose proof (for_each_pairs
                    (fun r r' => forall k, k <> "readyInMinutes" ->
                                           k <> "cuisines" -> r' !! k = r !! k)
                    b l w) as H;
      destruct (for_each b l w) as [out w2]
  end.
  exists out, w2. split; [reflexivity|]. apply H. clear.
  intros r w. unfold enrich_and.
  destruct (r !! "id") as [v|]; [|eauto].
  destruct (call_information srv v w) as [[e|info] w1]; simpl; [eauto|].
  eexists. split; [reflexivity|]. intros k H1 H2.
  rewrite !lookup_insert_ne by congruence. reflexivity.
Qed.

(** X20. The filters of the OR search are applied after enrichment and
    only when the detail fetch succeeded: a returned recipe is either a
    ranked recipe as the per-ingredient response had it, or a ranked
    recipe enriched from a detail response that passed the time filter
    (its integer [readyInMinutes] is at most [max_time]) and, when the
    time filter did not raise, the cuisine filter (the cuisine is listed
    among its [cuisines]). *)
Theorem inclusive_filters_apply ingredients max_time cuisine num dish_type low w0 :
  key_missing api_key = false ->
  let st := fst (collect srv (ingredients_list ingredients) empty_agg
                   (enter GetRecipes w0)) in
  exists out w',
    get_recipes api_key srv ingredients max_time cuisine num "OR" dish_type low w0
    = (inr out, w')
    /\ Forall (fun r' =>
         In r' (ranked st num)
         \/ exists r info,
              In r (ranked st num)
              /\ r' = <["image" := get_default info "image"
                                     (get_default r "image" (VStr ""))]>
                        (<["cuisines" := get_default info "cuisines" (VList [])]>
                           (<["readyInMinutes" := get info "readyInMinutes"]> r))
              /\ or_filters max_time cuisine dish_type info <> Drop
              /\ (forall m n, max_time = Some m ->
                    get_default info "readyInMinutes" (VInt 0) = VInt n ->
                    (n <= m)%Z)
              /\ (forall c l, time_check max_time info = Keep ->
                    cuisine = Some c -> PyStr.truthy c = true ->
                    get_default info "cuisines" (VList []) = VList l ->
                    In (VStr c) l)) out.
Proof.
  intros Hk st. subst st. rewrite (get_recipes_or _ _ _ _ _ _ _ _ _ Hk).
  destruct (collect srv _ empty_agg (enter GetRecipes w0)) as [st w1]. simpl fst.
  match goal with
  | |- context [Forall ?P _] =>
      pose proof (for_each_from P (enrich_or srv max_time cuisine dish_type)
                    (ranked st num) w1) as H
  end.
  destruct (for_each _ (ranked st num) w1) as [out w2]. simpl in *.
  exists out, w2. split; [reflexivity|]. apply H. clear H.
  intros r w r' w2' Hin. unfold enrich_or.
  destruct (r !! "id") as [v|]; [|intros [= <- _]; left; exact Hin].
  destruct (call_information srv v w) as [[e|info] w3];
    [intros [= <- _]; left; exact Hin|].
  assert (Htime : forall m n, or_filters max_time cuisine dish_type info <> Drop ->
                    max_time = Some m ->
                    get_default info "readyInMinutes" (VInt 0) = VInt n -> (n <= m)%Z).
  { intros m n Hd -> Hn. unfold or_filters, time_check in Hd. rewrite Hn in Hd.
    destruct (Z.gtb_spec n m); [contradiction | lia]. }
  assert (Hcuisine : forall c l, or_filters max_time cuisine dish_type info <> Drop ->
                       time_check max_time info = Keep ->
                       cuisine = Some c -> PyStr.truthy c = true ->
                       get_default info "cuisines" (VList []) = VList l ->
                       In (VStr c) l).
  { intros c l Hd Ht -> Hc Hl. unfold or_filters in Hd. rewrite Ht in Hd.
    unfold member_check at 1 in Hd. rewrite Hc, Hl in Hd. simpl in Hd.
    match type of Hd with
    | context [existsb ?p l] => destruct (existsb p l) eqn:Ex; [|contradiction]
    end.
    apply existsb_exists in Ex as (x & Hx & Hxc).
    destruct x; try discriminate. apply String.eqb_eq in Hxc. subst. exact Hx. }
  destruct (or_filters max_time cuisine dish_type info) eqn:Ef;
    [|discriminate|]; intros [= <- _]; right; exists r, info;
    (split; [exact Hin|]);
    (split; [unfold get_default; rewrite !lookup_insert_ne by discriminate;
             reflexivity|]);
    (split; [rewrite Ef; discriminate|]);
    (split; [intros m n; apply Htime; discriminate
            |intros c l; apply Hcuisine; discriminate]).
Qed.

End SearchMore.

(** ** Scenarios for the statements above *)

Lemma remove_favorite_witness :
  fst (Favorites.remove_favorite 7 42 [Scenario2.one_row])
  = Favorites.RemovedFromFavorites
  /\ fst (Favorites.remove_favorite 7 43 [Scenario2.one_row])
     = Favorites.NotInFavorites
  /\ fst (Favorites.remove_favorite 7 9223372036854775808 [Scenario2.one_row])
     = Favorites.ServerError Favorites.overflow_text.
Proof.
  destruct (remove_favorite_effect 7 42 [Scenario2.one_row]) as (H1 & _).
  destruct (remove_favorite_effect 7 43 [Scenario2.one_row]) as (_ & H2 & _).
  destruct (remove_favorite_effect 7 9223372036854775808 [Scenario2.one_row])
    as (_ & _ & H3 & _).
  split; [|split].
  - apply H1. left. reflexivity.
  - apply H2; [intros [H|[]]; discriminate | reflexivity].
  - apply H3; [intros [H|[]]; discriminate | reflexivity].
Defined.

Lemma add_favorite_caches_witness :
  exists recipe_data row,
    Api.information Scenario.pantry (Api.sent Api.start) (Json.VInt 42)
    = inr recipe_data
    /\ snd (fst (Favorites.add_favorite Scenario.pantry 7 42 [] Api.start))
       = [] ++ [row]
    /\ (Favorites.user_id row, Favorites.recipe_id row) = (7, 42)%Z
    /\ Favorites.column_text
         (Json.get_default recipe_data "title" (Json.VStr "Unknown"))
       = inr (Favorites.recipe_title row)
    /\ Favorites.column_text
         (Json.get_default recipe_data "image" (Json.VStr ""))
       = inr (Favorites.recipe_image row)
    /\ Api.sent (snd (Favorites.add_favorite Scenario.pantry 7 42 [] Api.start))
       = Api.sent Api.start ++ [Api.Information (Json.VInt 42)].
Proof.
  destruct (add_favorite_caches_fields Scenario.pantry 7 42 [] Api.start)
    as (H & _).
  apply H. vm_compute. reflexivity.
Defined.

(** A title that is a list, a [null] title and an id of 2^63 are each
    answered 500 with nothing written; a numeric title is stored as its
    decimal text. *)
Example add_favorite_failures :
  Favorites.add_favorite (Scenario2.titled (Json.VList [Json.VStr "Omelette"]))
    7 42 [] Api.start
  = (Favorites.ServerError Favorites.unsupported_text, [],
     Api.record (Api.Information (Json.VInt 42)) Api.start)
  /\ Favorites.add_favorite (Scenario2.titled Json.VNone) 7 42 [] Api.start
     = (Favorites.ServerError Favorites.not_null_text, [],
        Api.record (Api.Information (Json.VInt 42)) Api.start)
  /\ Favorites.add_favorite Scenario.pantry 7 9223372036854775808 [] Api.start
     = (Favorites.ServerError Favorites.overflow_text, [], Api.start)
  /\ map Favorites.recipe_title
       (snd (fst (Favorites.add_favorite (Scenario2.titled (Json.VInt 2024))
                    7 42 [] Api.start)))
     = [Json.VStr "2024"].
Proof. vm_compute. repeat split; reflexivity. Qed.

Lemma add_then_remove_witness :
  Favorites.remove_favorite 7 42 [Scenario2.one_row]
  = (Favorites.RemovedFromFavorites, []).
Proof.
  apply (add_then_remove Scenario.pantry 7 42 [] Api.start [Scenario2.one_row]
           (Api.record (Api.Information (Json.VInt 42)) Api.start)).
  vm_compute. reflexivity.
Defined.

Lemma favorite_views_witness :
  Views.get_favorite_ids 7 [Scenario2.one_row] = Views.get_favorite_ids 7 [] ++ [42%Z]
  /\ Views.profile 7 [Scenario2.one_row] = S (Views.profile 7 []).
Proof.
  destruct (favorite_views_follow_table Scenario.pantry 7 42 [] Api.start)
    as (_ & _ & _ & H).
  destruct (H [Scenario2.one_row]
              (Api.record (Api.Information (Json.VInt 42)) Api.start))
    as (H1 & H2 & _).
  - vm_compute. reflexivity.
  - split; [exact H1 | exact H2].
Defined.

Lemma signup_rejects_witness :
  Accounts.signup nat Scenario.toy_hash true "ADA@example.com" "other" 1
    [Scenario2.ada]
  = (Accounts.EmailAlreadyExists, [Scenario2.ada]).
Proof.
  apply (signup_rejects_variant nat Scenario.toy_hash true "Ada@Example.COM"
           "s3cret!" 0 [] [Scenario2.ada] "ADA@example.com" "other" 1);
    reflexivity.
Defined.

Lemma login_sound_witness :
  In Scenario2.ada [Scenario2.ada]
  /\ Accounts.email Scenario2.ada = PyStr.lower "ADA@example.com".
Proof.
  destruct (login_sound Scenario.toy_check true "ADA@example.com" "s3cret!"
              [Scenario2.ada] Scenario2.ada) as (_ & H1 & H2 & _).
  - reflexivity.
  - split; assumption.
Defined.

Lemma more_recipes_witness :
  Paging.get_more_recipes 7 (Paging.CountValue 1) Scenario2.two_stored
    [Scenario2.one_row]
  = Paging.Batch
      (map (Paging.item_of (Views.get_favorite_ids 7 [Scenario2.one_row]))
         (take 9 (drop (Z.to_nat 1)
                    [Scenario.recipe 1 "Omelette"; Scenario.recipe 2 "Egg fried rice"])))
      (1 + Z.of_nat (length (take 9 (drop (Z.to_nat 1)
                    [Scenario.recipe 1 "Omelette"; Scenario.recipe 2 "Egg fried rice"])))
       <? Z.of_nat 2)%Z
      2
      (1 + Z.of_nat (length (take 9 (drop (Z.to_nat 1)
                    [Scenario.recipe 1 "Omelette"; Scenario.recipe 2 "Egg fried rice"]))))%Z.
Proof.
  apply (more_recipes_next_nine 7 Scenario2.two_stored [Scenario2.one_row]
           [Scenario.recipe 1 "Omelette"; Scenario.recipe 2 "Egg fried rice"] 1);
    [reflexivity | discriminate | lia].
Defined.

Lemma more_recipes_bounds_witness :
  Paging.get_more_recipes 7 (Paging.CountValue 5)
    {| Page.s_all_recipes := None; Page.s_is_fallback := None;
       Page.s_search_params := None |}
    [Scenario2.one_row]
  = Paging.NoRecipesInSession.
Proof.
  apply (more_recipes_bounds 7
           {| Page.s_all_recipes := None; Page.s_is_fallback := None;
              Page.s_search_params := None |}
           [Scenario2.one_row] (Paging.CountValue 5)).
  reflexivity.
Defined.

Lemma follow_witness :
  Client.follow 1 7 0 Scenario2.two_stored [Scenario2.one_row]
  = map (Paging.item_of (Views.get_favorite_ids 7 [Scenario2.one_row]))
      (drop (Z.to_nat 0)
         [Scenario.recipe 1 "Omelette"; Scenario.recipe 2 "Egg fried rice"]).
Proof.
  apply (follow_reads_all 7 Scenario2.two_stored [Scenario2.one_row]
           [Scenario.recipe 1 "Omelette"; Scenario.recipe 2 "Egg fried rice"] 1 0);
    [reflexivity | discriminate | lia | simpl; lia].
Defined.

Lemma paging_stored_witness :
  exists items has_more next,
    Paging.get_more_recipes 7 (Paging.CountValue 0)
      (Page.store_recipes_in_session [Scenario.recipe 1 "Omelette"]
         Page.empty_session) [Scenario2.one_row]
    = Paging.Batch items has_more 1 next
    /\ map Paging.fields items
       = take 9 (drop (Z.to_nat 0) (map Page.stored [Scenario.recipe 1 "Omelette"]))
    /\ Forall (fun it =>
                 Paging.is_favorited it = true
                 <-> exists z, Paging.fields it !! "id" = Some (Json.VInt z)
                               /\ In (7, z)%Z (Favorites.pairs [Scenario2.one_row]))
         items.
Proof.
  apply (paging_returns_stored 7 [Scenario2.one_row]
           [Scenario.recipe 1 "Omelette"] Page.empty_session 0);
    [discriminate | lia].
Defined.

Lemma upstream_error_witness :
  let result := Page.ingredients Scenario.some_key Scenario2.over_quota true
                  (Scenario2.and_form "egg") Page.empty_session Api.start in
  Page.recipes (fst (fst result)) = None
  /\ Page.error (fst (fst result)) = Some Page.QuotaExceeded.
Proof.
  destruct (upstream_error_categories Scenario.some_key Scenario2.over_quota
              (Scenario2.and_form "egg") Page.empty_session Api.start
              (Api.HTTPFailure 402)) as (H1 & H2 & _);
    [reflexivity | reflexivity | reflexivity |].
  split; [exact H1 | exact H2].
Defined.

Lemma inclusive_hides_witness :
  let result := Page.ingredients Scenario.some_key Scenario2.over_quota true
                  (Scenario2.or_form "egg, rice") Page.empty_session Api.start in
  Page.recipes (fst (fst result)) = None
  /\ Page.error (fst (fst result)) = Some Page.NoRecipesFound.
Proof.
  destruct (inclusive_hides_upstream_errors Scenario.some_key Scenario2.over_quota
              (Scenario2.or_form "egg, rice") Page.empty_session Api.start)
    as (H1 & H2 & _);
    [reflexivity | reflexivity | intros hist i _; eexists; reflexivity |].
  split; [exact H1 | exact H2].
Defined.

Lemma inclusive_requests_witness :
  let ings := Ingredients.ingredients_list "egg, rice" in
  let st := fst (Search.collect Scenario.pantry ings Search.empty_agg
                   (Api.enter Api.GetRecipes Api.start)) in
  Api.sent (snd (Search.get_recipes Scenario.some_key Scenario.pantry "egg, rice"
                   None None 30 "OR" None false Api.start))
  = Api.sent Api.start ++ Spec2.find_requests ings
    ++ Spec2.detail_requests (Search.ranked st 30).
Proof.
  intros ings st.
  apply (inclusive_requests_exact Scenario.some_key Scenario.pantry "egg, rice"
           None None 30 None false Api.start).
  reflexivity.
Defined.

Lemma ranking_ties_witness :
  let st := fst (Search.collect Scenario.pantry
                   (Ingredients.ingredients_list "egg, rice") Search.empty_agg
                   Api.start) in
  let count := Search.match_count_of (Search.ingredient_match_count st) in
  List.filter (fun r => (count r =? 1)%nat) (Search.ranked st 30)
  = List.filter (fun r => (count r =? 1)%nat) (map snd (Search.all_recipes st)).
Proof.
  intros st count.
  apply (ranking_ties_keep_first_seen st 30 1).
  vm_compute. discriminate.
Defined.

Lemma fallback_ranked_witness :
  exists out w',
    Search.get_fallback_recipes Scenario.some_key Scenario.pantry "egg, rice" 30
      Api.start = (inr out, w')
    /\ NoDup (map Spec.recipe_id out).
Proof.
  destruct (fallback_ranked Scenario.some_key Scenario.pantry "egg, rice" 30
              Api.start eq_refl) as (out & w' & E & Hnd & _).
  exists out, w'. split; assumption.
Defined.

Lemma fallback_counts_witness :
  exists out w',
    Search.get_fallback_recipes Scenario.some_key Scenario.pantry "egg, rice" 30
      Api.start = (inr out, w')
    /\ Forall (fun r => exists n, Spec.annotated n r /\ 1 <= n) out.
Proof.
  destruct (fallback_counts_entries Scenario.some_key Scenario.pantry "egg, rice" 30
              Api.start eq_refl) as (out & w' & E & Hall).
  exists out, w'. split; [exact E|].
  revert Hall. apply List.Forall_impl.
  intros r (k & _ & _ & Ha & Hn & _). eauto.
Defined.

Lemma exact_preserves_witness :
  exists out w',
    Search.get_recipes Scenario.some_key Scenario.pantry "egg" None None 30 "AND"
      None false Api.start = (inr out, w')
    /\ Forall2 (fun r r' => r' !! "title" = r !! "title")
         [Scenario.recipe 1 "Omelette"; Scenario.recipe 2 "Egg fried rice"] out.
Proof.
  destruct (exact_preserves_search_fields Scenario.some_key Scenario.pantry "egg"
              None None 30 "AND" None false Api.start
              (Some [Scenario.recipe 1 "Omelette"; Scenario.recipe 2 "Egg fried rice"])
              eq_refl eq_refl eq_refl) as (out & w' & E & H).
  exists out, w'. split; [exact E|].
  eapply Forall2_impl; [exact H|]. intros r r' Hr. apply Hr; discriminate.
Defined.

Lemma inclusive_filters_witness :
  exists out w',
    Search.get_recipes Scenario.some_key Scenario.pantry "egg, rice" (Some 30%Z)
      (Some "italian") 30 "OR" None false Api.start = (inr out, w').
Proof.
  destruct (inclusive_filters_apply Scenario.some_key Scenario.pantry "egg, rice"
              (Some 30%Z) (Some "italian") 30 None false Api.start eq_refl)
    as (out & w' & E & _).
  exists out, w'. exact E.
Defined.

(** ** The recipe page *)

Section DetailPage.
Import PyStr Json Favorites Views Detail.

Variable srv : server.
Variable listing : list string -> list string -> list string.
Variable format_id : value -> string.

Lemma has_common_none current s :
  s !! "common_ingredients" = Some (VList []) -> has_common current s.
Proof.
  intros H. exists []. repeat split; [exact H | simpl; lia | constructor|].
  intros x [].
Qed.

Lemma on_failure_spec current s s' raised :
  on_failure format_id s = (s', raised) ->
  same_but_annotations s s'
  /\ has_common current s'
  /\ (is_Some (s !! "id") -> raised = false).
Proof.
  unfold on_failure, same_but_annotations.
  destruct (truthy _).
  - intros [= <- <-]. split; [|split; [|reflexivity]].
    + intros k _ Hk. rewrite lookup_insert_ne by congruence. reflexivity.
    + apply has_common_none, lookup_insert_eq.
  - rewrite lookup_insert_ne by discriminate.
    destruct (s !! "id") as [v|] eqn:Hv; intros [= <- <-];
      (split; [|split]).
    + intros k Hi Hk. rewrite !lookup_insert_ne by congruence. reflexivity.
    + apply has_common_none.
      rewrite lookup_insert_ne by discriminate. apply lookup_insert_eq.
    + reflexivity.
    + intros k _ Hk. rewrite lookup_insert_ne by congruence. reflexivity.
    + apply has_common_none, lookup_insert_eq.
    + intros [? ?]. discriminate.
Qed.

Lemma same_but_trans s1 s2 s3 :
  same_but_annotations s1 s2 -> same_but_annotations s2 s3 ->
  same_but_annotations s1 s3.
Proof. intros H1 H2 k Hi Hc. rewrite (H2 k Hi Hc). apply H1; assumption. Qed.

Lemma same_but_image s v : same_but_annotations s (<["image" := v]> s).
Proof. intros k Hi _. rewrite lookup_insert_ne by congruence. reflexivity. Qed.

Lemma same_but_refl s : same_but_annotations s s.
Proof. intros k _ _. reflexivity. Qed.

Lemma info_requests_cons s rest :
  info_requests (s :: rest) = info_requests [s] ++ info_requests rest.
Proof. unfold info_requests. simpl. rewrite app_nil_r. reflexivity. Qed.

Lemma similar_step_log current s log :
  snd (similar_step srv listing format_id current s log) = log ++ info_requests [s].
Proof.
  unfold similar_step, info_requests. simpl. rewrite app_nil_r.
  destruct (s !! "id") as [v|]; [|rewrite app_nil_r; reflexivity].
  destruct (information srv log v); [reflexivity|].
  destruct (names_of _); reflexivity.
Qed.

Lemma similar_loop_log current sims log :
  exists done,
    snd (similar_loop srv listing format_id current sims log)
    = log ++ info_requests done
    /\ length done <= length sims.
Proof.
  revert log. induction sims as [|s rest IH]; intros log; cbn [similar_loop].
  - exists []. rewrite app_nil_r. split; [reflexivity | simpl; lia].
  - pose proof (similar_step_log current s log) as E1.
    destruct (similar_step srv listing format_id current s log) as [[s' r1] log1].
    cbn [snd] in E1. destruct r1.
    + exists [s]. split; [exact E1 | simpl; lia].
    + destruct (IH log1) as (done & Hd & Hl).
      destruct (similar_loop srv listing format_id current rest log1)
        as [[rest' r2] log2].
      cbn [snd] in *. exists (s :: done). split; [|simpl; lia].
      rewrite Hd, E1, (info_requests_cons s done), app_assoc. reflexivity.
Qed.

Hypothesis listing_common : lists_common listing.

Lemma similar_step_spec current s log s' raised log' :
  similar_step srv listing format_id current s log = (s', raised, log') ->
  same_but_annotations s s'
  /\ has_common current s'
  /\ (is_Some (s !! "id") -> raised = false)
  /\ log' = log ++ info_requests [s].
Proof.
  unfold similar_step, info_requests. simpl. rewrite app_nil_r.
  destruct (s !! "id") as [v|] eqn:Hv.
  - destruct (information srv log v) as [e|info].
    + destruct (on_failure format_id s) as [s1 r1] eqn:E. intros [= <- <- <-].
      destruct (on_failure_spec current _ _ _ E) as (H1 & H2 & H3).
      rewrite Hv in H3. auto.
    + destruct (names_of _) as [names|].
      * intros [= <- <- <-]. split; [|split; [|split; reflexivity]].
        -- intros k Hi Hc. rewrite !lookup_insert_ne by congruence. reflexivity.
        -- destruct (listing_common current names) as [Hnd Hin].
           exists (take 3 (listing current names)).
           split; [apply lookup_insert_eq|]. split; [rewrite length_take; lia|].
           split.
           ++ eapply sublist_NoDup; [exact Hnd | apply sublist_take].
           ++ intros x Hx. apply (Hin x), list_elem_of_In.
              eapply elem_of_sublist; [apply list_elem_of_In, Hx | apply sublist_take].
      * destruct (on_failure format_id _) as [s1 r1] eqn:E. intros [= <- <- <-].
        destruct (on_failure_spec current _ _ _ E) as (H1 & H2 & H3).
        split; [eapply same_but_trans; [apply same_but_image | exact H1]|].
        split; [exact H2|]. split; [|reflexivity].
        intros _. apply H3. rewrite lookup_insert_ne by discriminate.
        rewrite Hv. eauto.
  - destruct (on_failure format_id s) as [s1 r1] eqn:E. intros [= <- <- <-].
    destruct (on_failure_spec current _ _ _ E) as (H1 & H2 & H3).
    rewrite app_nil_r. split; [exact H1|]. split; [exact H2|]. split; [|reflexivity].
    intros [? ?]. discriminate.
Qed.

Lemma info_requests_are_info sims : Forall is_info (info_requests sims).
Proof.
  induction sims as [|s rest IH]; [constructor|].
  rewrite info_requests_cons. apply Forall_app. split; [|exact IH].
  unfold info_requests. simpl. destruct (s !! "id"); repeat constructor.
Qed.

Lemma info_requests_length sims : length (info_requests sims) <= length sims.
Proof.
  induction sims as [|s rest IH]; [simpl; lia|].
  rewrite info_requests_cons, length_app. unfold info_requests at 1. simpl.
  destruct (s !! "id"); simpl; lia.
Qed.

(** The loop: every similar recipe keeps its fields but for the two
    annotations; without an exception each carries its common
    ingredients and has had its detail requested. *)
Lemma similar_loop_spec current sims log out raised log' :
  similar_loop srv listing format_id current sims log = (out, raised, log') ->
  Forall2 same_but_annotations sims out
  /\ (raised = false ->
      Forall (has_common current) out /\ log' = log ++ info_requests sims)
  /\ (Forall (fun s => is_Some (s !! "id")) sims -> raised = false)
  /\ exists done, log' = log ++ info_requests done /\ length done <= length sims.
Proof.
  revert log out raised log'.
  induction sims as [|s rest IH]; intros log out raised log'; cbn [similar_loop].
  - intros [= <- <- <-]. repeat split; try constructor.
    + rewrite app_nil_r. reflexivity.
    + exists []. rewrite app_nil_r. split; [reflexivity | simpl; lia].
  - destruct (similar_step srv listing format_id current s log)
      as [[s' r1] log1] eqn:E1.
    destruct (similar_step_spec _ _ _ _ _ _ E1) as (Hs & Hc & Hid & Hlog).
    destruct r1.
    + intros [= <- <- <-]. split; [|split; [|split]].
      * constructor; [exact Hs|]. apply Forall2_same_length_lookup_2; [reflexivity|].
        intros i x y Hx Hy. rewrite Hx in Hy. inversion Hy; subst.
        apply same_but_refl.
      * discriminate.
      * intros Hall. inversion Hall; subst. auto.
      * exists [s]. split; [exact Hlog | simpl; lia].
    + destruct (similar_loop srv listing format_id current rest log1)
        as [[rest' r2] log2] eqn:E2.
      destruct (IH _ _ _ _ E2) as (H1 & H2 & H3 & (done & Hd & Hl)).
      intros [= <- <- <-]. split; [|split; [|split]].
      * constructor; assumption.
      * intros Hr. destruct (H2 Hr) as [Hall Hlog2]. split; [constructor; assumption|].
        rewrite Hlog2, Hlog, (info_requests_cons s rest), app_assoc. reflexivity.
      * intros Hall. inversion Hall; subst. auto.
      * exists (s :: done). split; [|simpl; lia].
        rewrite Hd, Hlog, (info_requests_cons s done), app_assoc. reflexivity.
Qed.

Lemma similar_section_log recipe_id recipe log sims raised log' :
  similar_section srv listing format_id recipe_id recipe log = (sims, raised, log') ->
  exists done,
    log' = log ++ Similar recipe_id :: info_requests done
    /\ length done <= match similar srv log recipe_id with
                      | inr answered => length answered
                      | inl _ => 0
                      end.
Proof.
  unfold similar_section.
  destruct (similar srv log recipe_id) as [e|answered].
  - intros [= <- <- <-]. exists []. split; [reflexivity | simpl; lia].
  - destruct answered as [|s rest] eqn:Ea.
    + intros [= <- <- <-]. exists []. split; [reflexivity | simpl; lia].
    + rewrite <- Ea. destruct (truthy _);
        [destruct (names_of _) as [current|]|];
        try (intros [= <- <- <-]; exists []; split; [reflexivity | simpl; lia]).
      intros E. destruct (similar_loop_log current (s :: rest) (log ++ [Similar recipe_id]))
        as (done & Hd & Hl).
      rewrite <- Ea, E in Hd. simpl in Hd.
      exists done. split; [|rewrite Ea; exact Hl]. rewrite Hd, <- app_assoc. reflexivity.
Qed.

Lemma title_fallback_log recipe_id recipe sims log final log' :
  title_fallback srv recipe_id recipe sims log = (final, log') ->
  log' = log \/ exists query, log' = log ++ [TitleSearch query].
Proof.
  unfold title_fallback. destruct (title_query recipe) as [query|].
  - destruct (title_search srv log query); intros [= <- <-]; right; eauto.
  - intros [= <- <-]. left. reflexivity.
Qed.

Lemma favorited_spec current_user recipe_id rows :
  existsb (Z.eqb recipe_id) (get_favorite_ids current_user rows) = true
  <-> In (current_user, recipe_id) (pairs rows).
Proof.
  rewrite <- ids_member, existsb_exists. split.
  - intros (z & Hin & Hz). apply Z.eqb_eq in Hz. subst. exact Hin.
  - intros Hin. exists recipe_id. split; [exact Hin | apply Z.eqb_refl].
Qed.

(** A text has no first word exactly when it is blank. *)
Lemma first_word_none s : strip s = "" <-> first_word s = None.
Proof.
  unfold first_word, strip. split.
  - intros H. destruct (lstrip s) as [|c t] eqn:E; [reflexivity|].
    exfalso. pose proof (lstrip_no_lead s) as Hn. rewrite E in Hn.
    simpl in Hn, H. destruct (rstrip t); [rewrite Hn in H|]; discriminate.
  - destruct (lstrip s) as [|c t]; [reflexivity | discriminate].
Qed.

(** X23. The recipe page redirects with the failure's message exactly
    when its first request, the full detail fetch, fails, having sent
    nothing else.  When that fetch succeeds the page is always rendered,
    whatever the later calls do, with the fetched recipe as it came and
    the favorite flag of the table; after the fetch it sends one similar
    request, at most one detail request per similar recipe answered, and
    at most one title search, in this order. *)
Theorem detail_renders_or_redirects current_user recipe_id rows log :
  let result := recipe_detail srv listing format_id current_user recipe_id rows log in
  match full_information srv log recipe_id with
  | inl (Api.HTTPFailure status) =>
      result = (Redirected (ErrorLoadingRecipe status),
                log ++ [FullInformation recipe_id])
  | inl (Api.OtherFailure msg) =>
      result = (Redirected (SomethingWentWrong msg),
                log ++ [FullInformation recipe_id])
  | inr recipe =>
      exists is_favorited similar_recipes done tail,
        result = (Rendered recipe is_favorited similar_recipes,
                  log ++ FullInformation recipe_id :: Similar recipe_id
                      :: info_requests done ++ tail)
        /\ (is_favorited = true <-> In (current_user, recipe_id) (pairs rows))
        /\ length done
            <= match similar srv (log ++ [FullInformation recipe_id]) recipe_id with
               | inr answered => length answered
               | inl _ => 0
               end
        /\ (tail = [] \/ exists query, tail = [TitleSearch query])
  end.
Proof.
  intros result. subst result. unfold recipe_detail.
  destruct (full_information srv log recipe_id) as [[status|msg]|recipe];
    try reflexivity.
  destruct (similar_section srv listing format_id recipe_id recipe
              (log ++ [FullInformation recipe_id])) as [[sims raised] log2] eqn:Es.
  destruct (similar_section_log _ _ _ _ _ _ Es) as (done & Hd & Hl).
  destruct raised.
  - destruct (title_fallback srv recipe_id recipe sims log2) as [final log3] eqn:Et.
    destruct (title_fallback_log _ _ _ _ _ _ Et) as [->|[query ->]];
      eexists _, final, done; [exists [] | exists [TitleSearch query]];
      (split; [rewrite Hd, <- !app_assoc; simpl; rewrite ?app_nil_r; reflexivity|]);
      (split; [apply favorited_spec|]); (split; [exact Hl|]); eauto.
  - eexists _, sims, done, [].
    split; [rewrite Hd, <- !app_assoc; simpl; rewrite ?app_nil_r; reflexivity|].
    split; [apply favorited_spec|]. split; [exact Hl|]. left. reflexivity.
Qed.

(** X24. When the similar endpoint answers: if the recipe shown has a
    non-empty ingredient list whose entries are objects with a text (or
    no) name, and every similar recipe has an id, the page shows the
    similar recipes in the order given, each with its own fields but for
    the image and the common ingredients; each carries at most three
    common ingredients, pairwise different and all among the lowercased
    ingredient names of the recipe shown; one detail request was sent per
    similar recipe and no title search.  If no similar recipe is answered
    or the recipe shown has no (or an empty) ingredient list, the similar
    recipes are shown as answered and nothing more is sent.  If the names
    of a non-empty ingredient list cannot be read, no detail request is
    sent and the title search takes over, the similar recipes being shown
    as answered when it gives nothing. *)
Theorem similar_recipes_annotated current_user recipe_id rows log recipe sims :
  full_information srv log recipe_id = inr recipe ->
  similar srv (log ++ [FullInformation recipe_id]) recipe_id = inr sims ->
  let result := recipe_detail srv listing format_id current_user recipe_id rows log in
  let log2 := log ++ [FullInformation recipe_id; Similar recipe_id] in
  let ingredients := get_default recipe "extendedIngredients" (VList []) in
  (forall current,
     truthy (get recipe "extendedIngredients") = true ->
     names_of ingredients = Some current ->
     Forall (fun s => is_Some (s !! "id")) sims ->
     exists is_favorited shown,
       result = (Rendered recipe is_favorited shown, log2 ++ info_requests sims)
       /\ Forall2 same_but_annotations sims shown
       /\ Forall (has_common current) shown)
  /\ (sims = [] \/ truthy (get recipe "extendedIngredients") = false ->
      exists is_favorited, result = (Rendered recipe is_favorited sims, log2))
  /\ (sims <> [] ->
      truthy (get recipe "extendedIngredients") = true ->
      names_of ingredients = None ->
      exists is_favorited shown,
        fst result = Rendered recipe is_favorited shown
        /\ match title_query recipe with
           | None => shown = sims /\ snd result = log2
           | Some query =>
               snd result = log2 ++ [TitleSearch query]
               /\ match title_search srv log2 query with
                  | inl _ => shown = sims
                  | inr results =>
                      shown = take 5 (List.filter (other_than recipe_id)
                                        (default [] results))
                  end
           end).
Proof.
  intros Hfull Hsim result log2 ingredients. subst result log2 ingredients.
  unfold recipe_detail, similar_section. rewrite Hfull, Hsim.
  rewrite <- !app_assoc. simpl app.
  split; [|split].
  - intros current Ht Hn Hids. destruct sims as [|s rest] eqn:Es.
    + eexists _, []. split; [|split; constructor].
      simpl. rewrite ?app_nil_r. reflexivity.
    + rewrite <- Es in *. rewrite Ht, Hn.
      destruct (similar_loop srv listing format_id current sims
                  (log ++ [FullInformation recipe_id; Similar recipe_id]))
        as [[shown raised] log2] eqn:El.
      destruct (similar_loop_spec _ _ _ _ _ _ El) as (H1 & H2 & H3 & _).
      rewrite (H3 Hids) in *. destruct (H2 eq_refl) as [Hc ->].
      eexists _, shown. split; [|split; assumption].
      rewrite <- !app_assoc. reflexivity.
  - intros [->|Hf]; [eexists; reflexivity|].
    destruct sims as [|s rest]; [eexists; reflexivity|].
    rewrite Hf. eexists. reflexivity.
  - intros Hne Ht Hn. destruct sims as [|s rest] eqn:Es; [contradiction|].
    rewrite <- Es in *. rewrite Ht, Hn. unfold title_fallback.
    destruct (title_query recipe) as [query|];
      [|eexists _, sims; split; [reflexivity | split; reflexivity]].
    destruct (title_search srv _ query) as [e'|results];
      eexists _, _; (split; [reflexivity|]); split; reflexivity.
Qed.

(** X25. When the similar endpoint fails, the page sends a title
    search for the first word of the recipe's title, and for the empty
    query when the title is missing or empty; it shows the first five of
    the results that are not the recipe itself, in the order given.  It
    shows no similar recipes when that search fails, or when the title is
    blank or not a text, in which case no search is sent. *)
Theorem title_search_fallback current_user recipe_id rows log recipe e :
  full_information srv log recipe_id = inr recipe ->
  similar srv (log ++ [FullInformation recipe_id]) recipe_id = inl e ->
  let result := recipe_detail srv listing format_id current_user recipe_id rows log in
  let log2 := log ++ [FullInformation recipe_id; Similar recipe_id] in
  (exists is_favorited shown,
     fst result = Rendered recipe is_favorited shown
     /\ length shown <= 5
     /\ Forall (fun r => get r "id" <> VInt recipe_id) shown
     /\ match title_query recipe with
        | None => shown = [] /\ snd result = log2
        | Some query =>
            snd result = log2 ++ [TitleSearch query]
            /\ match title_search srv log2 query with
               | inl _ => shown = []
               | inr results =>
                   shown = take 5 (List.filter (other_than recipe_id)
                                     (default [] results))
                   /\ shown `sublist_of` default [] results
               end
        end)
  /\ (truthy (get recipe "title") = false -> title_query recipe = Some "")
  /\ (forall s, recipe !! "title" = Some (VStr s) -> PyStr.truthy s = true ->
        title_query recipe = first_word s
        /\ (strip s = "" <-> title_query recipe = None))
  /\ (title_query recipe = None ->
      truthy (get recipe "title") = true
      /\ forall s, recipe !! "title" = Some (VStr s) -> strip s = "").
Proof.
  intros Hfull Hsim result log2. subst result log2.
  assert (Htext : forall s, recipe !! "title" = Some (VStr s) ->
                    PyStr.truthy s = true ->
                    title_query recipe = first_word s
                    /\ (strip s = "" <-> title_query recipe = None)).
  { intros s Hs Ht. unfold title_query, get, get_default. rewrite Hs. simpl.
    rewrite Ht. split; [reflexivity|]. apply first_word_none. }
  split; [|split; [|split]].
  - unfold recipe_detail, similar_section, title_fallback. rewrite Hfull, Hsim.
    rewrite <- !app_assoc. simpl app.
    destruct (title_query recipe) as [query|];
      [|eexists _, []; simpl; repeat split; [lia | constructor]].
    destruct (title_search srv _ query) as [e'|results];
      [eexists _, []; simpl; repeat split; [lia | constructor]|].
    eexists _, _. simpl. split; [reflexivity|]. split; [rewrite length_take; lia|].
    split; [|split; [reflexivity|split; [reflexivity|]]].
    + eapply forall_sublist; [apply sublist_take|].
      apply List.Forall_forall. intros r Hr. apply filter_In in Hr as [_ Hr].
      unfold other_than in Hr. intros Heq. rewrite Heq, Z.eqb_refl in Hr. discriminate.
    + etransitivity; [apply sublist_take|]. clear.
      induction (default [] results) as [|r l IH]; simpl; [constructor|].
      destruct (other_than recipe_id r); constructor; exact IH.
  - intros Hf. unfold title_query. rewrite Hf. reflexivity.
  - exact Htext.
  - intros Hq. assert (Ht : truthy (get recipe "title") = true).
    { destruct (truthy (get recipe "title")) eqn:Ht; [reflexivity|].
      unfold title_query in Hq. rewrite Ht in Hq. discriminate. }
    split; [exact Ht|]. intros s Hs.
    unfold get in Ht. rewrite Hs in Ht. simpl in Ht.
    apply (proj2 (Htext s Hs Ht)), Hq.
Qed.

End DetailPage.

Lemma common_listing_ok : Detail.lists_common Scenario3.common_listing.
Proof.
  intros a b. unfold Scenario3.common_listing. split.
  - apply NoDup_remove_dups.
  - intros x. rewrite <- list_elem_of_In, elem_of_remove_dups, list_elem_of_In.
    rewrite filter_In, bool_decide_eq_true, list_elem_of_In. reflexivity.
Qed.

Lemma similar_annotated_witness :
  exists is_favorited shown,
    Detail.recipe_detail Scenario3.kitchen Scenario3.common_listing
      Scenario3.toy_format 7 5 [] []
    = (Detail.Rendered Scenario3.fried_rice is_favorited shown,
       ([] ++ [Detail.FullInformation 5; Detail.Similar 5])
       ++ Detail.info_requests [Scenario.recipe 1 "Omelette"])
    /\ Forall2 Detail.same_but_annotations [Scenario.recipe 1 "Omelette"] shown
    /\ Forall (Detail.has_common ["egg"; "rice"]) shown.
Proof.
  destruct (similar_recipes_annotated Scenario3.kitchen Scenario3.common_listing
              Scenario3.toy_format common_listing_ok 7 5 [] [] Scenario3.fried_rice
              [Scenario.recipe 1 "Omelette"] eq_refl eq_refl) as (H & _).
  apply (H ["egg"; "rice"]).
  - vm_compute. reflexivity.
  - vm_compute. reflexivity.
  - repeat constructor. exists (Json.VInt 1). vm_compute. reflexivity.
Defined.

Lemma title_fallback_witness :
  exists is_favorited shown,
    fst (Detail.recipe_detail Scenario3.no_similar Scenario3.common_listing
           Scenario3.toy_format 7 5 [] [])
    = Detail.Rendered Scenario3.fried_rice is_favorited shown
    /\ length shown <= 5
    /\ Forall (fun r => Json.get r "id" <> Json.VInt 5) shown.
Proof.
  destruct (title_search_fallback Scenario3.no_similar Scenario3.common_listing
              Scenario3.toy_format 7 5 [] [] Scenario3.fried_rice
              (Api.HTTPFailure 500) eq_refl eq_refl)
    as ((fav & shown & H1 & H2 & H3 & _) & _).
  exists fav, shown. repeat split; assumption.
Defined.

Example detail_scenario :
  match fst (Detail.recipe_detail Scenario3.kitchen Scenario3.common_listing
               Scenario3.toy_format 7 5 [] []) with
  | Detail.Rendered _ _ [s] =>
      s !! "common_ingredients" = Some (Json.VList [Json.VStr "egg"])
      /\ s !! "image" = Some (Json.VStr "omelette.jpg")
  | _ => False
  end.
Proof. vm_compute. split; reflexivity. Qed.

Example title_search_scenario :
  match Detail.recipe_detail Scenario3.no_similar Scenario3.common_listing
          Scenario3.toy_format 7 5 [] [] with
  | (Detail.Rendered _ _ shown, log) =>
      shown = [Scenario.recipe 6 "Egg curry"]
      /\ log = [Detail.FullInformation 5; Detail.Similar 5; Detail.TitleSearch "Egg"]
  | _ => False
  end.
Proof. vm_compute. split; reflexivity. Qed.

(** Without a title the search is sent with the empty query and its
    results are shown. *)
Example untitled_scenario :
  Detail.recipe_detail Scenario3.untitled Scenario3.common_listing
    Scenario3.toy_format 7 5 [] []
  = (Detail.Rendered (<["id" := Json.VInt 5]> ∅) false
       [Scenario.recipe 6 "Egg curry"; Scenario.recipe 7 "Risotto"],
     [Detail.FullInformation 5; Detail.Similar 5; Detail.TitleSearch ""]).
Proof. vm_compute. reflexivity. Qed.

(** Without an ingredient list the similar recipes are shown as
    answered, and no detail is requested. *)
Example no_ingredients_scenario :
  Detail.recipe_detail Scenario3.no_ingredients Scenario3.common_listing
    Scenario3.toy_format 7 5 [] []
  = (Detail.Rendered (Scenario.recipe 5 "Egg fried rice") false
       [Scenario.recipe 1 "Omelette"],
     [Detail.FullInformation 5; Detail.Similar 5]).
Proof. vm_compute. reflexivity. Qed.
